(** * NumpyAndStatsFun: the cell computations of the two notebooks

    [distribute_gaussians.ipynb] simulates coin flips (law of large numbers,
    sampling distribution of the mean) and a Monte Carlo integral; the second
    notebook ("Numpy Arrays") is a tour of array construction that ends in an
    abandoned attempt to load a CSV file.

    Conventions of the embedding:
    - Python integers and numpy [int64] entries are [Z]; a one-dimensional
      array is a [list]; the matrix of flips of the first notebook is a list
      of rows, an array of more dimensions of the second notebook its shape
      and its entries in row-major order.
    - A [float64] is idealised: a finite value is an exact number ([Q] for
      the coin statistics, [R] for the integrand, which uses [sin]), and the
      special values that a division by zero produces are kept.  Rounding is
      not modelled.
    - The random number generator is a stream of draws with a cursor that
      every sampling call advances.
    - A Python exception is the left summand of [result].  [NotModelled]
      there is no exception of Python: it stands for an operation of a
      library or of the interpreter that the embedding leaves out, so that
      nothing is stated about what that operation does. *)

From Stdlib Require Import ZArith QArith Reals Psatz Lia String.
From stdpp Require Import base list strings gmap.

(** ** Exceptions and the error monad *)

Inductive exception : Type :=
  | TypeError (msg : string)
  | NameError (msg : string)
  | AttributeError (msg : string)
  | FileNotFoundError (msg : string)
  | IndexError
  | ValueError
  | NotModelled (what : string).

Definition result (A : Type) : Type := exception + A.

#[global] Instance result_ret : MRet result := fun _ x => inr x.
#[global] Instance result_bind : MBind result :=
  fun _ _ f m => match m with inl e => inl e | inr x => f x end.

#[global] Instance result_fmap : FMap result :=
  fun _ _ f m => match m with inl e => inl e | inr x => inr (f x) end.

Definition raise {A} (e : exception) : result A := inl e.

(** A sampling computation: it may raise, and it advances the cursor of the
    random stream. *)
Definition sampler (A : Type) : Type := nat -> result (A * nat).

#[global] Instance sampler_ret : MRet sampler := fun _ x g => inr (x, g).
#[global] Instance sampler_bind : MBind sampler :=
  fun _ _ f m g => match m g with inl e => inl e | inr (x, g') => f x g' end.

Definition lift {A} (r : result A) : sampler A :=
  fun g => match r with inl e => inl e | inr x => inr (x, g) end.

(** [size] draws from a stream; numpy refuses a negative size. *)
Definition draw {A} (stream : nat -> A) (size : Z) : sampler (list A) :=
  fun g =>
    if (size <? 0)%Z then inl ValueError
    else inr (map stream (seq g (Z.to_nat size)), g + Z.to_nat size).

(** [for x in it: body], the carried state first, the loop variable last. *)
Fixpoint for_in {M : Type -> Type} `{!MBind M, !MRet M} {S I : Type}
    (it : list I) (body : S -> I -> M S) (s : S) : M S :=
  match it with
  | [] => mret s
  | i :: it' => s' ← body s i; for_in it' body s'
  end.

(** [[e for x in it]] where [e] samples. *)
Fixpoint comprehension {M : Type -> Type} `{!MBind M, !MRet M} {A I : Type}
    (it : list I) (e : I -> M A) : M (list A) :=
  match it with
  | [] => mret []
  | i :: it' => x ← e i; xs ← comprehension it' e; mret (x :: xs)
  end.

(** ** The numpy operations the cells call *)

Module Numpy.

(** A [float64] over the idealised finite values [A]. *)
Inductive float64 (A : Type) : Type :=
  | Fin (x : A)
  | PInf
  | NInf
  | NaN.
Arguments Fin {A} x.
Arguments PInf {A}.
Arguments NInf {A}.
Arguments NaN {A}.

Definition is_finite {A} (x : float64 A) : bool :=
  match x with Fin _ => true | _ => false end.

(** [np.zeros(n)] and [np.ones(n)]: n floating point zeros, or ones; a
    negative size is refused. *)
Definition filled {A} (x : A) (n : Z) : result (list (float64 A)) :=
  if (n <? 0)%Z then raise ValueError
  else mret (replicate (Z.to_nat n) (Fin x)).

Definition zeros {A} (zero : A) (n : Z) : result (list (float64 A)) :=
  filled zero n.
Definition ones {A} (one : A) (n : Z) : result (list (float64 A)) :=
  filled one n.

(** [np.zeros((m, n), dtype=int)]. *)
Definition zeros2_int (m n : Z) : result (list (list Z)) :=
  if ((m <? 0) || (n <? 0))%Z then raise ValueError
  else mret (replicate (Z.to_nat m) (replicate (Z.to_nat n) 0%Z)).

(** [np.arange(start, stop, step)] for a positive step: the
    ceil((stop - start) / step) values start, start + step, ... *)
Definition arange (start stop : Z) (step : positive) : list Z :=
  let len := Z.to_nat ((stop - start + Z.pos step - 1) / Z.pos step) in
  map (fun k : nat => (start + Z.of_nat k * Z.pos step)%Z) (seq 0 len).

(** [range(n)]. *)
Definition range (n : Z) : list Z := arange 0 n 1.

(** An index into an axis of length [len]: negative indices count from the
    end, anything else out of range is an [IndexError]. *)
Definition norm_index (len : nat) (i : Z) : result nat :=
  if ((0 <=? i) && (i <? Z.of_nat len))%Z then mret (Z.to_nat i)
  else if ((- Z.of_nat len <=? i) && (i <? 0))%Z
       then mret (Z.to_nat (Z.of_nat len + i))
       else raise IndexError.

(** [a[i]] *)
Definition getitem {A} (a : list A) (i : Z) : result A :=
  k ← norm_index (length a) i;
  match a !! k with Some x => mret x | None => raise IndexError end.

(** [a[i] = x] *)
Definition setitem {A} (a : list A) (i : Z) (x : A) : result (list A) :=
  k ← norm_index (length a) i; mret (<[k := x]> a).

(** A slice bound, clipped to the axis as Python does. *)
Definition clip_bound (len : nat) (i : Z) : nat :=
  if (0 <=? i)%Z then Nat.min (Z.to_nat i) len
  else Z.to_nat (Z.of_nat len + i).

(** [a[:stop]] and [a[start:]] *)
Definition slice_to {A} (a : list A) (stop : Z) : list A :=
  take (clip_bound (length a) stop) a.
Definition slice_from {A} (a : list A) (start : Z) : list A :=
  drop (clip_bound (length a) start) a.

(** [start[i, :] = v]: the row is overwritten; [v] must have the length of
    the row, or length one, in which case it is broadcast. *)
Definition broadcast_to {A} (n : nat) (v : list A) : result (list A) :=
  if decide (length v = n) then mret v
  else match v with
       | [x] => mret (replicate n x)
       | _ => raise ValueError
       end.

Definition setrow {A} (a : list (list A)) (i : Z) (v : list A)
  : result (list (list A)) :=
  k ← norm_index (length a) i;
  match a !! k with
  | Some old => v' ← broadcast_to (length old) v; mret (<[k := v']> a)
  | None => raise IndexError
  end.

(** [np.sum] of an integer array: the entries are added up (in exact
    arithmetic the order of the additions does not matter). *)
Definition sum_int (a : list Z) : Z := foldl Z.add 0%Z a.

(** The quotient [s / n] of a sum by a count, in floating point: 0/0 is
    NaN and x/0 an infinity (numpy warns and goes on, it does not raise). *)
Definition true_divide_int (s n : Z) : float64 Q :=
  match n with
  | Z.pos p => Fin (s # p)
  | Z.neg p => Fin (- s # p)
  | Z0 => match s with Z0 => NaN | Z.pos _ => PInf | Z.neg _ => NInf end
  end.

(** [np.mean(a)] and the method [a.mean()] of an integer array: numpy's
    [_mean] adds the entries up and divides by their number. *)
Definition mean_int (a : list Z) : float64 Q :=
  true_divide_int (sum_int a) (Z.of_nat (length a)).

(** [np.mean(a, axis=1)]: the mean of every row. *)
Definition mean_axis1 (a : list (list Z)) : list (float64 Q) :=
  map mean_int a.

(** Addition of two [float64] values. *)
Definition fadd (x y : float64 Q) : float64 Q :=
  match x, y with
  | Fin p, Fin q => Fin (p + q)%Q
  | NaN, _ | _, NaN => NaN
  | PInf, NInf | NInf, PInf => NaN
  | PInf, _ | _, PInf => PInf
  | NInf, _ | _, NInf => NInf
  end.

(** [np.sum] of a float array. *)
Definition sum_float (a : list (float64 Q)) : float64 Q :=
  foldl fadd (Fin 0%Q) a.

(** A float divided by an integer. *)
Definition true_divide_float (s : float64 Q) (n : Z) : float64 Q :=
  match s, n with
  | Fin q, Z0 =>
      match (0 ?= q)%Q with Eq => NaN | Lt => PInf | Gt => NInf end
  | Fin q, _ => Fin (q / inject_Z n)%Q
  | PInf, Z.neg _ => NInf
  | NInf, Z.neg _ => PInf
  | x, _ => x
  end.

(** [np.mean] of a float array. *)
Definition mean_float (a : list (float64 Q)) : float64 Q :=
  true_divide_float (sum_float a) (Z.of_nat (length a)).

(** [np.sum] of an array of finite reals. *)
Definition sum_R (y : list R) : R := foldl Rplus 0%R y.

(** A finite real divided by an integer. *)
Definition true_divide_R (x : R) (n : Z) : float64 R :=
  match n with
  | Z0 => if Req_dec_T x 0 then NaN
          else if Rlt_dec 0 x then PInf else NInf
  | _ => Fin (x / IZR n)%R
  end.

(** [np.linspace(start, stop, num)]: num evenly spaced values from start to
    stop, both included. *)
Definition linspace (start stop : R) (num : Z) : result (list R) :=
  if (num <? 0)%Z then raise ValueError
  else if (num =? 1)%Z then mret [start]
  else mret (map (fun k : nat =>
                    start + INR k * ((stop - start) / IZR (num - 1)))%R
               (seq 0 (Z.to_nat num))).

(** [1/np.sqrt(x)] of a finite real. *)
Definition inv_sqrt (x : R) : float64 R :=
  if Req_dec_T x 0 then PInf
  else if Rlt_dec x 0 then NaN else Fin (1 / sqrt x)%R.

End Numpy.

(** ** distribute_gaussians.ipynb *)

Module Gaussians.
Import Numpy.

Section Coin.
(** The draws of [bernoulli(0.5).rvs], in the order they are made. *)
Variable flips : nat -> bool.

(** def throw_a_coin(n): brv = bernoulli(0.5); return brv.rvs(size=n) *)
Definition throw_a_coin (n : Z) : sampler (list Z) :=
  draw (fun k => Z.b2z (flips k)) n.

(** The law-of-large-numbers cell; its loop body is
    running_means[i-1] = np.mean(random_flips[:i]). *)
Definition running_means_body (random_flips : list Z)
    (running_means : list (float64 Q)) (i : Z) : result (list (float64 Q)) :=
  setitem running_means (i - 1) (mean_int (slice_to random_flips i)).

Definition running_means_cell
  : sampler (list Z * list (float64 Q) * list Z) :=
  random_flips ← throw_a_coin 10000;
  running_means ← lift (zeros 0%Q 10000);
  let sequence_lengths := arange 1 10001 1 in
  running_means ← lift (for_in sequence_lengths
    (running_means_body random_flips) running_means);
  mret (random_flips, running_means, sequence_lengths).

(** def make_throws(number_of_samples, sample_size); the body of its loop
    is start[i,:] = throw_a_coin(sample_size). *)
Definition make_throws_body (sample_size : Z) (start : list (list Z)) (i : Z)
  : sampler (list (list Z)) :=
  row ← throw_a_coin sample_size; lift (setrow start i row).

Definition make_throws (number_of_samples sample_size : Z)
  : sampler (list (float64 Q)) :=
  start ← lift (zeros2_int number_of_samples sample_size);
  start ← for_in (range number_of_samples)
    (make_throws_body sample_size) start;
  mret (mean_axis1 start).

(** sample_sizes=np.arange(1,1001,10) *)
Definition sample_sizes : list Z := arange 1 1001 10.

(** sample_means = [make_throws(number_of_samples=200, sample_size=i)
                    for i in sample_sizes] *)
Definition sample_means : sampler (list (list (float64 Q))) :=
  comprehension sample_sizes (fun i => make_throws 200 i).

(** sample_means_1000_replicates, the same with 1000 replications. *)
Definition sample_means_1000_replicates
  : sampler (list (list (float64 Q))) :=
  comprehension sample_sizes (fun i => make_throws 1000 i).

(** mean_of_sample_means = [np.mean(means) for means in sample_means] *)
Definition mean_of_sample_means (sample_means : list (list (float64 Q)))
  : list (float64 Q) :=
  map mean_float sample_means.

End Coin.

Section MonteCarlo.
(** The draws of the generator behind [np.random.uniform], each in [0, 1),
    in the order they are made. *)
Variable unit_draws : nat -> R.

(** [np.random.uniform(low, high, size)]: low + (high - low) * u for each
    draw u. *)
Definition random_uniform (low high size : Z) : sampler (list R) :=
  draw (fun k => IZR low + (IZR high - IZR low) * unit_draws k)%R size.

(** def f(x): return x**2 + 4*x*np.sin(x) *)
Definition f (x : R) : R := (x ^ 2 + 4 * x * sin x)%R.

(** def intf(x): return x**3/3.0+4.0*np.sin(x) - 4.0*x*np.cos(x) *)
Definition intf (x : R) : R := (x ^ 3 / 3 + 4 * sin x - 4 * x * cos x)%R.

Definition a : Z := 2.
Definition b : Z := 3.

(** exactval= intf(b)-intf(a) *)
Definition exactval : R := (intf (IZR b) - intf (IZR a))%R.

(** One estimate from N draws:
      X = np.random.uniform(low=a, high=b, size=N)
      Y = f(X)
      (b-a) * np.sum(Y) / N *)
Definition estimate (N : Z) : sampler (float64 R) :=
  X ← random_uniform a b N;
  let Y := map f X in
  mret (true_divide_R (IZR (b - a) * sum_R Y) N).

(** for N in np.arange(0,1000): ...; Imc[N] = (b-a) * np.sum(Y) / N *)
Definition scaling_body (Imc : list (float64 R)) (N : Z)
  : sampler (list (float64 R)) :=
  v ← estimate N; lift (setitem Imc N v).

(** [np.sqrt((Imc - exactval)**2)], entry by entry. *)
Definition abs_error (exactval : R) (x : float64 R) : float64 R :=
  match x with
  | Fin v => Fin (sqrt ((v - exactval) ^ 2))
  | NaN => NaN
  | PInf | NInf => PInf
  end.

(** What the two plt.plot calls draw: the abscissae Na[10:], the errors
    np.sqrt((Imc[10:]-exactval)**2) and the reference 1/np.sqrt(Na[10:]). *)
Definition error_plot (Na : list R) (Imc : list (float64 R)) (exactval : R)
  : list R * list (float64 R) * list (float64 R) :=
  (slice_from Na 10,
   map (abs_error exactval) (slice_from Imc 10),
   map inv_sqrt (slice_from Na 10)).

(** The error-scaling cell. *)
Definition scaling_cell
  : sampler (list (float64 R)
             * (list R * list (float64 R) * list (float64 R))) :=
  Imc ← lift (zeros 0%R 1000);
  Na ← lift (linspace 0 1000 1000);
  Imc ← for_in (arange 0 1000 1) scaling_body Imc;
  mret (Imc, error_plot Na Imc exactval).

(** The cell "multiple MC estimations": m=1000 estimates of N=10000 draws
    each, Imc[i] = (b-a) * np.sum(Y) / N. *)
Definition repeated_body (N : Z) (Imc : list (float64 R)) (i : Z)
  : sampler (list (float64 R)) :=
  v ← estimate N; lift (setitem Imc i v).

Definition repeated_cell : sampler (list (float64 R)) :=
  let m := 1000%Z in
  let N := 10000%Z in
  Imc ← lift (zeros 0%R m);
  for_in (arange 0 m 1) (repeated_body N) Imc.

End MonteCarlo.

End Gaussians.

(** ** The notebook kernel *)

Module Kernel.
Import Numpy.

(** The Python values the cells of the second notebook handle.  An array of
    one dimension is the list of its entries; an array of more dimensions is
    its shape and its entries in row-major order, as numpy keeps them.  Of a
    library object whose content no cell of the notebook gets to see (a
    DataFrame) only a name for what it is is kept, and what is done with it
    is [NotModelled]. *)
#[warnings="-register-all"] Inductive pyobj : Type :=
  | PyNone
  | PyInt (n : Z)
  | PyStr (s : string)
  | PyFloat (x : float64 Q)
  | PyList (items : list pyobj)
  | PyTuple (items : list pyobj)
  | PyIntArray (a : list Z)
  | PyFloatArray (a : list (float64 Q))
  | PyIntNd (shape : list nat) (data : list Z)
  | PyFloatNd (shape : list nat) (data : list (float64 Q))
  | PyDtype (name : string)
  | PyModule (name : string)
  | PyFunction (name : string)
  | PyBoundMethod (self : pyobj) (name : string)
  | PyObject (what : string).

(** The machine the notebook runs on: the files pandas can open (a path to
    the lines of the file) and what a shell command prints there, which
    depends on the programs, the files, the locale and the environment of
    that machine. *)
Record world : Type := World {
  files : string -> option (list string);
  shell : string -> list string
}.

(** The state of the kernel: the names bound so far and what the running
    cell has written to its output stream. *)
Record kernel : Type := KernelState {
  globals : gmap string pyobj;
  stdout : list pyobj
}.

(** A cell, or a part of one: it may read the world, it changes the kernel
    state, and it returns or raises.  What was bound before an exception
    stays bound. *)
Definition cell (A : Type) : Type := world -> kernel -> result A * kernel.

#[global] Instance cell_ret : MRet cell := fun _ x _ k => (inr x, k).
#[global] Instance cell_bind : MBind cell :=
  fun _ _ f m w k =>
    match m w k with
    | (inl e, k') => (inl e, k')
    | (inr x, k') => f x w k'
    end.

#[global] Instance cell_fmap : FMap cell :=
  fun _ _ f m w k =>
    match m w k with
    | (inl e, k') => (inl e, k')
    | (inr x, k') => (inr (f x), k')
    end.

Definition throw {A} (e : exception) : cell A := fun _ k => (inl e, k).

Definition lift_result {A} (r : result A) : cell A := fun _ k => (r, k).

(** *** Names *)

(** The builtins the cells call. *)
Definition builtins : list string := ["print"; "len"; "float"]%string.

(** The other names that Python and IPython resolve in a kernel that has
    bound nothing: the rest of the builtin functions and constants, the
    builtin exceptions, and what IPython puts into the namespace.  None of
    them is used by a cell; what they are bound to is not modelled. *)
Definition other_builtins : list string :=
  ["abs"; "aiter"; "all"; "anext"; "any"; "ascii"; "bin"; "bool";
   "breakpoint"; "bytearray"; "bytes"; "callable"; "chr"; "classmethod";
   "compile"; "complex"; "delattr"; "dict"; "dir"; "divmod"; "enumerate";
   "eval"; "exec"; "filter"; "format"; "frozenset"; "getattr"; "globals";
   "hasattr"; "hash"; "help"; "hex"; "id"; "input"; "int"; "isinstance";
   "issubclass"; "iter"; "list"; "locals"; "map"; "max"; "memoryview";
   "min"; "next"; "object"; "oct"; "open"; "ord"; "pow"; "property";
   "range"; "repr"; "reversed"; "round"; "set"; "setattr"; "slice";
   "sorted"; "staticmethod"; "str"; "sum"; "super"; "tuple"; "type";
   "vars"; "zip";
   "True"; "False"; "None"; "NotImplemented"; "Ellipsis";
   "copyright"; "credits"; "license"; "exit"; "quit";
   "In"; "Out"; "get_ipython"; "display";
   "BaseException"; "BaseExceptionGroup"; "Exception"; "ExceptionGroup";
   "ArithmeticError"; "AssertionError"; "AttributeError";
   "BlockingIOError"; "BrokenPipeError"; "BufferError"; "BytesWarning";
   "ChildProcessError"; "ConnectionAbortedError"; "ConnectionError";
   "ConnectionRefusedError"; "ConnectionResetError"; "DeprecationWarning";
   "EOFError"; "EncodingWarning"; "EnvironmentError"; "FileExistsError";
   "FileNotFoundError"; "FloatingPointError"; "FutureWarning";
   "GeneratorExit"; "IOError"; "ImportError"; "ImportWarning";
   "IndentationError"; "IndexError"; "InterruptedError";
   "IsADirectoryError"; "KeyError"; "KeyboardInterrupt"; "LookupError";
   "MemoryError"; "ModuleNotFoundError"; "NameError"; "NotADirectoryError";
   "NotImplementedError"; "OSError"; "OverflowError";
   "PendingDeprecationWarning"; "PermissionError"; "ProcessLookupError";
   "PythonFinalizationError"; "RecursionError"; "ReferenceError";
   "ResourceWarning"; "RuntimeError"; "RuntimeWarning";
   "StopAsyncIteration"; "StopIteration"; "SyntaxError"; "SyntaxWarning";
   "SystemError"; "SystemExit"; "TabError"; "TimeoutError"; "TypeError";
   "UnboundLocalError"; "UnicodeDecodeError"; "UnicodeEncodeError";
   "UnicodeError"; "UnicodeTranslateError"; "UnicodeWarning";
   "UserWarning"; "ValueError"; "Warning"; "ZeroDivisionError"]%string.

(** A name that starts with an underscore: a special attribute or method,
    or one of IPython's history variables. *)
Definition underscored (x : string) : bool := String.prefix "_" x.

(** A name as an expression: the globals, then the builtins, else a
    NameError. *)
Definition name (x : string) : cell pyobj :=
  fun _ k =>
    match globals k !! x with
    | Some v => (inr v, k)
    | None =>
        if bool_decide (x ∈ builtins) then (inr (PyFunction x), k)
        else if bool_decide (x ∈ other_builtins) || underscored x
             then (inl (NotModelled x), k)
             else (inl (NameError ("name '" ++ x ++ "' is not defined")), k)
    end.

Definition store_name (x : string) (v : pyobj) : cell unit :=
  fun _ k => (inr (), KernelState (<[x := v]> (globals k)) (stdout k)).

(** [x = e] *)
Definition assign (x : string) (e : cell pyobj) : cell unit :=
  v ← e; store_name x v.

(** The modules the notebook imports; all of them were installed where it
    was run.  Whether another module can be imported depends on the
    machine. *)
Definition installed : list string :=
  ["numpy"; "pandas"; "matplotlib"; "matplotlib.pyplot"]%string.

(** [import m as x]; a plain [import m] is [import m as m]. *)
Definition import_as (m x : string) : cell unit :=
  if bool_decide (m ∈ installed) then store_name x (PyModule m)
  else throw (NotModelled ("import " ++ m)).

(** *** Attributes *)

(** The name of the type of a value, as Python's error messages give it,
    for the types whose attributes are modelled. *)
Definition type_name (o : pyobj) : option string :=
  match o with
  | PyNone => Some "NoneType"
  | PyInt _ => Some "int"
  | PyStr _ => Some "str"
  | PyList _ => Some "list"
  | PyTuple _ => Some "tuple"
  | PyIntArray _ | PyFloatArray _ | PyIntNd _ _ | PyFloatNd _ _ =>
      Some "numpy.ndarray"
  | PyModule _ => Some "module"
  | _ => None
  end%string.

(** The attributes of the builtin types that do not start with an
    underscore. *)
Definition public_attributes (o : pyobj) : option (list string) :=
  match o with
  | PyNone => Some []
  | PyInt _ =>
      Some ["as_integer_ratio"; "bit_count"; "bit_length"; "conjugate";
            "denominator"; "from_bytes"; "imag"; "is_integer"; "numerator";
            "real"; "to_bytes"]
  | PyList _ =>
      Some ["append"; "clear"; "copy"; "count"; "extend"; "index"; "insert";
            "pop"; "remove"; "reverse"; "sort"]
  | PyTuple _ => Some ["count"; "index"]
  | _ => None
  end%string.

(** The functions of the libraries that the cells call, by module. *)
Definition module_functions (m : string) : list string :=
  (if String.eqb m "numpy"
   then ["array"; "ones"; "zeros"; "eye"; "mean"; "sum"; "dtype"]
   else if String.eqb m "pandas" then ["read_csv"]
   else if String.eqb m "matplotlib.pyplot" then ["imshow"]
   else [])%string.

(** The shape of an array. *)
Definition shape_of (o : pyobj) : option (list nat) :=
  match o with
  | PyIntArray a => Some [length a]
  | PyFloatArray a => Some [length a]
  | PyIntNd shape _ | PyFloatNd shape _ => Some shape
  | _ => None
  end.

Definition dtype_of (o : pyobj) : string :=
  match o with
  | PyIntArray _ | PyIntNd _ _ => "int64"
  | _ => "float64"
  end.

(** [o.a] of a value.  An attribute that a builtin value does not have is
    an AttributeError; of a module, the functions that the cells call are
    modelled; of an array, its shape, its dtype and the methods mean and
    reshape.  Every other attribute is left unmodelled. *)
Definition getattr (o : pyobj) (a : string) : result pyobj :=
  match o with
  | PyModule m =>
      if bool_decide (a ∈ module_functions m)
      then inr (PyFunction (m ++ "." ++ a))
      else raise (NotModelled (m ++ "." ++ a))
  | PyIntArray _ | PyFloatArray _ | PyIntNd _ _ | PyFloatNd _ _ =>
      if String.eqb a "mean" || String.eqb a "reshape"
      then inr (PyBoundMethod o a)
      else if String.eqb a "shape" then
        inr (PyTuple (map (fun n => PyInt (Z.of_nat n))
                        (default [] (shape_of o))))
      else if String.eqb a "dtype" then inr (PyDtype (dtype_of o))
      else raise (NotModelled ("ndarray." ++ a))
  | PyDtype d =>
      if String.eqb a "itemsize"
         && (String.eqb d "float64" || String.eqb d "int64")
      then inr (PyInt 8)
      else raise (NotModelled ("dtype." ++ a))
  | _ =>
      match public_attributes o, type_name o with
      | Some attrs, Some t =>
          if underscored a || bool_decide (a ∈ attrs)
          then raise (NotModelled (t ++ "." ++ a))
          else raise (AttributeError
                        ("'" ++ t ++ "' object has no attribute '" ++ a ++ "'"))
      | _, _ => raise (NotModelled ("." ++ a))
      end
  end%string.

(** [e.a] *)
Definition attr (e : cell pyobj) (a : string) : cell pyobj :=
  o ← e; lift_result (getattr o a).

(** *** The library *)

(** The keyword parameters of the library functions that do not take
    arbitrary keywords; a function that is not listed is not checked. *)
Definition keyword_parameters (f : string) : option (list string) :=
  if String.eqb f "pandas.read_csv" then
    Some ["filepath_or_buffer"; "sep"; "delimiter"; "header"; "names";
          "index_col"; "usecols"; "dtype"; "engine"; "converters";
          "true_values"; "false_values"; "skipinitialspace"; "skiprows";
          "skipfooter"; "nrows"; "na_values"; "keep_default_na";
          "na_filter"; "verbose"; "skip_blank_lines"; "parse_dates";
          "infer_datetime_format"; "keep_date_col"; "date_parser";
          "date_format"; "dayfirst"; "cache_dates"; "iterator";
          "chunksize"; "compression"; "thousands"; "decimal";
          "lineterminator"; "quotechar"; "quoting"; "doublequote";
          "escapechar"; "comment"; "encoding"; "encoding_errors";
          "dialect"; "on_bad_lines"; "delim_whitespace"; "low_memory";
          "memory_map"; "float_precision"; "storage_options";
          "dtype_backend"]%string
  else None.

(** The name a function reports in its error messages. *)
Definition short_name (f : string) : string :=
  if String.eqb f "pandas.read_csv" then "read_csv" else f.

(** Binding the keywords of a call: the first keyword that is not a
    parameter is a TypeError, raised before the body of the function
    runs. *)
Definition bind_keywords (f : string) (kwargs : list (string * pyobj))
  : result unit :=
  match keyword_parameters f with
  | None => mret ()
  | Some params =>
      match List.find (fun kw => negb (bool_decide (kw.1 ∈ params))) kwargs with
      | Some (kw, _) =>
          raise (TypeError (short_name f
                            ++ "() got an unexpected keyword argument '"
                            ++ kw ++ "'"))
      | None => mret ()
      end
  end.

Definition all_ints (items : list pyobj) : option (list Z) :=
  mapM (fun v => match v with PyInt n => Some n | _ => None end) items.

Definition all_floats (items : list pyobj) : option (list (float64 Q)) :=
  mapM (fun v => match v with PyFloat x => Some x | _ => None end) items.

(** The rows of a list of lists of integers. *)
Definition int_rows (items : list pyobj) : option (list (list Z)) :=
  mapM (fun v => match v with PyList r => all_ints r | _ => None end) items.

(** The number of entries of an array of a shape. *)
Definition size_of (shape : list nat) : nat := foldr Nat.mul 1 shape.

(** [np.array(items)] of a list: integers give an array of integers, floats
    one of floats, rows of integers of one length an array of two
    dimensions. *)
Definition array_of_list (items : list pyobj) : result pyobj :=
  match items with
  | [] => inr (PyFloatArray [])
  | _ =>
      match all_ints items, all_floats items, int_rows items with
      | Some a, _, _ => inr (PyIntArray a)
      | None, Some a, _ => inr (PyFloatArray a)
      | None, None, Some (r :: rows) =>
          if forallb (fun r' => length r' =? length r) rows
             && negb (length r =? 0)
          then inr (PyIntNd [S (length rows); length r] (concat (r :: rows)))
          else raise (NotModelled "numpy.array")
      | _, _, _ => raise (NotModelled "numpy.array")
      end
  end.

(** numpy's [_mean], which both [np.mean(a)] and the method [a.mean()] end
    up in: the argument is made an array, its entries are added up and the
    sum is divided by their number. *)
Definition _mean (a : pyobj) : result pyobj :=
  a' ← match a with PyList items => array_of_list items | _ => inr a end;
  match a' with
  | PyIntArray a | PyIntNd _ a => inr (PyFloat (mean_int a))
  | PyFloatArray a | PyFloatNd _ a => inr (PyFloat (mean_float a))
  | _ => raise (NotModelled "numpy.mean")
  end.

(** The rows of an array of [r] rows of [c] entries. *)
Fixpoint rows_of {A} (r c : nat) (data : list A) : list (list A) :=
  match r with
  | 0 => []
  | S r' => take c data :: rows_of r' c (drop c data)
  end.

(** [np.sum(a)], [np.sum(a, axis=0)] and [np.sum(a, axis=1)]. *)
Definition sum_all (a : pyobj) : result pyobj :=
  match a with
  | PyIntArray a | PyIntNd _ a => inr (PyInt (sum_int a))
  | PyFloatArray a | PyFloatNd _ a => inr (PyFloat (sum_float a))
  | _ => raise (NotModelled "numpy.sum")
  end.

Definition sum_axis (a : pyobj) (axis : Z) : result pyobj :=
  match a, axis with
  | (PyIntArray _ | PyFloatArray _), 0%Z => sum_all a
  | PyIntNd [r; c] data, 0%Z =>
      inr (PyIntArray (foldr (zip_with Z.add) (replicate c 0%Z)
                         (rows_of r c data)))
  | PyIntNd [r; c] data, 1%Z =>
      inr (PyIntArray (map sum_int (rows_of r c data)))
  | PyFloatNd [r; c] data, 0%Z =>
      inr (PyFloatArray (foldr (zip_with fadd) (replicate c (Fin 0%Q))
                           (rows_of r c data)))
  | PyFloatNd [r; c] data, 1%Z =>
      inr (PyFloatArray (map sum_float (rows_of r c data)))
  | _, _ => raise (NotModelled "numpy.sum")
  end.

(** [np.ones(shape)] and [np.zeros(shape)] with the entry [x]: a number of
    entries or a list of dimensions; a negative dimension is refused. *)
Definition full_float (x : Q) (shape : pyobj) : result pyobj :=
  match shape with
  | PyInt n => PyFloatArray <$> filled x n
  | PyList dims =>
      match all_ints dims with
      | Some (d1 :: d2 :: ds) =>
          if forallb (fun d => (0 <=? d)%Z) (d1 :: d2 :: ds)
          then inr (PyFloatNd (map Z.to_nat (d1 :: d2 :: ds))
                      (replicate (size_of (map Z.to_nat (d1 :: d2 :: ds)))
                         (Fin x)))
          else raise ValueError
      | Some [d] => PyFloatArray <$> filled x d
      | _ => raise (NotModelled "numpy.ones")
      end
  | _ => raise (NotModelled "numpy.ones")
  end.

(** [np.eye(n)] *)
Definition eye (n : Z) : result pyobj :=
  if (n <? 0)%Z then raise ValueError
  else
    let m := Z.to_nat n in
    inr (PyFloatNd [m; m]
           (flat_map (fun i => map (fun j => if i =? j then Fin 1%Q else Fin 0%Q)
                                 (seq 0 m))
              (seq 0 m))).

(** The library functions that only compute, by name. *)
Definition library_value (f : string) (args : list pyobj)
    (kwargs : list (string * pyobj)) : result pyobj :=
  if String.eqb f "len" then
    match args, kwargs with
    | [PyIntArray a], [] => inr (PyInt (Z.of_nat (length a)))
    | [PyFloatArray a], [] => inr (PyInt (Z.of_nat (length a)))
    | [PyIntNd (n :: _) _], [] | [PyFloatNd (n :: _) _], [] =>
        inr (PyInt (Z.of_nat n))
    | [PyList l], [] | [PyTuple l], [] => inr (PyInt (Z.of_nat (length l)))
    | [PyInt _], [] => raise (TypeError "object of type 'int' has no len()")
    | [PyNone], [] =>
        raise (TypeError "object of type 'NoneType' has no len()")
    | _, _ => raise (NotModelled "len")
    end
  else if String.eqb f "numpy.array" then
    match args, kwargs with
    | [PyList items], [] => array_of_list items
    | _, _ => raise (NotModelled "numpy.array")
    end
  else if String.eqb f "numpy.ones" then
    match args, kwargs with
    | [shape], [] => full_float 1 shape
    | [PyInt n], [("dtype", PyStr "int")] =>
        if (n <? 0)%Z then raise ValueError
        else inr (PyIntArray (replicate (Z.to_nat n) 1%Z))
    | _, _ => raise (NotModelled "numpy.ones")
    end
  else if String.eqb f "numpy.zeros" then
    match args, kwargs with
    | [shape], [] => full_float 0 shape
    | _, _ => raise (NotModelled "numpy.zeros")
    end
  else if String.eqb f "numpy.eye" then
    match args, kwargs with
    | [PyInt n], [] => eye n
    | _, _ => raise (NotModelled "numpy.eye")
    end
  else if String.eqb f "numpy.mean" then
    match args, kwargs with
    | [a], [] => _mean a
    | _, _ => raise (NotModelled "numpy.mean")
    end
  else if String.eqb f "numpy.sum" then
    match args, kwargs with
    | [a], [] => sum_all a
    | [a], [("axis", PyInt axis)] => sum_axis a axis
    | _, _ => raise (NotModelled "numpy.sum")
    end
  else if String.eqb f "numpy.dtype" then
    match args, kwargs with
    | [PyFunction "float"], [] => inr (PyDtype "float64")
    | [PyStr "int"], [] => inr (PyDtype "int64")
    | _, _ => raise (NotModelled "numpy.dtype")
    end
  else raise (NotModelled f).

(** The library functions: [print] writes to the output stream,
    [pd.read_csv] opens the file it is given, the others only compute. *)
Definition library (f : string) (args : list pyobj)
    (kwargs : list (string * pyobj)) : cell pyobj :=
  if String.eqb f "print" then
    match kwargs return cell pyobj with
    | [] => fun _ k => (inr PyNone, KernelState (globals k) (stdout k ++ args))
    | _ => throw (NotModelled "print")
    end
  else if String.eqb f "pandas.read_csv" then
    match args return cell pyobj with
    | [PyStr path] =>
        fun w k =>
          match files w path with
          | Some _ => (inr (PyObject "DataFrame"), k)
          | None =>
              (inl (FileNotFoundError
                      ("[Errno 2] No such file or directory: '" ++ path ++ "'")),
               k)
          end
    | _ => throw (NotModelled "pandas.read_csv")
    end
  else lift_result (library_value f args kwargs).

(** [a.reshape(d1, ..., dn)]: the entries in the same order under a new
    shape; one dimension may be -1 and is then inferred; a shape that does
    not hold just the entries of the array is a ValueError. *)
Definition inferred_shape (size : nat) (dims : list Z) : result (list nat) :=
  let known := List.filter (fun d => negb (d =? -1)%Z) dims in
  let product := size_of (map Z.to_nat known) in
  if negb (forallb (fun d => (0 <=? d)%Z) known) then raise ValueError
  else match length dims - length known with
       | 0 => if product =? size then inr (map Z.to_nat dims)
              else raise ValueError
       | 1 => if (product =? 0) || negb (size mod product =? 0)
              then raise ValueError
              else inr (map (fun d => if (d =? -1)%Z then size / product
                                      else Z.to_nat d) dims)
       | _ => raise ValueError
       end.

Definition reshape (self : pyobj) (args : list pyobj) : result pyobj :=
  match all_ints args with
  | Some (d :: dims) =>
      match self with
      | PyIntArray a | PyIntNd _ a =>
          shape ← inferred_shape (length a) (d :: dims);
          match shape with
          | [_] => inr (PyIntArray a)
          | _ => inr (PyIntNd shape a)
          end
      | PyFloatArray a | PyFloatNd _ a =>
          shape ← inferred_shape (length a) (d :: dims);
          match shape with
          | [_] => inr (PyFloatArray a)
          | _ => inr (PyFloatNd shape a)
          end
      | _ => raise (NotModelled "reshape")
      end
  | _ => raise (NotModelled "reshape")
  end.

(** A call of a method of an array. *)
Definition method (self : pyobj) (m : string) (args : list pyobj)
    (kwargs : list (string * pyobj)) : result pyobj :=
  match kwargs with
  | [] =>
      if String.eqb m "mean" then
        match args with
        | [] => _mean self
        | _ => raise (NotModelled "ndarray.mean")
        end
      else if String.eqb m "reshape" then reshape self args
      else raise (NotModelled m)
  | _ => raise (NotModelled m)
  end.

(** A call [f(args, **kwargs)] of what [f] evaluated to: a function of the
    library, a method, or a value that cannot be called. *)
Definition apply (f : pyobj) (args : list pyobj)
    (kwargs : list (string * pyobj)) : cell pyobj :=
  match f with
  | PyFunction f =>
      lift_result (bind_keywords f kwargs);; library f args kwargs
  | PyBoundMethod self m => lift_result (method self m args kwargs)
  | _ =>
      match type_name f with
      | Some t => throw (TypeError ("'" ++ t ++ "' object is not callable"))
      | None => throw (NotModelled "call")
      end
  end.

(** The operands of a call, left to right. *)
Fixpoint eval_args (es : list (cell pyobj)) : cell (list pyobj) :=
  match es with
  | [] => mret []
  | e :: es' => v ← e; vs ← eval_args es'; mret (v :: vs)
  end.

Fixpoint eval_kwargs (es : list (string * cell pyobj))
  : cell (list (string * pyobj)) :=
  match es with
  | [] => mret []
  | (kw, e) :: es' => v ← e; vs ← eval_kwargs es'; mret ((kw, v) :: vs)
  end.

(** [f(args, kw=...)]: the callee, then the operands, then the call. *)
Definition call (f : cell pyobj) (args : list (cell pyobj))
    (kwargs : list (string * cell pyobj)) : cell pyobj :=
  fv ← f; vs ← eval_args args; kvs ← eval_kwargs kwargs; apply fv vs kvs.

(** [[e1, ..., en]] and [(e1, ..., en)] *)
Definition list_of (es : list (cell pyobj)) : cell pyobj :=
  PyList <$> eval_args es.
Definition tuple_of (es : list (cell pyobj)) : cell pyobj :=
  PyTuple <$> eval_args es.

(** *** Indexing, arithmetic and loops *)

Definition not_subscriptable (o : pyobj) : exception :=
  match o with
  | PyInt _ => TypeError "'int' object is not subscriptable"
  | PyNone => TypeError "'NoneType' object is not subscriptable"
  | _ => NotModelled "subscript"
  end.

(** [o[lo:hi]] *)
Definition getslice (o : pyobj) (lo hi : Z) : result pyobj :=
  match o with
  | PyIntArray a => inr (PyIntArray (slice_from (slice_to a hi) lo))
  | PyFloatArray a => inr (PyFloatArray (slice_from (slice_to a hi) lo))
  | PyList l => inr (PyList (slice_from (slice_to l hi) lo))
  | PyTuple l => inr (PyTuple (slice_from (slice_to l hi) lo))
  | _ => raise (not_subscriptable o)
  end.

Definition slice (e : cell pyobj) (lo hi : Z) : cell pyobj :=
  o ← e; lift_result (getslice o lo hi).

(** [o[i]] and [o[i, j]] *)
Definition getindex (o : pyobj) (idx : list Z) : result pyobj :=
  match o, idx with
  | PyIntArray a, [i] => PyInt <$> getitem a i
  | PyFloatArray a, [i] => PyFloat <$> getitem a i
  | PyList l, [i] | PyTuple l, [i] => getitem l i
  | PyIntNd [r; c] data, [i; j] =>
      i' ← norm_index r i; j' ← norm_index c j;
      match data !! (i' * c + j') with
      | Some x => inr (PyInt x)
      | None => raise IndexError
      end
  | PyFloatNd [r; c] data, [i; j] =>
      i' ← norm_index r i; j' ← norm_index c j;
      match data !! (i' * c + j') with
      | Some x => inr (PyFloat x)
      | None => raise IndexError
      end
  | _, _ => raise (not_subscriptable o)
  end.

Definition subscript (e : cell pyobj) (idx : list Z) : cell pyobj :=
  o ← e; lift_result (getindex o idx).

(** The product of two floats; 0 times an infinity is NaN. *)
Definition fmul (x y : float64 Q) : float64 Q :=
  match x, y with
  | Fin p, Fin q => Fin (p * q)%Q
  | NaN, _ | _, NaN => NaN
  | Fin p, inf | inf, Fin p =>
      match (0 ?= p)%Q with
      | Eq => NaN
      | Lt => inf
      | Gt => match inf with PInf => NInf | _ => PInf end
      end
  | PInf, PInf | NInf, NInf => PInf
  | _, _ => NInf
  end.

Definition float_of_int (n : Z) : float64 Q := Fin (inject_Z n).

(** [x + y] and [x * y] of arrays of one dimension and numbers, entry by
    entry. *)
Definition elementwise (op : string) (x y : pyobj) : result pyobj :=
  let float_op := if String.eqb op "+" then fadd else fmul in
  let int_op := if String.eqb op "+" then Z.add else Z.mul in
  match x, y with
  | PyInt m, PyInt n => inr (PyInt (int_op m n))
  | PyFloatArray a, PyFloatArray b =>
      if length a =? length b
      then inr (PyFloatArray (zip_with float_op a b))
      else raise (NotModelled "broadcast")
  | PyIntArray a, PyIntArray b =>
      if length a =? length b
      then inr (PyIntArray (zip_with int_op a b))
      else raise (NotModelled "broadcast")
  | PyFloatArray a, PyInt n =>
      inr (PyFloatArray (map (fun v => float_op v (float_of_int n)) a))
  | PyIntArray a, PyInt n => inr (PyIntArray (map (fun v => int_op v n) a))
  | _, _ => raise (NotModelled op)
  end.

(** [m @ v] of a float matrix and a vector of integers. *)
Definition matmul (x y : pyobj) : result pyobj :=
  match x, y with
  | PyFloatNd [r; c] m, PyIntArray v =>
      if c =? length v
      then inr (PyFloatArray
                  (map (fun row =>
                          sum_float (zip_with fmul row (map float_of_int v)))
                     (rows_of r c m)))
      else raise ValueError
  | _, _ => raise (NotModelled "@")
  end.

(** [e1 + e2], [e1 * e2], [e1 @ e2]; [+] of two lists appends them. *)
Definition binary (op : string) (e1 e2 : cell pyobj) : cell pyobj :=
  x ← e1; y ← e2;
  lift_result
    (if String.eqb op "@" then matmul x y
     else if String.eqb op "+" || String.eqb op "*" then
       match x, y with
       | PyList l1, PyList l2 =>
           if String.eqb op "+" then inr (PyList (l1 ++ l2))
           else raise (TypeError
                         "can't multiply sequence by non-int of type 'list'")
       | _, _ => elementwise op x y
       end
     else raise (NotModelled op)).

(** [for x in e: body] *)
Definition for_loop (x : string) (e : cell pyobj) (body : cell unit)
  : cell unit :=
  o ← e;
  match o return cell unit with
  | PyIntArray a =>
      for_in (map PyInt a) (fun _ v => store_name x v;; body) ()
  | PyFloatArray a =>
      for_in (map PyFloat a) (fun _ v => store_name x v;; body) ()
  | PyList l | PyTuple l => for_in l (fun _ v => store_name x v;; body) ()
  | PyInt _ => throw (TypeError "'int' object is not iterable")
  | PyNone => throw (TypeError "'NoneType' object is not iterable")
  | _ => throw (NotModelled "for")
  end.

(** An expression statement that is not the last of its cell. *)
Definition expr (e : cell pyobj) : cell unit := e;; mret ().

(** [!command]: IPython hands the line to the shell of the machine and
    the cell shows what the command prints; it raises nothing. *)
Definition shell_escape (command : string) : cell pyobj :=
  fun w k =>
    (inr PyNone,
     KernelState (globals k) (stdout k ++ map PyStr (shell w command))).

(** *** Cells *)

(** What a cell leaves in the notebook: its output stream and either the
    value of its last expression or the exception that ended it. *)
Record output : Type := Output {
  stream : list pyobj;
  outcome : result pyobj
}.

(** Running a cell in the kernel: the exception of a cell ends that cell
    only; the kernel and its names live on. *)
Definition run_cell (w : world) (c : cell pyobj) (k : kernel)
  : output * kernel :=
  let '(r, k') := c w (KernelState (globals k) []) in
  (Output (stdout k') r, k').

(** Running the cells of a notebook in order: the output of every cell and
    the kernel state it leaves. *)
Fixpoint run_cells (w : world) (cs : list (cell pyobj)) (k : kernel)
  : list (output * kernel) :=
  match cs with
  | [] => []
  | c :: cs' =>
      let ok := run_cell w c k in ok :: run_cells w cs' ok.2
  end.

(** A kernel that has just been started. *)
Definition fresh : kernel := KernelState ∅ [].

(** The expressions that are constants. *)
Definition int (n : Z) : cell pyobj := mret (PyInt n).
Definition str (s : string) : cell pyobj := mret (PyStr s).
Definition float (q : Q) : cell pyobj := mret (PyFloat (Fin q)).
Definition none : cell pyobj := mret PyNone.

End Kernel.

(** ** The second notebook, "Numpy Arrays" *)

Module NumpyArrays.
Import Numpy Kernel.

Definition mnist_test_csv : string :=
  "/Users/yudhistirabiswal/Downloads/MNIST_CSV/mnist_test.csv".

(** The code cells, in the order of the notebook. *)

(** import numpy as np *)
Definition cell01 : cell pyobj := import_as "numpy" "np";; none.

(** my_array = np.array([1, 2, 3, 4]); my_array *)
Definition cell02 : cell pyobj :=
  assign "my_array"
    (call (attr (name "np") "array") [list_of [int 1; int 2; int 3; int 4]] []);;
  name "my_array".

(** print(len(my_array)); print(my_array[2:4]);
    for ele in my_array: print(ele) *)
Definition cell03 : cell pyobj :=
  expr (call (name "print") [call (name "len") [name "my_array"] []] []);;
  expr (call (name "print") [slice (name "my_array") 2 4] []);;
  for_loop "ele" (name "my_array")
    (expr (call (name "print") [name "ele"] []));;
  none.

(** print(my_array.mean()); print(np.mean(my_array)) *)
Definition cell04 : cell pyobj :=
  expr (call (name "print") [call (attr (name "my_array") "mean") [] []] []);;
  call (name "print") [call (attr (name "np") "mean") [name "my_array"] []] [].

(** np.ones(10) *)
Definition cell05 : cell pyobj := call (attr (name "np") "ones") [int 10] [].

(** np.dtype(float).itemsize *)
Definition cell06 : cell pyobj :=
  attr (call (attr (name "np") "dtype") [name "float"] []) "itemsize".

(** np.ones(10, dtype='int') *)
Definition cell07 : cell pyobj :=
  call (attr (name "np") "ones") [int 10] [("dtype", str "int")].

(** np.ones(10, dtype='int').dtype *)
Definition cell08 : cell pyobj :=
  attr (call (attr (name "np") "ones") [int 10] [("dtype", str "int")]) "dtype".

(** np.zeros(10) *)
Definition cell09 : cell pyobj := call (attr (name "np") "zeros") [int 10] [].

(** np.eye(3) *)
Definition cell10 : cell pyobj := call (attr (name "np") "eye") [int 3] [].

(** np.eye(3) @ np.array([1,2,3]) *)
Definition cell11 : cell pyobj :=
  binary "@" (call (attr (name "np") "eye") [int 3] [])
    (call (attr (name "np") "array") [list_of [int 1; int 2; int 3]] []).

(** np.eye(3).shape, np.array([1,2,3]).shape *)
Definition cell12 : cell pyobj :=
  tuple_of
    [attr (call (attr (name "np") "eye") [int 3] []) "shape";
     attr (call (attr (name "np") "array") [list_of [int 1; int 2; int 3]] [])
       "shape"].

(** first = np.ones(5); second = np.ones(5); first + second *)
Definition cell13 : cell pyobj :=
  assign "first" (call (attr (name "np") "ones") [int 5] []);;
  assign "second" (call (attr (name "np") "ones") [int 5] []);;
  binary "+" (name "first") (name "second").

(** first_list = [1., 1., 1., 1., 1.]; second_list = [1., 1., 1., 1., 1.];
    first_list + second_list *)
Definition cell14 : cell pyobj :=
  assign "first_list" (list_of [float 1; float 1; float 1; float 1; float 1]);;
  assign "second_list" (list_of [float 1; float 1; float 1; float 1; float 1]);;
  binary "+" (name "first_list") (name "second_list").

(** first + 1 *)
Definition cell15 : cell pyobj := binary "+" (name "first") (int 1).

(** first*5 *)
Definition cell16 : cell pyobj := binary "*" (name "first") (int 5).

(** my_array2d = np.array([ [1, 2, 3, 4], [5, 6, 7, 8], [9, 10, 11, 12] ]);
    my_array2d *)
Definition cell17 : cell pyobj :=
  assign "my_array2d"
    (call (attr (name "np") "array")
       [list_of [list_of [int 1; int 2; int 3; int 4];
                 list_of [int 5; int 6; int 7; int 8];
                 list_of [int 9; int 10; int 11; int 12]]] []);;
  name "my_array2d".

(** my_array2d.shape *)
Definition cell18 : cell pyobj := attr (name "my_array2d") "shape".

(** ones_2d = np.ones([3, 4]); ones_2d *)
Definition cell19 : cell pyobj :=
  assign "ones_2d" (call (attr (name "np") "ones") [list_of [int 3; int 4]] []);;
  name "ones_2d".

(** print(my_array2d); my_array2d[2, 3] *)
Definition cell20 : cell pyobj :=
  expr (call (name "print") [name "my_array2d"] []);;
  subscript (name "my_array2d") [2; 3]%Z.

(** onesarray = np.ones([3,4]); onesarray *)
Definition cell21 : cell pyobj :=
  assign "onesarray"
    (call (attr (name "np") "ones") [list_of [int 3; int 4]] []);;
  name "onesarray".

(** onesarray.shape *)
Definition cell22 : cell pyobj := attr (name "onesarray") "shape".

(** np.sum(onesarray) *)
Definition cell23 : cell pyobj :=
  call (attr (name "np") "sum") [name "onesarray"] [].

(** np.sum(onesarray, axis=0) *)
Definition cell24 : cell pyobj :=
  call (attr (name "np") "sum") [name "onesarray"] [("axis", int 0)].

(** np.sum(my_array2d, axis=0) *)
Definition cell25 : cell pyobj :=
  call (attr (name "np") "sum") [name "my_array2d"] [("axis", int 0)].

(** np.sum(onesarray, axis=1) *)
Definition cell26 : cell pyobj :=
  call (attr (name "np") "sum") [name "onesarray"] [("axis", int 1)].

(** import pandas as pd;
    test_data = pd.read_csv(mnist_test_csv, head= None);
    test_data.head() *)
Definition cell27 : cell pyobj :=
  import_as "pandas" "pd";;
  assign "test_data"
    (call (attr (name "pd") "read_csv") [str mnist_test_csv] [("head", none)]);;
  call (attr (name "test_data") "head") [] [].

(** labels = test_data[0].copy().values *)
Definition cell28 : cell pyobj :=
  assign "labels"
    (attr (call (attr (subscript (name "test_data") [0%Z]) "copy") [] [])
       "values");;
  none.

(** labels *)
Definition cell29 : cell pyobj := name "labels".

(** test_images_df = test_data.drop(0, axis=1); test_images_df.shape *)
Definition cell30 : cell pyobj :=
  assign "test_images_df"
    (call (attr (name "test_data") "drop") [int 0] [("axis", int 1)]);;
  attr (name "test_images_df") "shape".

(** test_images = test_images_df.values *)
Definition cell31 : cell pyobj :=
  assign "test_images" (attr (name "test_images_df") "values");;
  none.

(** test_images.shape *)
Definition cell32 : cell pyobj := attr (name "test_images") "shape".

(** test_images_tensor = test_images.reshape(-1, 28, 28);
    test_iamges_tensor.shape *)
Definition cell33 : cell pyobj :=
  assign "test_images_tensor"
    (call (attr (name "test_images") "reshape") [int (-1); int 28; int 28] []);;
  attr (name "test_iamges_tensor") "shape".

(** !head -10 /Users/yudhistirabiswal/Downloads/MNIST_CSV/mnist_test.csv *)
Definition cell34 : cell pyobj :=
  shell_escape ("head -10 " ++ mnist_test_csv).

(** import matplotlib *)
Definition cell35 : cell pyobj := import_as "matplotlib" "matplotlib";; none.

(** import matplotlib.pyplot as plt *)
Definition cell36 : cell pyobj := import_as "matplotlib.pyplot" "plt";; none.

(** plt.imshow(first_image) *)
Definition cell37 : cell pyobj :=
  call (attr (name "plt") "imshow") [name "first_image"] [].

Definition cells : list (cell pyobj) :=
  [cell01; cell02; cell03; cell04; cell05; cell06; cell07; cell08; cell09;
   cell10; cell11; cell12; cell13; cell14; cell15; cell16; cell17; cell18;
   cell19; cell20; cell21; cell22; cell23; cell24; cell25; cell26; cell27;
   cell28; cell29; cell30; cell31; cell32; cell33; cell34; cell35; cell36;
   cell37].

(** The notebook run from top to bottom in a fresh kernel. *)
Definition run (w : world) : list (output * kernel) := run_cells w cells fresh.

(** The error outputs committed with the notebook that an in-order run can
    be compared with, by position of the cell (from 0).  The last cell is
    left out: it was run before the import of plt. *)
Definition recorded_errors : list (nat * exception) :=
  [(26, TypeError "read_csv() got an unexpected keyword argument 'head'");
   (28, NameError "name 'labels' is not defined");
   (29, NameError "name 'test_data' is not defined");
   (30, NameError "name 'test_images_df' is not defined");
   (31, NameError "name 'test_images' is not defined");
   (32, NameError "name 'test_images' is not defined")].

(** The values displayed under the cells in the notebook committed, by
    position of the cell (from 0): what [Out] shows for the last expression
    of the cell. *)
Definition recorded_values : list (nat * pyobj) :=
  [(1, PyIntArray [1; 2; 3; 4]%Z);
   (4, PyFloatArray (replicate 10 (Fin 1%Q)));
   (5, PyInt 8);
   (6, PyIntArray (replicate 10 1%Z));
   (7, PyDtype "int64");
   (8, PyFloatArray (replicate 10 (Fin 0%Q)));
   (9, PyFloatNd [3; 3]
         [Fin 1%Q; Fin 0%Q; Fin 0%Q;
          Fin 0%Q; Fin 1%Q; Fin 0%Q;
          Fin 0%Q; Fin 0%Q; Fin 1%Q]);
   (10, PyFloatArray [Fin 1%Q; Fin 2%Q; Fin 3%Q]);
   (11, PyTuple [PyTuple [PyInt 3; PyInt 3]; PyTuple [PyInt 3]]);
   (12, PyFloatArray (replicate 5 (Fin 2%Q)));
   (13, PyList (replicate 10 (PyFloat (Fin 1%Q))));
   (14, PyFloatArray (replicate 5 (Fin 2%Q)));
   (15, PyFloatArray (replicate 5 (Fin 5%Q)));
   (16, PyIntNd [3; 4] [1; 2; 3; 4; 5; 6; 7; 8; 9; 10; 11; 12]%Z);
   (17, PyTuple [PyInt 3; PyInt 4]);
   (18, PyFloatNd [3; 4] (replicate 12 (Fin 1%Q)));
   (19, PyInt 12);
   (20, PyFloatNd [3; 4] (replicate 12 (Fin 1%Q)));
   (21, PyTuple [PyInt 3; PyInt 4]);
   (22, PyFloat (Fin 12%Q));
   (23, PyFloatArray (replicate 4 (Fin 3%Q)));
   (24, PyIntArray [15; 18; 21; 24]%Z);
   (25, PyFloatArray (replicate 3 (Fin 4%Q)))].

(** What the cells that print integers have written, value by value. *)
Definition recorded_streams : list (nat * list pyobj) :=
  [(2, [PyInt 4; PyIntArray [3; 4]%Z; PyInt 1; PyInt 2; PyInt 3; PyInt 4]);
   (19, [PyIntNd [3; 4] [1; 2; 3; 4; 5; 6; 7; 8; 9; 10; 11; 12]%Z])].

End NumpyArrays.

(** ** The text of the code cells *)

Module Source.

(** The double quote character, as a string. *)
Definition dq : string := String (Ascii.ascii_of_nat 34) EmptyString.

(** The code cells of the second notebook, line by line. *)
Definition numpy_arrays : list (list string) :=
  [["import numpy as np # imports a fast numerical programming library"];
   ["my_array = np.array([1, 2, 3, 4])";
    "my_array"];
   ["print(len(my_array))";
    "print(my_array[2:4])";
    "for ele in my_array:";
    "    print(ele)"];
   ["print(my_array.mean())";
    "print(np.mean(my_array))"];
   ["np.ones(10) # generates 10 floating point ones"];
   ["np.dtype(float).itemsize # in bytes"];
   ["np.ones(10, dtype='int') # generates 10 integer ones"];
   ["np.ones(10, dtype='int').dtype"];
   ["np.zeros(10)"];
   ["np.eye(3)"];
   ["np.eye(3) @ np.array([1,2,3])"];
   ["np.eye(3).shape, np.array([1,2,3]).shape"];
   ["first = np.ones(5)";
    "second = np.ones(5)";
    "first + second"];
   ["first_list = [1., 1., 1., 1., 1.]";
    "second_list = [1., 1., 1., 1., 1.]";
    "first_list + second_list #not what u want"];
   ["first + 1 #1. 1. 1. 1. 1. 1. +1 1 1 1 1 "];
   ["first*5"];
   ["my_array2d = np.array([ [1, 2, 3, 4], [5, 6, 7, 8], [9, 10, 11, 12] ])";
    "my_array2d"];
   ["my_array2d.shape"];
   ["# 3 x 4 array of ones";
    "ones_2d = np.ones([3, 4])";
    "ones_2d"];
   ["print(my_array2d)";
    "my_array2d[2, 3]"];
   ["onesarray = np.ones([3,4])";
    "onesarray"];
   ["onesarray.shape"];
   ["np.sum(onesarray)"];
   ["np.sum(onesarray, axis=0)"];
   ["np.sum(my_array2d, axis=0)"];
   ["np.sum(onesarray, axis=1)"];
   ["import pandas as pd";
    ("test_data = pd.read_csv(" ++ dq ++ "/Users/yudhistirabiswal/Downloads/MNIST_CSV/mnist_test.csv" ++ dq ++ ", head= None)")%string;
    "test_data.head()"];
   ["labels = test_data[0].copy().values"];
   ["labels"];
   ["test_images_df = test_data.drop(0, axis=1) ";
    "test_images_df.shape"];
   ["test_images = test_images_df.values"];
   ["test_images.shape"];
   ["test_images_tensor = test_images.reshape(-1, 28, 28)";
    "test_iamges_tensor.shape"];
   ["!head -10 /Users/yudhistirabiswal/Downloads/MNIST_CSV/mnist_test.csv"];
   ["import matplotlib"];
   ["import matplotlib.pyplot as plt "];
   ["plt.imshow(first_image)"]].

(** The code cells of distribute_gaussians.ipynb, line by line. *)
Definition distribute_gaussians : list (list string) :=
  [["%matplotlib inline";
    "import numpy as np";
    "import scipy as sp";
    "import matplotlib as mpl";
    "import matplotlib.cm as cm";
    "import matplotlib.pyplot as plt";
    "import pandas as pd";
    "from scipy.stats import bernoulli"];
   ["def throw_a_coin(n):";
    "    brv = bernoulli(0.5)";
    "    return brv.rvs(size=n)"];
   ["random_flips = throw_a_coin(10000)";
    "running_means = np.zeros(10000)";
    "sequence_lengths = np.arange(1,10001,1)";
    "for i in sequence_lengths:";
    "    running_means[i-1] = np.mean(random_flips[:i])"];
   ["plt.plot(sequence_lengths, running_means);";
    "plt.xscale('log')"];
   ["def make_throws(number_of_samples, sample_size):";
    "    start=np.zeros((number_of_samples, sample_size), dtype=int)";
    "    for i in range(number_of_samples):";
    "        start[i,:] = throw_a_coin(sample_size)";
    "    return np.mean(start, axis=1)"];
   ["make_throws(number_of_samples=20, sample_size=10)"];
   ["sample_sizes=np.arange(1,1001,10)";
    "sample_means = [make_throws(number_of_samples=200, sample_size=i) for i in sample_sizes]"];
   ["mean_of_sample_means = [np.mean(means) for means in sample_means]";
    "len(mean_of_sample_means)"];
   ["plt.plot(sample_sizes, mean_of_sample_means);";
    "plt.ylim([0.480,0.520]);";
    ("plt.axhline(0.5, 0, 1, color=" ++ dq ++ "r" ++ dq ++ ")")%string];
   ["sample_means_1000_replicates = [make_throws(number_of_samples=1000, sample_size=i) for i in sample_sizes]";
    "mean_of_sample_means_1000 = [np.mean(means) for means in sample_means_1000_replicates]"];
   ["plt.plot(sample_sizes, mean_of_sample_means_1000);";
    "plt.ylim([0.480,0.520]);";
    ("plt.axhline(0.5, 0, 1, color=" ++ dq ++ "r" ++ dq ++ ")")%string];
   ["len(sample_means)"];
   ["sample_sizes[1], sample_sizes[40], sample_sizes[99]"];
   ["for i in [1, 40, 99]:";
    "    plt.scatter([sample_sizes[i]]*200, sample_means[i], alpha=0.03);";
    "plt.xlim([0,1000])";
    "plt.ylim([0.25,0.75]);"];
   ["for i in [1, 40, 99]:";
    "    plt.scatter([sample_sizes[i]]*1000, sample_means_1000_replicates[i], alpha=0.03);";
    "plt.xlim([0,1000])";
    "plt.ylim([0.25,0.75]);"];
   ["std_of_sample_means_1000 = [np.std(means) for means in sample_means_1000_replicates]"];
   ["plt.plot(np.log10(sample_sizes), np.log10(std_of_sample_means_1000));"];
   ["np.mean(np.diff(np.log10(std_of_sample_means_1000))/np.diff(np.log10(sample_sizes)))"];
   ["plt.hist(sample_means[99], bins=np.arange(0.4,0.6,0.005));"];
   ["def f(x):";
    "    return x**2 + 4*x*np.sin(x) ";
    EmptyString;
    "def intf(x): ";
    "    return x**3/3.0+4.0*np.sin(x) - 4.0*x*np.cos(x) "];
   ["a = 2;    ";
    "b = 3;";
    "Imc=np.zeros(1000)";
    "Na = np.linspace(0,1000,1000)";
    EmptyString;
    "exactval= intf(b)-intf(a)";
    EmptyString;
    "for N in np.arange(0,1000):";
    "    X = np.random.uniform(low=a, high=b, size=N) # N values uniformly drawn from a to b ";
    "    Y =f(X)   # CALCULATE THE f(x) ";
    EmptyString;
    "    Imc[N]= (b-a) * np.sum(Y)/ N;";
    "    ";
    "    ";
    "plt.plot(Na[10:],np.sqrt((Imc[10:]-exactval)**2), alpha=0.7)";
    "plt.plot(Na[10:], 1/np.sqrt(Na[10:]), 'r')";
    ("plt.xlabel(" ++ dq ++ "N" ++ dq ++ ")")%string;
    ("plt.ylabel(" ++ dq ++ "sqrt((Imc-ExactValue)$^2$)" ++ dq ++ ")")%string];
   ["# multiple MC estimations";
    "m=1000";
    "N=10000";
    "Imc=np.zeros(m)";
    EmptyString;
    EmptyString;
    "for i in np.arange(m):";
    "    ";
    "    X = np.random.uniform(low=a, high=b, size=N) # N values uniformly drawn from a to b ";
    "    Y =f(X)   # CALCULATE THE f(x) ";
    EmptyString;
    "    Imc[i]= (b-a) * np.sum(Y)/ N;";
    "    ";
    "    ";
    "plt.hist(Imc, bins=30)";
    ("plt.xlabel(" ++ dq ++ "Imc" ++ dq ++ ")")%string;
    "print(np.mean(Imc), np.std(Imc))"]].

(** [contains pat s]: the text [pat] occurs in [s]. *)
Fixpoint contains (pat s : string) : bool :=
  String.prefix pat s ||
  match s with
  | EmptyString => false
  | String _ s' => contains pat s'
  end.

(** A cell mentions a text when one of its lines contains it. *)
Definition mentions (pat : string) (cell : list string) : bool :=
  existsb (contains pat) cell.

(** The keywords of an exception handler. *)
Definition handler_keywords : list string :=
  ["try"; "except"; "finally"]%string.

End Source.

(** ** The textbook notions the notebooks are compared with *)

Module Textbook.

(** The arithmetic mean (x_1 + ... + x_n) / n. *)
Definition arithmetic_mean (xs : list Z) : Q :=
  (inject_Z (foldr Z.add 0%Z xs) / inject_Z (Z.of_nat (length xs)))%Q.


(** The average (y_1 + ... + y_n) / n of real values. *)
Definition average (ys : list R) : R :=
  (foldr Rplus 0 ys / INR (length ys))%R.

(** The closed interval [0, 1]. *)
Definition in_unit_interval (x : Numpy.float64 Q) : Prop :=
  match x with
  | Numpy.Fin q => (0 <= q)%Q /\ (q <= 1)%Q
  | _ => False
  end.

End Textbook.

(** ** The spread of the sample means (distribute_gaussians.ipynb) *)

Module Spread.
Import Numpy.

(** The entries of a float array as reals, when all of them are finite. *)
Definition finite_values (a : list (float64 Q)) : option (list R) :=
  mapM (fun x => match x with Fin q => Some (Q2R q) | _ => None end) a.

(** numpy's [_var] on finite values: the mean of the squared deviations
    from the mean; of no values it is 0/0. *)
Definition var (y : list R) : float64 R :=
  match y with
  | [] => NaN
  | _ =>
      let arrmean := (sum_R y / INR (length y))%R in
      Fin (sum_R (map (fun v => (v - arrmean) * (v - arrmean))%R y)
           / INR (length y))%R
  end.

(** [np.sqrt] *)
Definition sqrt_float (x : float64 R) : float64 R :=
  match x with
  | Fin v => if Rlt_dec v 0 then NaN else Fin (sqrt v)
  | PInf => PInf
  | NInf | NaN => NaN
  end.

(** [np.std(a)]: the square root of the variance; an entry that is not
    finite makes it NaN. *)
Definition std (a : list (float64 Q)) : float64 R :=
  match finite_values a with
  | Some y => sqrt_float (var y)
  | None => NaN
  end.

(** [np.log10]: minus infinity at 0, NaN below. *)
Definition log10 (x : float64 R) : float64 R :=
  match x with
  | Fin v =>
      if Req_dec_T v 0 then NInf
      else if Rlt_dec v 0 then NaN else Fin (ln v / ln 10)%R
  | PInf => PInf
  | NInf | NaN => NaN
  end.

(** [x + y], [x - y] and [x / y] of two floats. *)
Definition add (x y : float64 R) : float64 R :=
  match x, y with
  | Fin u, Fin v => Fin (u + v)%R
  | NaN, _ | _, NaN => NaN
  | PInf, NInf | NInf, PInf => NaN
  | PInf, _ | _, PInf => PInf
  | NInf, _ | _, NInf => NInf
  end.

Definition subtract (x y : float64 R) : float64 R :=
  match x, y with
  | Fin u, Fin v => Fin (u - v)%R
  | NaN, _ | _, NaN => NaN
  | PInf, PInf | NInf, NInf => NaN
  | PInf, _ | _, NInf => PInf
  | NInf, _ | _, PInf => NInf
  end.

Definition true_divide (x y : float64 R) : float64 R :=
  match x, y with
  | NaN, _ | _, NaN => NaN
  | Fin u, Fin v =>
      if Req_dec_T v 0 then
        if Req_dec_T u 0 then NaN else if Rlt_dec 0 u then PInf else NInf
      else Fin (u / v)%R
  | Fin _, _ => Fin 0%R
  | _, Fin v => 
      match x with
      | PInf => if Rlt_dec v 0 then NInf else PInf
      | _ => if Rlt_dec v 0 then PInf else NInf
      end
  | _, _ => NaN
  end.

(** [np.diff(a)]: a[i+1] - a[i]. *)
Definition diff (a : list (float64 R)) : list (float64 R) :=
  zip_with subtract (tail a) a.

(** [x / y] of two arrays: entry by entry; an array of one entry is
    broadcast; other lengths that differ are a ValueError. *)
Definition divide (x y : list (float64 R)) : result (list (float64 R)) :=
  if decide (length x = length y) then mret (zip_with true_divide x y)
  else match x, y with
       | _, [v] => mret (map (fun u => true_divide u v) x)
       | [u], _ => mret (map (true_divide u) y)
       | _, _ => raise ValueError
       end.

(** [np.mean] of a float array. *)
Definition mean (a : list (float64 R)) : float64 R :=
  true_divide (foldl add (Fin 0%R) a) (Fin (INR (length a))).

(** std_of_sample_means_1000 =
      [np.std(means) for means in sample_means_1000_replicates] *)
Definition std_of_sample_means_1000
    (sample_means_1000_replicates : list (list (float64 Q)))
  : list (float64 R) :=
  map std sample_means_1000_replicates.

(** np.mean(np.diff(np.log10(std_of_sample_means_1000))
            / np.diff(np.log10(sample_sizes))) *)
Definition slope (std_of_sample_means_1000 : list (float64 R))
  : result (float64 R) :=
  let log_sizes :=
    map (fun n : Z => log10 (Fin (IZR n))) Gaussians.sample_sizes in
  ratios ← divide (diff (map log10 std_of_sample_means_1000))
             (diff log_sizes);
  mret (mean ratios).

End Spread.

(** * Properties *)

Module NumpyFacts.
Import Numpy.

Lemma sum_int_acc (a : list Z) (acc : Z) :
  foldl Z.add acc a = (acc + foldr Z.add 0 a)%Z.
Proof.
  revert acc. induction a as [|x a IH]; intros acc; simpl.
  - lia.
  - rewrite IH. lia.
Qed.

Lemma sum_int_foldr (a : list Z) : sum_int a = foldr Z.add 0%Z a.
Proof. unfold sum_int. rewrite sum_int_acc. lia. Qed.

Lemma arange_unit_step (start stop : Z) :
  arange start stop 1 =
  map (fun k : nat => (start + Z.of_nat k)%Z) (seq 0 (Z.to_nat (stop - start))).
Proof.
  unfold arange.
  replace ((stop - start + 1 - 1) / 1)%Z with (stop - start)%Z
    by (rewrite Z.div_1_r; lia).
  apply map_ext. intros k. lia.
Qed.

Lemma length_arange (start stop : Z) (step : positive) :
  length (arange start stop step) =
  Z.to_nat ((stop - start + Z.pos step - 1) / Z.pos step).
Proof. unfold arange. by rewrite length_map, length_seq. Qed.

Lemma lookup_arange (start stop : Z) (step : positive) (k : nat) :
  k < length (arange start stop step) ->
  arange start stop step !! k = Some (start + Z.of_nat k * Z.pos step)%Z.
Proof.
  rewrite length_arange. intros Hk. unfold arange.
  rewrite list_lookup_fmap, lookup_seq_lt by done. reflexivity.
Qed.

Lemma norm_index_in_range (len : nat) (i : Z) :
  (0 <= i < Z.of_nat len)%Z -> norm_index len i = inr (Z.to_nat i).
Proof.
  intros [H0 H1]. unfold norm_index.
  apply Z.leb_le in H0. apply Z.ltb_lt in H1. by rewrite H0, H1.
Qed.

Lemma setitem_in_range {A} (a : list A) (i : Z) (x : A) :
  (0 <= i < Z.of_nat (length a))%Z ->
  setitem a i x = inr (<[Z.to_nat i := x]> a).
Proof. intros H. unfold setitem. by rewrite norm_index_in_range. Qed.

Lemma getitem_in_range {A} (a : list A) (i : Z) (x : A) :
  (0 <= i)%Z -> a !! Z.to_nat i = Some x -> getitem a i = inr x.
Proof.
  intros H0 Hx. unfold getitem.
  rewrite norm_index_in_range.
  - simpl. by rewrite Hx.
  - apply lookup_lt_Some in Hx. lia.
Qed.

Lemma slice_to_take {A} (a : list A) (i : Z) :
  (0 <= i)%Z -> slice_to a i = take (Z.to_nat i) a.
Proof.
  intros H. unfold slice_to, clip_bound.
  apply Z.leb_le in H. rewrite H.
  destruct (Nat.min_spec (Z.to_nat i) (length a)) as [[_ ->]|[Hle ->]]; [done|].
  by rewrite firstn_all, take_ge.
Qed.

Lemma slice_from_drop {A} (a : list A) (i : Z) :
  (0 <= i)%Z -> slice_from a i = drop (Z.to_nat i) a.
Proof.
  intros H. unfold slice_from, clip_bound.
  apply Z.leb_le in H. rewrite H.
  destruct (Nat.min_spec (Z.to_nat i) (length a)) as [[_ ->]|[Hle ->]]; [done|].
  by rewrite drop_all, drop_ge.
Qed.

(** The mean numpy computes is the textbook one, whenever there is one. *)
Lemma mean_int_arithmetic_mean (a : list Z) :
  a <> [] ->
  exists q, mean_int a = Fin q /\ (q == Textbook.arithmetic_mean a)%Q.
Proof.
  intros Ha. unfold mean_int, Textbook.arithmetic_mean.
  rewrite sum_int_foldr.
  destruct a as [|x a]; [done|].
  set (s := foldr Z.add 0%Z (x :: a)).
  assert (Hlen : Z.of_nat (length (x :: a)) = Z.pos (Pos.of_succ_nat (length a)))
    by (simpl length; lia).
  rewrite Hlen. simpl. eexists; split; [reflexivity|].
  unfold Qeq, Qdiv, Qmult, Qinv, inject_Z; simpl. lia.
Qed.

End NumpyFacts.

Module GaussiansFacts.
Import Numpy Gaussians NumpyFacts.

(** Iterations a, a+1, ..., a+m-1 fill the slots a-1, ..., a+m-2 and leave
    the others alone. *)
Lemma running_means_loop (random_flips : list Z) (m a : nat)
    (rm : list (float64 Q)) :
  1 <= a -> a + m <= S (length rm) ->
  exists rm',
    for_in (map Z.of_nat (seq a m)) (running_means_body random_flips) rm
      = inr rm' /\
    length rm' = length rm /\
    (forall k, a - 1 <= k < a + m - 1 ->
       rm' !! k = Some (mean_int (take (S k) random_flips))) /\
    (forall k, ~ (a - 1 <= k < a + m - 1) -> rm' !! k = rm !! k).
Proof.
  revert a rm. induction m as [|m IH]; intros a rm Ha Hlen.
  - exists rm. simpl. split_and!; [done|done|intros; lia|done].
  - simpl seq. simpl map. simpl for_in.
    change (running_means_body random_flips rm (Z.of_nat a))
      with (setitem rm (Z.of_nat a - 1)
              (mean_int (slice_to random_flips (Z.of_nat a)))).
    rewrite setitem_in_range by lia.
    rewrite slice_to_take by lia.
    replace (Z.to_nat (Z.of_nat a - 1)) with (a - 1) by lia.
    replace (Z.to_nat (Z.of_nat a)) with (S (a - 1)) by lia.
    set (rm1 := <[a - 1 := mean_int (take (S (a - 1)) random_flips)]> rm).
    destruct (IH (S a) rm1) as (rm' & Hrun & Hl & Hset & Hrest).
    { lia. }
    { unfold rm1. rewrite length_insert. lia. }
    exists rm'. split_and!.
    + exact Hrun.
    + rewrite Hl. unfold rm1. by rewrite length_insert.
    + intros k Hk. destruct (decide (k = a - 1)) as [->|Hne].
      * rewrite Hrest by lia. unfold rm1.
        rewrite list_lookup_insert_eq by lia. done.
      * apply Hset. lia.
    + intros k Hk. rewrite Hrest by lia. unfold rm1.
      rewrite list_lookup_insert_ne by lia. done.
Qed.

Lemma sampler_bind_ok {A B} (m : sampler A) (f : A -> sampler B)
    (g g' : nat) (x : A) :
  m g = inr (x, g') -> (x ← m; f x) g = f x g'.
Proof. intros H. unfold mbind, sampler_bind. by rewrite H. Qed.

(** Running one bind whose first computation is known to return. *)
Ltac bind_step tac := erewrite sampler_bind_ok by tac.

Lemma lift_ok {A} (r : result A) (x : A) (g : nat) :
  r = inr x -> lift r g = inr (x, g).
Proof. by intros ->. Qed.

Lemma draw_ok {A} (stream : nat -> A) (size : Z) (g : nat) :
  (0 <= size)%Z ->
  draw stream size g
  = inr (map stream (seq g (Z.to_nat size)), g + Z.to_nat size).
Proof.
  intros H. unfold draw.
  destruct (Z.ltb_spec size 0); [lia|done].
Qed.

Lemma zeros_ok {A} (zero : A) (n : Z) :
  (0 <= n)%Z -> zeros zero n = inr (replicate (Z.to_nat n) (Fin zero)).
Proof.
  intros H. unfold zeros, filled.
  destruct (Z.ltb_spec n 0); [lia|done].
Qed.

Lemma arange_from_one (n : Z) :
  arange 1 (n + 1) 1 = map Z.of_nat (seq 1 (Z.to_nat n)).
Proof.
  rewrite arange_unit_step.
  replace (n + 1 - 1)%Z with n by lia.
  rewrite <- seq_shift, map_map.
  apply map_ext. intros k. lia.
Qed.

(** The law-of-large-numbers cell for any number n of flips: the loop runs
    to its end without an index error and slot i-1 holds the mean of the
    first i flips. *)
Lemma running_means_general (flips : nat -> bool) (n stop : Z) (g : nat) :
  (0 <= n)%Z -> stop = (n + 1)%Z ->
  exists random_flips running_means,
    (random_flips ← throw_a_coin flips n;
     running_means ← lift (zeros 0%Q n);
     let sequence_lengths := arange 1 stop 1 in
     running_means ← lift (for_in sequence_lengths
       (running_means_body random_flips) running_means);
     mret (random_flips, running_means, sequence_lengths)) g
    = inr ((random_flips, running_means, map Z.of_nat (seq 1 (Z.to_nat n))),
           g + Z.to_nat n) /\
    random_flips = map (fun k => Z.b2z (flips k)) (seq g (Z.to_nat n)) /\
    length running_means = Z.to_nat n /\
    (forall k, k < Z.to_nat n ->
       running_means !! k = Some (mean_int (take (S k) random_flips))) /\
    forall i : Z, (1 <= i <= n)%Z ->
      exists q,
        getitem running_means (i - 1) = inr (Fin q) /\
        (q == Textbook.arithmetic_mean (take (Z.to_nat i) random_flips))%Q.
Proof.
  intros Hn ->. cbv zeta.
  set (random_flips := map (fun k => Z.b2z (flips k)) (seq g (Z.to_nat n))).
  assert (Hflips : length random_flips = Z.to_nat n)
    by (unfold random_flips; by rewrite length_map, length_seq).
  destruct (running_means_loop random_flips (Z.to_nat n) 1
              (replicate (Z.to_nat n) (Fin 0%Q)))
    as (rm & Hrun & Hlen & Hset & _).
  { lia. }
  { rewrite length_replicate. lia. }
  rewrite length_replicate in Hlen.
  exists random_flips, rm. split_and!; [|done|done| |].
  - bind_step ltac:(apply draw_ok; exact Hn).
    bind_step ltac:(apply lift_ok, zeros_ok; exact Hn).
    rewrite arange_from_one.
    bind_step ltac:(apply lift_ok; exact Hrun).
    reflexivity.
  - intros k Hk. apply Hset. lia.
  - intros i Hi.
    assert (Hne : take (Z.to_nat i) random_flips <> []).
    { intros Heq. apply (f_equal length) in Heq.
      rewrite length_take in Heq. simpl in Heq. lia. }
    destruct (mean_int_arithmetic_mean _ Hne) as (q & Hq & Hmean).
    exists q. split; [|exact Hmean].
    apply getitem_in_range; [lia|].
    rewrite Hset by lia. rewrite <- Hq.
    by replace (S (Z.to_nat (i - 1))) with (Z.to_nat i) by lia.
Qed.

(** C4. In the law-of-large-numbers cell the loop runs to its end, for every
    i with 1 <= i <= 10000 the entry running_means[i-1] is the arithmetic mean
    of the first i elements of random_flips, and sequence_lengths is the
    sequence 1, 2, ..., 10000. *)
Theorem running_means_are_prefix_means (flips : nat -> bool) (g : nat) :
  exists random_flips running_means sequence_lengths,
    running_means_cell flips g
    = inr ((random_flips, running_means, sequence_lengths),
           g + Z.to_nat 10000) /\
    random_flips = map (fun k => Z.b2z (flips k)) (seq g (Z.to_nat 10000)) /\
    sequence_lengths = map Z.of_nat (seq 1 (Z.to_nat 10000)) /\
    length running_means = Z.to_nat 10000 /\
    forall i : Z, (1 <= i <= 10000)%Z ->
      exists q,
        getitem running_means (i - 1) = inr (Fin q) /\
        (q == Textbook.arithmetic_mean (take (Z.to_nat i) random_flips))%Q.
Proof.
  destruct (running_means_general flips 10000 10001 g)
    as (rf & rm & H1 & H2 & H3 & _ & H4); [lia|lia|].
  exists rf, rm, (map Z.of_nat (seq 1 (Z.to_nat 10000))).
  split; [exact H1|].
  split; [exact H2|].
  split; [reflexivity|].
  split; [exact H3|exact H4].
Qed.

Lemma running_means_are_prefix_means_witness :
  exists (random_flips : list Z) (running_means : list (float64 Q)) (q : Q),
    running_means_cell (fun _ => true) 0
    = inr ((random_flips, running_means,
            map Z.of_nat (seq 1 (Z.to_nat 10000))),
           0 + Z.to_nat 10000) /\
    getitem running_means (3 - 1) = inr (Fin q) /\ (q == 1)%Q.
Proof.
  destruct (running_means_are_prefix_means (fun _ => true) 0)
    as (rf & rm & sl & H1 & H2 & H3 & H4 & H5).
  destruct (H5 3%Z ltac:(lia)) as (q & Hq & Hmean).
  exists rf, rm, q.
  split; [rewrite H1, H3; reflexivity|].
  split; [exact Hq|].
  rewrite Hmean, H2. vm_compute. reflexivity.
Defined.

Lemma range_seq (n : Z) : range n = map Z.of_nat (seq 0 (Z.to_nat n)).
Proof.
  unfold range. rewrite arange_unit_step.
  replace (n - 0)%Z with n by lia.
  apply map_ext. intros k. lia.
Qed.

Lemma zeros2_int_ok (m n : Z) :
  (0 <= m)%Z -> (0 <= n)%Z ->
  zeros2_int m n = inr (replicate (Z.to_nat m) (replicate (Z.to_nat n) 0%Z)).
Proof.
  intros Hm Hn. unfold zeros2_int.
  destruct (Z.ltb_spec m 0); [lia|].
  destruct (Z.ltb_spec n 0); [lia|done].
Qed.

Lemma setrow_same_length {A} (a : list (list A)) (i : Z) (old v : list A) :
  (0 <= i)%Z -> a !! Z.to_nat i = Some old -> length v = length old ->
  setrow a i v = inr (<[Z.to_nat i := v]> a).
Proof.
  intros Hi Hold Hlen. unfold setrow.
  rewrite norm_index_in_range by (apply lookup_lt_Some in Hold; lia).
  simpl. rewrite Hold. unfold broadcast_to.
  destruct (decide (length v = length old)); [done|contradiction].
Qed.

(** The rows a, ..., a+m-1 are filled, each by its own call of throw_a_coin,
    which draws the next [sample_size] flips of the stream. *)
Lemma make_throws_loop (flips : nat -> bool) (sample_size : Z) (m a : nat)
    (start : list (list Z)) (g : nat) :
  (0 <= sample_size)%Z ->
  (forall k, a <= k < a + m ->
     exists old, start !! k = Some old /\ length old = Z.to_nat sample_size) ->
  exists start',
    for_in (map Z.of_nat (seq a m)) (make_throws_body flips sample_size)
      start g
    = inr (start', g + m * Z.to_nat sample_size) /\
    length start' = length start /\
    (forall k, a <= k < a + m ->
       exists g',
         g' = g + (k - a) * Z.to_nat sample_size /\
         throw_a_coin flips sample_size g'
         = inr (map (fun j => Z.b2z (flips j)) (seq g' (Z.to_nat sample_size)),
                g' + Z.to_nat sample_size) /\
         start' !! k
         = Some (map (fun j => Z.b2z (flips j))
                   (seq g' (Z.to_nat sample_size)))) /\
    (forall k, ~ (a <= k < a + m) -> start' !! k = start !! k).
Proof.
  intros Hn. revert a start g.
  induction m as [|m IH]; intros a start g Hrows.
  - exists start. simpl. split_and!; [|done|intros; lia|done].
    unfold mret, sampler_ret. do 2 f_equal. lia.
  - simpl seq. simpl map. simpl for_in.
    destruct (Hrows a ltac:(lia)) as (old & Hold & Holdlen).
    set (row := map (fun j => Z.b2z (flips j)) (seq g (Z.to_nat sample_size))).
    set (start1 := <[a := row]> start).
    assert (Hbody : make_throws_body flips sample_size start (Z.of_nat a) g
                    = inr (start1, g + Z.to_nat sample_size)).
    { unfold make_throws_body.
      bind_step ltac:(apply draw_ok; exact Hn).
      apply lift_ok. fold row.
      rewrite (setrow_same_length _ _ old).
      - by rewrite Nat2Z.id.
      - lia.
      - by rewrite Nat2Z.id.
      - unfold row. rewrite length_map, length_seq. lia. }
    destruct (IH (S a) start1 (g + Z.to_nat sample_size))
      as (start' & Hrun & Hl & Hset & Hrest).
    { intros k Hk. destruct (Hrows k ltac:(lia)) as (o & Ho & Hol).
      exists o. split; [|done]. unfold start1.
      rewrite list_lookup_insert_ne by lia. done. }
    exists start'. split_and!.
    + bind_step ltac:(exact Hbody).
      rewrite Hrun. do 2 f_equal. lia.
    + rewrite Hl. unfold start1. by rewrite length_insert.
    + intros k Hk. destruct (decide (k = a)) as [->|Hne].
      * exists g. split; [lia|]. split.
        { apply draw_ok. exact Hn. }
        rewrite Hrest by lia. unfold start1.
        apply list_lookup_insert_eq. by apply lookup_lt_Some in Hold.
      * destruct (Hset k ltac:(lia)) as (g' & Hg' & Hcall & Hrow).
        exists g'. split; [|done].
        rewrite Hg'. replace (k - a) with (S (k - S a)) by lia. lia.
    + intros k Hk. rewrite Hrest by lia. unfold start1.
      rewrite list_lookup_insert_ne by lia. done.
Qed.

(** make_throws for any non-negative arguments. *)
Lemma make_throws_general (flips : nat -> bool)
    (number_of_samples sample_size : Z) (g : nat) :
  (0 <= number_of_samples)%Z -> (0 <= sample_size)%Z ->
  exists start,
    make_throws flips number_of_samples sample_size g
    = inr (mean_axis1 start,
           g + Z.to_nat number_of_samples * Z.to_nat sample_size) /\
    length start = Z.to_nat number_of_samples /\
    forall k, k < Z.to_nat number_of_samples ->
      start !! k
      = Some (map (fun j => Z.b2z (flips j))
                (seq (g + k * Z.to_nat sample_size) (Z.to_nat sample_size))).
Proof.
  intros HM HN.
  destruct (make_throws_loop flips sample_size (Z.to_nat number_of_samples) 0
              (replicate (Z.to_nat number_of_samples)
                 (replicate (Z.to_nat sample_size) 0%Z)) g HN)
    as (start & Hrun & Hlen & Hset & _).
  { intros k Hk. exists (replicate (Z.to_nat sample_size) 0%Z).
    split; [apply lookup_replicate_2; lia|apply length_replicate]. }
  rewrite length_replicate in Hlen.
  exists start. split_and!; [|done|].
  - unfold make_throws.
    bind_step ltac:(apply lift_ok, zeros2_int_ok; assumption).
    rewrite range_seq.
    bind_step ltac:(exact Hrun).
    reflexivity.
  - intros k Hk. destruct (Hset k ltac:(lia)) as (g' & -> & _ & Hrow).
    rewrite Hrow. by rewrite Nat.sub_0_r.
Qed.

(** C5. For M >= 1 and N >= 1, make_throws(M, N) returns M values, the m-th
    being the arithmetic mean of the N flips of the m-th replication, which
    are the flips drawn by that row's own call of throw_a_coin(N); and
    make_throws(20, 10) returns 20 sample means. *)
Theorem make_throws_sample_means (flips : nat -> bool) (M N : Z) (g : nat) :
  (1 <= M)%Z -> (1 <= N)%Z ->
  (exists means,
     make_throws flips M N g = inr (means, g + Z.to_nat M * Z.to_nat N) /\
     length means = Z.to_nat M /\
     forall m : Z, (0 <= m < M)%Z ->
       exists row q,
         throw_a_coin flips N (g + Z.to_nat m * Z.to_nat N)
         = inr (row, g + Z.to_nat m * Z.to_nat N + Z.to_nat N) /\
         length row = Z.to_nat N /\
         getitem means m = inr (Fin q) /\
         (q == Textbook.arithmetic_mean row)%Q) /\
  (exists means,
     make_throws flips 20 10 g = inr (means, g + 200) /\ length means = 20).
Proof.
  intros HM HN. split.
  - destruct (make_throws_general flips M N g) as (start & Hrun & Hlen & Hrows);
      [lia|lia|].
    exists (mean_axis1 start). split; [exact Hrun|].
    split; [unfold mean_axis1; by rewrite length_map|].
    intros m Hm.
    set (row := map (fun j => Z.b2z (flips j))
                  (seq (g + Z.to_nat m * Z.to_nat N) (Z.to_nat N))).
    assert (Hrowlen : length row = Z.to_nat N)
      by (unfold row; by rewrite length_map, length_seq).
    assert (Hne : row <> []).
    { intros Heq. rewrite Heq in Hrowlen. simpl in Hrowlen. lia. }
    destruct (mean_int_arithmetic_mean row Hne) as (q & Hq & Hmean).
    exists row, q. split_and!; [|done| |done].
    + apply draw_ok. lia.
    + apply getitem_in_range; [lia|].
      unfold mean_axis1. rewrite list_lookup_fmap, Hrows by lia.
      simpl. fold row. by rewrite Hq.
  - destruct (make_throws_general flips 20 10 g) as (start & Hrun & Hlen & _);
      [lia|lia|].
    exists (mean_axis1 start). split.
    + rewrite Hrun. do 2 f_equal.
    + unfold mean_axis1. rewrite length_map, Hlen. reflexivity.
Qed.

Lemma make_throws_sample_means_witness :
  exists means q,
    make_throws (fun k => Nat.even k) 2 3 0 = inr (means, 6) /\
    getitem means 1 = inr (Fin q) /\ (q == 1 # 3)%Q.
Proof.
  destruct (make_throws_sample_means (fun k => Nat.even k) 2 3 0)
    as [(means & Hrun & Hlen & Hm) _]; [lia|lia|].
  destruct (Hm 1%Z ltac:(lia)) as (row & q & Hcall & Hrowlen & Hget & Hmean).
  exists means, q. split; [exact Hrun|]. split; [exact Hget|].
  rewrite Hmean. vm_compute in Hcall. injection Hcall as <-.
  reflexivity.
Defined.

(** A comprehension whose element expression always succeeds and advances
    the cursor by [adv i] succeeds; its j-th entry is the value of the
    expression at the cursor reached after the first j elements. *)
Lemma comprehension_ok {A I} (e : I -> sampler A) (adv : I -> nat)
    (it : list I) :
  (forall i g, i ∈ it -> exists x, e i g = inr (x, g + adv i)) ->
  forall g, exists xs,
    comprehension it e g = inr (xs, g + sum_list (map adv it)) /\
    length xs = length it /\
    forall j i, it !! j = Some i ->
      exists x,
        xs !! j = Some x /\
        e i (g + sum_list (map adv (take j it)))
        = inr (x, g + sum_list (map adv (take j it)) + adv i).
Proof.
  induction it as [|i it IH]; intros He g.
  - exists []. simpl. split_and!; [|done|intros j i; by rewrite lookup_nil].
    unfold mret, sampler_ret. do 2 f_equal. lia.
  - destruct (He i g ltac:(left)) as (x & Hx).
    destruct (IH (fun i' g' Hi' => He i' g' (list_elem_of_further _ _ _ Hi'))
                (g + adv i)) as (xs & Hrun & Hlen & Hent).
    exists (x :: xs). split_and!.
    + simpl comprehension.
      bind_step ltac:(exact Hx).
      bind_step ltac:(exact Hrun).
      unfold mret, sampler_ret. simpl. do 2 f_equal. lia.
    + simpl. by rewrite Hlen.
    + intros [|j] i' Hj; simpl in Hj.
      * injection Hj as <-. exists x. split; [done|].
        simpl. rewrite Nat.add_0_r. exact Hx.
      * destruct (Hent j i' Hj) as (x' & Hx' & Hcall).
        exists x'. split; [done|]. simpl.
        replace (g + (adv i + sum_list (map adv (take j it))))
          with (g + adv i + sum_list (map adv (take j it))) by lia.
        exact Hcall.
Qed.

Lemma sample_sizes_values :
  sample_sizes = map (fun k : nat => (1 + 10 * Z.of_nat k)%Z) (seq 0 100).
Proof. vm_compute. reflexivity. Qed.

Lemma sample_sizes_bounds (n : Z) :
  n ∈ sample_sizes -> (1 <= n <= 991)%Z /\ (n mod 10 = 1)%Z.
Proof.
  rewrite sample_sizes_values. intros Hn.
  apply list_elem_of_fmap in Hn as (k & -> & Hk).
  apply elem_of_seq in Hk. split; [lia|].
  Z.div_mod_to_equations. lia.
Qed.

(** sample_means for any number of replications. *)
Lemma sample_means_general (flips : nat -> bool) (M : Z) (g : nat) :
  (0 <= M)%Z ->
  exists sm g',
    comprehension sample_sizes (fun i => make_throws flips M i) g
    = inr (sm, g') /\
    length sm = 100 /\
    forall j size, sample_sizes !! j = Some size ->
      exists means gj,
        sm !! j = Some means /\
        make_throws flips M size gj
        = inr (means, gj + Z.to_nat M * Z.to_nat size).
Proof.
  intros HM.
  destruct (comprehension_ok (fun i => make_throws flips M i)
              (fun i => Z.to_nat M * Z.to_nat i) sample_sizes) with (g := g)
    as (sm & Hrun & Hlen & Hent).
  { intros i g0 Hi. apply sample_sizes_bounds in Hi as [Hi _].
    destruct (make_throws_general flips M i g0) as (start & Hs & _); [lia|lia|].
    eauto. }
  exists sm, (g + sum_list (map (fun i => Z.to_nat M * Z.to_nat i) sample_sizes)).
  split; [exact Hrun|]. split.
  { rewrite Hlen, sample_sizes_values. by rewrite length_map, length_seq. }
  intros j size Hj. destruct (Hent j size Hj) as (x & Hx & Hcall).
  eauto.
Qed.

Lemma sum_snoc (l : list Z) (x : Z) :
  foldr Z.add 0%Z (l ++ [x]) = (foldr Z.add 0 l + x)%Z.
Proof. induction l as [|y l IH]; simpl; lia. Qed.

(** make_throws in closed form: row k holds the flips at the positions
    g + k N, ..., g + k N + N - 1 of the stream. *)
Lemma make_throws_closed_form (flips : nat -> bool) (M N : Z) (g : nat) :
  (0 <= M)%Z -> (0 <= N)%Z ->
  make_throws flips M N g
  = inr (map (fun k => mean_int (map (fun j : nat => Z.b2z (flips j))
                             (seq (g + k * Z.to_nat N) (Z.to_nat N))))
           (seq 0 (Z.to_nat M)),
         g + Z.to_nat M * Z.to_nat N).
Proof.
  intros HM HN.
  destruct (make_throws_general flips M N g HM HN) as (start & Hrun & Hlen & Hrows).
  rewrite Hrun. do 2 f_equal. unfold mean_axis1.
  apply list_eq. intros k. rewrite !list_lookup_fmap.
  destruct (decide (k < Z.to_nat M)) as [Hk|Hk].
  - rewrite Hrows by exact Hk. rewrite lookup_seq_lt by exact Hk. reflexivity.
  - rewrite (lookup_ge_None_2 start) by lia.
    rewrite (lookup_ge_None_2 (seq 0 (Z.to_nat M)))
      by (rewrite length_seq; lia).
    reflexivity.
Qed.

Lemma sum_list_scaled (c : nat) (l : list Z) :
  Forall (fun i => (0 <= i)%Z) l ->
  sum_list (map (fun i => c * Z.to_nat i) l)
  = c * Z.to_nat (foldr Z.add 0%Z l).
Proof.
  induction 1 as [|i l Hi Hl IH]; simpl.
  - lia.
  - rewrite IH.
    assert (0 <= foldr Z.add 0 l)%Z
      by (clear -Hl; induction Hl; simpl; lia).
    rewrite Z2Nat.inj_add by lia. lia.
Qed.

Lemma sample_sizes_total : foldr Z.add 0%Z sample_sizes = 49600%Z.
Proof. vm_compute. reflexivity. Qed.

(** The sizes before the j-th add up to j (5 j - 4). *)
Lemma sample_sizes_prefix_total (j : nat) :
  j <= 100 ->
  foldr Z.add 0%Z (take j sample_sizes)
  = (Z.of_nat j * (5 * Z.of_nat j - 4))%Z.
Proof.
  intros Hj. rewrite sample_sizes_values.
  rewrite <- fmap_take, take_seq, Nat.min_l by exact Hj.
  clear Hj. induction j as [|j IH]; [reflexivity|].
  rewrite seq_S, fmap_app. simpl (_ <$> [_]).
  rewrite sum_snoc, IH. lia.
Qed.

(** The list of sample means in closed form: entry j holds the M means of
    make_throws(M, 1 + 10 j), run after the M (1 + 11 + ... + (10 j - 9))
    flips of the entries before it; mean k is the mean of the flips at the
    1 + 10 j stream positions that follow those of the means before it. *)
Lemma sample_means_closed_form (flips : nat -> bool) (M : Z) (g : nat) :
  (0 <= M)%Z ->
  exists sm,
    comprehension sample_sizes (fun i => make_throws flips M i) g
    = inr (sm, g + Z.to_nat M * Z.to_nat 49600) /\
    length sm = 100 /\
    forall j, j < 100 ->
      sample_sizes !! j = Some (1 + 10 * Z.of_nat j)%Z /\
      exists means,
        sm !! j = Some means /\
        make_throws flips M (1 + 10 * Z.of_nat j)
          (g + Z.to_nat M * Z.to_nat (Z.of_nat j * (5 * Z.of_nat j - 4)))
        = inr (means,
               g + Z.to_nat M * Z.to_nat (Z.of_nat j * (5 * Z.of_nat j - 4))
               + Z.to_nat M * Z.to_nat (1 + 10 * Z.of_nat j)) /\
        means
        = map (fun k =>
                 mean_int
                   (map (fun i : nat => Z.b2z (flips i))
                      (seq (g + Z.to_nat M
                                * Z.to_nat (Z.of_nat j * (5 * Z.of_nat j - 4))
                            + k * Z.to_nat (1 + 10 * Z.of_nat j))
                         (Z.to_nat (1 + 10 * Z.of_nat j)))))
            (seq 0 (Z.to_nat M)).
Proof.
  intros HM.
  assert (Hnonneg : Forall (fun i => (0 <= i)%Z) sample_sizes).
  { apply Forall_forall. intros i Hi. apply sample_sizes_bounds in Hi. lia. }
  destruct (comprehension_ok (fun i => make_throws flips M i)
              (fun i => Z.to_nat M * Z.to_nat i) sample_sizes) with (g := g)
    as (sm & Hrun & Hlen & Hent).
  { intros i g0 Hi. apply sample_sizes_bounds in Hi as [Hi _].
    eexists. apply make_throws_closed_form; lia. }
  exists sm. split.
  { rewrite Hrun, sum_list_scaled, sample_sizes_total by exact Hnonneg.
    reflexivity. }
  split.
  { rewrite Hlen, sample_sizes_values. by rewrite length_map, length_seq. }
  intros j Hj.
  assert (Hsize : sample_sizes !! j = Some (1 + 10 * Z.of_nat j)%Z).
  { rewrite sample_sizes_values, list_lookup_fmap, lookup_seq_lt by exact Hj.
    reflexivity. }
  split; [exact Hsize|].
  destruct (Hent j _ Hsize) as (means & Hmeans & Hcall).
  rewrite sum_list_scaled in Hcall by (by apply Forall_take).
  rewrite sample_sizes_prefix_total in Hcall by lia.
  exists means. split; [exact Hmeans|]. split; [exact Hcall|].
  rewrite make_throws_closed_form in Hcall by lia.
  apply (inj inr) in Hcall. apply (f_equal fst) in Hcall.
  simpl in Hcall. by rewrite <- Hcall.
Qed.

(** C10. sample_sizes holds the 100 values 1, 11, ..., 991; its largest
    element, sample_sizes[99], is 991 and 1000 is not among them; so
    sample_means[99], whose histogram is drawn, is make_throws(200, 991) run
    after the 200 * 48609 flips of the 99 entries before it: its m-th value
    is the mean of the 991 flips at the stream positions
    g + 200 * 48609 + 991 m, ..., g + 200 * 48609 + 991 m + 990.  Every
    entry sample_means[j] holds the 200 means of samples of 1 + 10 j flips,
    each the mean of its own flips of the stream, and none comes from
    samples of size 1000. *)
Theorem sample_sizes_stop_at_991 (flips : nat -> bool) (g : nat) :
  sample_sizes = map (fun k : nat => (1 + 10 * Z.of_nat k)%Z) (seq 0 100) /\
  length sample_sizes = 100 /\
  getitem sample_sizes 99 = inr 991%Z /\
  (forall n, n ∈ sample_sizes -> (n <= 991)%Z) /\
  (1000%Z ∉ sample_sizes) /\
  exists sm means99,
    sample_means flips g = inr (sm, g + Z.to_nat 200 * Z.to_nat 49600) /\
    length sm = 100 /\
    getitem sm 99 = inr means99 /\
    length means99 = Z.to_nat 200 /\
    make_throws flips 200 991 (g + Z.to_nat 200 * Z.to_nat 48609)
    = inr (means99,
           g + Z.to_nat 200 * Z.to_nat 48609 + Z.to_nat 200 * Z.to_nat 991) /\
    (forall m : Z, (0 <= m < 200)%Z ->
       exists q,
         getitem means99 m = inr (Fin q) /\
         length (map (fun i : nat => Z.b2z (flips i))
                   (seq (g + Z.to_nat 200 * Z.to_nat 48609
                         + Z.to_nat m * Z.to_nat 991) (Z.to_nat 991)))
         = Z.to_nat 991 /\
         (q == Textbook.arithmetic_mean
                 (map (fun i : nat => Z.b2z (flips i))
                    (seq (g + Z.to_nat 200 * Z.to_nat 48609
                          + Z.to_nat m * Z.to_nat 991) (Z.to_nat 991))))%Q) /\
    (forall j : nat, j < 100 ->
       sample_sizes !! j = Some (1 + 10 * Z.of_nat j)%Z /\
       (1 + 10 * Z.of_nat j)%Z <> 1000%Z /\
       exists means,
         sm !! j = Some means /\
         make_throws flips 200 (1 + 10 * Z.of_nat j)
           (g + Z.to_nat 200 * Z.to_nat (Z.of_nat j * (5 * Z.of_nat j - 4)))
         = inr (means,
                g + Z.to_nat 200 * Z.to_nat (Z.of_nat j * (5 * Z.of_nat j - 4))
                + Z.to_nat 200 * Z.to_nat (1 + 10 * Z.of_nat j)) /\
         forall m : nat, m < Z.to_nat 200 ->
           means !! m
           = Some (mean_int
                     (map (fun i : nat => Z.b2z (flips i))
                        (seq (g + Z.to_nat 200
                                  * Z.to_nat (Z.of_nat j * (5 * Z.of_nat j - 4))
                              + m * Z.to_nat (1 + 10 * Z.of_nat j))
                           (Z.to_nat (1 + 10 * Z.of_nat j)))))).
Proof.
  split; [exact sample_sizes_values|].
  split; [reflexivity|].
  split; [reflexivity|].
  split; [intros n Hn; apply sample_sizes_bounds in Hn; lia|].
  split.
  { intros Hn. apply sample_sizes_bounds in Hn as [_ Hn]. discriminate Hn. }
  destruct (sample_means_closed_form flips 200 g) as (sm & Hrun & Hlen & Hent);
    [lia|].
  destruct (Hent 99 ltac:(lia)) as (_ & means99 & H99 & Hcall & Hmeans).
  change (Z.of_nat 99 * (5 * Z.of_nat 99 - 4))%Z with 48609%Z in Hcall, Hmeans.
  change (1 + 10 * Z.of_nat 99)%Z with 991%Z in Hcall, Hmeans.
  exists sm, means99.
  split; [exact Hrun|].
  split; [exact Hlen|].
  split; [apply getitem_in_range; [lia|exact H99]|].
  split; [rewrite Hmeans; by rewrite length_map, length_seq|].
  split; [exact Hcall|].
  split.
  - intros m Hm.
    set (row := map (fun i : nat => Z.b2z (flips i))
                  (seq (g + Z.to_nat 200 * Z.to_nat 48609
                        + Z.to_nat m * Z.to_nat 991) (Z.to_nat 991))).
    assert (Hrowlen : length row = Z.to_nat 991)
      by (unfold row; by rewrite length_map, length_seq).
    assert (Hne : row <> []).
    { intros Heq. rewrite Heq in Hrowlen. simpl length in Hrowlen. lia. }
    destruct (mean_int_arithmetic_mean row Hne) as (q & Hq & Hmean).
    exists q. split; [|split; [exact Hrowlen|exact Hmean]].
    apply getitem_in_range; [lia|].
    rewrite Hmeans, list_lookup_fmap, lookup_seq_lt by lia.
    change (Some (mean_int row) = Some (Fin q)). by rewrite Hq.
  - intros j Hj.
    destruct (Hent j Hj) as (Hsize & means & Hj' & Hcallj & Hmeansj).
    split; [exact Hsize|]. split; [lia|].
    exists means. split; [exact Hj'|]. split; [exact Hcallj|].
    intros m Hm.
    rewrite Hmeansj, list_lookup_fmap, lookup_seq_lt by exact Hm.
    reflexivity.
Qed.

Lemma sample_sizes_stop_at_991_witness :
  exists sm means,
    sample_means (fun _ => true) 0
    = inr (sm, 0 + Z.to_nat 200 * Z.to_nat 49600) /\
    sm !! 3 = Some means /\
    means !! 7
    = Some (mean_int
              (map (fun i : nat => Z.b2z ((fun _ => true) i))
                 (seq (0 + Z.to_nat 200
                           * Z.to_nat (Z.of_nat 3 * (5 * Z.of_nat 3 - 4))
                       + 7 * Z.to_nat (1 + 10 * Z.of_nat 3))
                    (Z.to_nat (1 + 10 * Z.of_nat 3))))).
Proof.
  destruct (sample_sizes_stop_at_991 (fun _ => true) 0)
    as (_ & _ & _ & _ & _ & sm & m99 & Hrun & _ & _ & _ & _ & _ & Hall).
  destruct (Hall 3 ltac:(lia)) as (_ & _ & means & Hmeans & _ & Hrows).
  exists sm, means. split; [exact Hrun|]. split; [exact Hmeans|].
  apply Hrows. lia.
Defined.

(** A flip is 0 or 1. *)
Lemma flips_are_bits (flips : nat -> bool) (positions : list nat) :
  Forall (fun x => x = 0%Z \/ x = 1%Z)
    (map (fun k => Z.b2z (flips k)) positions).
Proof.
  apply Forall_forall. intros x Hx.
  apply list_elem_of_fmap in Hx as (k & -> & _).
  destruct (flips k); [by right|by left].
Qed.

Lemma throw_a_coin_bits (flips : nat -> bool) (n : Z) (g g' : nat)
    (row : list Z) :
  throw_a_coin flips n g = inr (row, g') ->
  Forall (fun x => x = 0%Z \/ x = 1%Z) row.
Proof.
  unfold throw_a_coin, draw.
  destruct (n <? 0)%Z; [discriminate|].
  intros [= <- _]. apply flips_are_bits.
Qed.

Lemma bits_sum_bounds (a : list Z) :
  Forall (fun x => x = 0%Z \/ x = 1%Z) a ->
  (0 <= foldr Z.add 0 a <= Z.of_nat (length a))%Z.
Proof.
  induction 1 as [|x a Hx _ IH]; simpl foldr; simpl length; lia.
Qed.

Lemma mean_int_unit_interval (a : list Z) :
  a <> [] -> Forall (fun x => x = 0%Z \/ x = 1%Z) a ->
  Textbook.in_unit_interval (mean_int a).
Proof.
  intros Hne Hbits. apply bits_sum_bounds in Hbits.
  unfold mean_int. rewrite sum_int_foldr.
  destruct a as [|x a]; [done|].
  set (s := foldr Z.add 0%Z (x :: a)) in *.
  assert (Hlen : Z.of_nat (length (x :: a)) = Z.pos (Pos.of_succ_nat (length a)))
    by (simpl length; lia).
  rewrite Hlen in *. simpl.
  unfold Qle; simpl. lia.
Qed.

Lemma sum_float_acc_bounds (a : list (float64 Q)) (acc : Q) :
  Forall Textbook.in_unit_interval a ->
  exists s, foldl fadd (Fin acc) a = Fin s /\
            (acc <= s)%Q /\ (s <= acc + inject_Z (Z.of_nat (length a)))%Q.
Proof.
  intros Ha. revert acc. induction Ha as [|x a Hx _ IH]; intros acc.
  - exists acc. simpl. split; [done|]. split; [apply Qle_refl|].
    rewrite Qplus_0_r. apply Qle_refl.
  - destruct x as [q| | |]; try contradiction. destruct Hx as [H0 H1].
    destruct (IH (acc + q)%Q) as (s & Hs & Hlo & Hhi).
    exists s. split; [exact Hs|].
    assert (Hlen : (inject_Z (Z.of_nat (length (Fin q :: a)))
                    == 1 + inject_Z (Z.of_nat (length a)))%Q).
    { simpl length. rewrite Nat2Z.inj_succ. unfold Z.succ.
      rewrite inject_Z_plus. ring. }
    rewrite Hlen. split; lra.
Qed.

Lemma mean_float_unit_interval (a : list (float64 Q)) :
  a <> [] -> Forall Textbook.in_unit_interval a ->
  Textbook.in_unit_interval (mean_float a).
Proof.
  intros Hne Ha.
  destruct (sum_float_acc_bounds a 0%Q Ha) as (s & Hs & Hlo & Hhi).
  unfold mean_float, sum_float. rewrite Hs.
  destruct a as [|x a]; [done|].
  assert (Hlen : Z.of_nat (length (x :: a)) = Z.pos (Pos.of_succ_nat (length a)))
    by (simpl length; lia).
  rewrite Hlen in *. simpl.
  set (p := Pos.of_succ_nat (length a)) in *.
  assert (Hp : (0 < inject_Z (Z.pos p))%Q) by (unfold Qlt; simpl; lia).
  rewrite Qplus_0_l in Hhi.
  split.
  - apply Qle_shift_div_l; [exact Hp|]. lra.
  - apply Qle_shift_div_r; [exact Hp|]. lra.
Qed.

(** Every entry of make_throws(M, N) lies in [0, 1] when N >= 1. *)
Lemma make_throws_unit_interval (flips : nat -> bool) (M N : Z) (g g' : nat)
    (means : list (float64 Q)) :
  (1 <= N)%Z ->
  make_throws flips M N g = inr (means, g') ->
  Forall Textbook.in_unit_interval means.
Proof.
  intros HN Hrun.
  destruct (Z.ltb_spec M 0) as [Hneg|HM].
  { unfold make_throws, zeros2_int in Hrun.
    apply Z.ltb_lt in Hneg. rewrite Hneg in Hrun. discriminate Hrun. }
  destruct (make_throws_general flips M N g) as (start & Hs & Hlen & Hrows);
    [lia|lia|].
  rewrite Hs in Hrun. injection Hrun as <- _.
  apply Forall_lookup. intros k x Hk.
  unfold mean_axis1 in Hk. rewrite list_lookup_fmap in Hk.
  assert (Hlt : k < Z.to_nat M).
  { destruct (start !! k) eqn:E; [|discriminate].
    apply lookup_lt_Some in E. lia. }
  rewrite Hrows in Hk by exact Hlt. injection Hk as <-.
  apply mean_int_unit_interval.
  - intros Heq. apply (f_equal length) in Heq.
    rewrite length_map, length_seq in Heq. simpl in Heq. lia.
  - apply flips_are_bits.
Qed.

(** The means of the sample means, for any positive number of replications. *)
Lemma mean_of_sample_means_unit_interval (flips : nat -> bool) (M : Z)
    (g g' : nat) (sm : list (list (float64 Q))) :
  (1 <= M)%Z ->
  comprehension sample_sizes (fun i => make_throws flips M i) g
  = inr (sm, g') ->
  Forall Textbook.in_unit_interval (mean_of_sample_means sm).
Proof.
  intros HM Hrun.
  destruct (sample_means_general flips M g) as (sm' & g'' & Hrun' & Hlen & Hent);
    [lia|].
  rewrite Hrun' in Hrun. injection Hrun as <- _.
  apply Forall_lookup. intros j x Hj.
  unfold mean_of_sample_means in Hj. rewrite list_lookup_fmap in Hj.
  destruct (sm' !! j) as [means|] eqn:Hmeans; [|discriminate].
  injection Hj as <-.
  assert (Hlt : j < length sample_sizes).
  { apply lookup_lt_Some in Hmeans.
    rewrite sample_sizes_values, length_map, length_seq. lia. }
  apply lookup_lt_is_Some_2 in Hlt as (size & Hsize).
  destruct (Hent j size Hsize) as (means' & gj & Hj' & Hcall).
  rewrite Hmeans in Hj'. injection Hj' as <-.
  assert (Hsz : (1 <= size)%Z).
  { apply list_elem_of_lookup_2, sample_sizes_bounds in Hsize. lia. }
  apply mean_float_unit_interval.
  - destruct (make_throws_general flips M size gj)
      as (start & Hs & Hslen & _); [lia|lia|].
    rewrite Hs in Hcall. injection Hcall as <-.
    intros Heq. apply (f_equal length) in Heq.
    unfold mean_axis1 in Heq. rewrite length_map, Hslen in Heq.
    simpl in Heq. lia.
  - exact (make_throws_unit_interval flips M size gj _ means Hsz Hcall).
Qed.

(** C9, corrected.  A flip is 0 or 1, and the means of flips lie in [0, 1]:
    every entry of running_means, every entry of make_throws(M, N) when the
    sample size N is at least 1, and every entry of the means of sample
    means, for 200 and for 1000 replications. *)
Theorem flip_means_in_unit_interval (flips : nat -> bool) (g : nat) :
  (forall n g0 g1 row,
     throw_a_coin flips n g0 = inr (row, g1) ->
     Forall (fun x => x = 0%Z \/ x = 1%Z) row) /\
  (exists random_flips running_means sequence_lengths g',
     running_means_cell flips g
     = inr ((random_flips, running_means, sequence_lengths), g') /\
     Forall Textbook.in_unit_interval running_means) /\
  (forall M N g0 g1 means,
     (1 <= N)%Z ->
     make_throws flips M N g0 = inr (means, g1) ->
     Forall Textbook.in_unit_interval means) /\
  (exists sm g',
     sample_means flips g = inr (sm, g') /\
     Forall Textbook.in_unit_interval (mean_of_sample_means sm)) /\
  (exists sm g',
     sample_means_1000_replicates flips g = inr (sm, g') /\
     Forall Textbook.in_unit_interval (mean_of_sample_means sm)).
Proof.
  split; [intros n g0 g1 row; apply throw_a_coin_bits|].
  split.
  { destruct (running_means_general flips 10000 10001 g)
      as (rf & rm & H1 & H2 & H3 & H4 & _); [lia|lia|].
    exists rf, rm, (map Z.of_nat (seq 1 (Z.to_nat 10000))),
      (g + Z.to_nat 10000).
    split; [exact H1|].
    apply Forall_lookup. intros k x Hk.
    assert (Hlt : k < Z.to_nat 10000)
      by (apply lookup_lt_Some in Hk; lia).
    rewrite H4 in Hk by exact Hlt. injection Hk as <-.
    apply mean_int_unit_interval.
    - intros Heq. apply (f_equal length) in Heq.
      rewrite length_take, H2, length_map, length_seq in Heq.
      simpl length in Heq. lia.
    - apply Forall_take. rewrite H2. apply flips_are_bits. }
  split; [intros M N g0 g1 means; apply make_throws_unit_interval|].
  split.
  - destruct (sample_means_general flips 200 g) as (sm & g' & Hrun & _);
      [lia|].
    exists sm, g'. split; [exact Hrun|].
    apply (mean_of_sample_means_unit_interval flips 200 g g'); [lia|exact Hrun].
  - destruct (sample_means_general flips 1000 g) as (sm & g' & Hrun & _);
      [lia|].
    exists sm, g'. split; [exact Hrun|].
    apply (mean_of_sample_means_unit_interval flips 1000 g g'); [lia|exact Hrun].
Qed.

Lemma flip_means_in_unit_interval_witness :
  Forall Textbook.in_unit_interval [Fin (1 # 2); Fin (1 # 2)]%Q.
Proof.
  destruct (flip_means_in_unit_interval (fun k => Nat.even k) 0)
    as (_ & _ & Hmt & _).
  apply (Hmt 2%Z 2%Z 0 4); [lia|reflexivity].
Defined.

(** For an empty sample the bound fails: make_throws(1, 0) returns one mean,
    of no flips, which is NaN. *)
Lemma make_throws_empty_sample_nan :
  exists means g',
    make_throws (fun _ => true) 1 0 0 = inr (means, g') /\
    ~ Forall Textbook.in_unit_interval means.
Proof.
  exists [NaN], 0. split; [reflexivity|].
  intros H. apply Forall_inv in H. exact H.
Qed.

Lemma sampler_bind_ret {A B} (m : sampler A) (h : A -> B) (g g' : nat) (x : A) :
  m g = inr (x, g') -> (x ← m; mret (h x)) g = inr (h x, g').
Proof. intros H. by bind_step ltac:(exact H). Qed.

Lemma sum_R_acc (y : list R) (acc : R) :
  foldl Rplus acc y = (acc + foldr Rplus 0 y)%R.
Proof.
  revert acc. induction y as [|x y IH]; intros acc; simpl.
  - lra.
  - rewrite IH. lra.
Qed.

Lemma sum_R_foldr (y : list R) : sum_R y = foldr Rplus 0%R y.
Proof. unfold sum_R. rewrite sum_R_acc. lra. Qed.

Lemma true_divide_R_nonzero (x : R) (n : Z) :
  n <> 0%Z -> true_divide_R x n = Fin (x / IZR n)%R.
Proof. intros Hn. unfold true_divide_R. by destruct n. Qed.

Lemma true_divide_R_zero_by_zero : true_divide_R 0 0 = NaN.
Proof.
  unfold true_divide_R. destruct (Req_dec_T 0 0) as [_|Hne]; [done|].
  by destruct Hne.
Qed.

(** One estimate: the draws are made by the estimate's own call of
    np.random.uniform. *)
Lemma estimate_ok (unit_draws : nat -> R) (N : Z) (g : nat) :
  (0 <= N)%Z ->
  exists X,
    random_uniform unit_draws a b N g = inr (X, g + Z.to_nat N) /\
    length X = Z.to_nat N /\
    estimate unit_draws N g
    = inr (true_divide_R (IZR (b - a) * sum_R (map f X)) N, g + Z.to_nat N).
Proof.
  intros HN.
  set (X := map (fun k => IZR a + (IZR b - IZR a) * unit_draws k)%R
              (seq g (Z.to_nat N))).
  assert (HX : random_uniform unit_draws a b N g = inr (X, g + Z.to_nat N))
    by (apply draw_ok; exact HN).
  exists X. split; [exact HX|]. split.
  - unfold X. by rewrite length_map, length_seq.
  - unfold estimate. by bind_step ltac:(exact HX).
Qed.

(** The loops of the two Monte Carlo cells: iteration i stores, at index i,
    an estimate from [size i] draws. *)
Lemma monte_carlo_loop (unit_draws : nat -> R) (size : Z -> Z)
    (body : list (float64 R) -> Z -> sampler (list (float64 R))) :
  (forall Imc i g,
     body Imc i g = (v ← estimate unit_draws (size i); lift (setitem Imc i v)) g) ->
  forall (m a0 : nat) (Imc : list (float64 R)) (g : nat),
  a0 + m <= length Imc ->
  (forall k, a0 <= k < a0 + m -> (0 <= size (Z.of_nat k))%Z) ->
  exists Imc' g',
    for_in (map Z.of_nat (seq a0 m)) body Imc g = inr (Imc', g') /\
    length Imc' = length Imc /\
    (forall k, a0 <= k < a0 + m ->
       exists gk X,
         random_uniform unit_draws a b (size (Z.of_nat k)) gk
         = inr (X, gk + Z.to_nat (size (Z.of_nat k))) /\
         length X = Z.to_nat (size (Z.of_nat k)) /\
         Imc' !! k
         = Some (true_divide_R (IZR (b - a) * sum_R (map f X))
                   (size (Z.of_nat k)))) /\
    (forall k, ~ (a0 <= k < a0 + m) -> Imc' !! k = Imc !! k).
Proof.
  intros Hbody. induction m as [|m IH]; intros a0 Imc g Hlen Hsize.
  - exists Imc, g. simpl. split_and!; [done|done|intros; lia|done].
  - destruct (estimate_ok unit_draws (size (Z.of_nat a0)) g)
      as (X & HX & HXlen & Hest); [apply Hsize; lia|].
    set (v := true_divide_R (IZR (b - a) * sum_R (map f X)) (size (Z.of_nat a0))).
    set (Imc1 := <[a0 := v]> Imc).
    assert (Hstep : body Imc (Z.of_nat a0) g
                    = inr (Imc1, g + Z.to_nat (size (Z.of_nat a0)))).
    { rewrite Hbody. bind_step ltac:(exact Hest).
      apply lift_ok. rewrite setitem_in_range by lia.
      unfold Imc1. by rewrite Nat2Z.id. }
    destruct (IH (S a0) Imc1 (g + Z.to_nat (size (Z.of_nat a0))))
      as (Imc' & g' & Hrun & Hl & Hset & Hrest).
    { unfold Imc1. rewrite length_insert. lia. }
    { intros k Hk. apply Hsize. lia. }
    exists Imc', g'. split_and!.
    + simpl seq. simpl map. simpl for_in.
      bind_step ltac:(exact Hstep). exact Hrun.
    + rewrite Hl. unfold Imc1. by rewrite length_insert.
    + intros k Hk. destruct (decide (k = a0)) as [->|Hne].
      * exists g, X. split; [exact HX|]. split; [exact HXlen|].
        rewrite Hrest by lia. unfold Imc1.
        apply list_lookup_insert_eq. lia.
      * apply Hset. lia.
    + intros k Hk. rewrite Hrest by lia. unfold Imc1.
      rewrite list_lookup_insert_ne by lia. done.
Qed.

Lemma arange_from_zero (n : Z) :
  arange 0 n 1 = map Z.of_nat (seq 0 (Z.to_nat n)).
Proof. exact (range_seq n). Qed.

Lemma linspace_ok (start stop : R) (num : Z) :
  (2 <= num)%Z ->
  linspace start stop num
  = inr (map (fun k : nat =>
                start + INR k * ((stop - start) / IZR (num - 1)))%R
           (seq 0 (Z.to_nat num))).
Proof.
  intros H. unfold linspace.
  destruct (Z.ltb_spec num 0); [lia|].
  destruct (Z.eqb_spec num 1); [lia|done].
Qed.

(** intf is an antiderivative of f. *)
Lemma intf_derivative (x : R) : derivable_pt_lim intf x (f x).
Proof.
  pose (cube := fun y : R => (y ^ 3)%R).
  assert (H : derivable_pt_lim
                ((mult_real_fct (/ 3) cube + mult_real_fct 4 sin)
                 - (mult_real_fct 4 id * cos))%F x
                ((/ 3 * (INR 3 * x ^ pred 3) + 4 * cos x)
                 - ((4 * 1) * cos x + mult_real_fct 4 id x * - sin x))%R).
  { apply derivable_pt_lim_minus.
    - apply derivable_pt_lim_plus.
      + apply derivable_pt_lim_scal. apply derivable_pt_lim_pow.
      + apply derivable_pt_lim_scal. apply derivable_pt_lim_sin.
    - apply derivable_pt_lim_mult.
      + apply derivable_pt_lim_scal. apply derivable_pt_lim_id.
      + apply derivable_pt_lim_cos. }
  replace (f x) with
    ((/ 3 * (INR 3 * x ^ pred 3) + 4 * cos x)
     - ((4 * 1) * cos x + mult_real_fct 4 id x * - sin x))%R.
  - refine (derivable_pt_lim_ext _ intf x _ _ H).
    intros z. unfold intf, cube, minus_fct, plus_fct, mult_fct, mult_real_fct, id.
    field.
  - unfold f, mult_real_fct, id. simpl. field.
Qed.

(** The estimate stored for a positive count is (b - a) times the textbook
    average of the function values. *)
Lemma estimate_value_average (X : list R) (N : Z) :
  (1 <= N)%Z -> length X = Z.to_nat N ->
  true_divide_R (IZR (b - a) * sum_R (map f X)) N
  = Fin ((IZR b - IZR a) * Textbook.average (map f X))%R.
Proof.
  intros HN HX. rewrite true_divide_R_nonzero by lia. f_equal.
  unfold Textbook.average. rewrite sum_R_foldr, length_map, HX.
  rewrite INR_IZR_INZ, Z2Nat.id by lia.
  rewrite minus_IZR.
  assert (IZR N <> 0%R) by (apply not_0_IZR; lia).
  field. assumption.
Qed.

(** The run of the error-scaling cell. *)
Lemma scaling_cell_run (unit_draws : nat -> R) (g : nat) :
  exists Imc Na g',
    scaling_cell unit_draws g
    = inr ((Imc, error_plot Na Imc exactval), g') /\
    linspace 0 1000 1000 = inr Na /\
    Na = map (fun k : nat => 0 + INR k * ((1000 - 0) / IZR (1000 - 1)))%R
           (seq 0 (Z.to_nat 1000)) /\
    length Imc = Z.to_nat 1000 /\
    forall k, k < Z.to_nat 1000 ->
      exists gk X,
        random_uniform unit_draws a b (Z.of_nat k) gk = inr (X, gk + k) /\
        length X = k /\
        Imc !! k
        = Some (true_divide_R (IZR (b - a) * sum_R (map f X)) (Z.of_nat k)).
Proof.
  destruct (monte_carlo_loop unit_draws (fun i => i) (scaling_body unit_draws)
              (fun _ _ _ => eq_refl) (Z.to_nat 1000) 0
              (replicate (Z.to_nat 1000) (Fin 0%R)) g)
    as (Imc & g' & Hrun & Hlen & Hset & _).
  { rewrite length_replicate. lia. }
  { intros k _. lia. }
  rewrite length_replicate in Hlen.
  eexists Imc, _, g'.
  split; [|split; [apply linspace_ok; lia|split; [reflexivity|]]].
  - unfold scaling_cell.
    bind_step ltac:(apply lift_ok, zeros_ok; lia).
    bind_step ltac:(apply lift_ok, linspace_ok; lia).
    rewrite arange_from_zero.
    bind_step ltac:(exact Hrun).
    reflexivity.
  - split; [exact Hlen|].
    intros k Hk. destruct (Hset k ltac:(lia)) as (gk & X & HX & HXlen & Hk').
    rewrite Nat2Z.id in HX, HXlen. eauto.
Qed.

(** The run of the cell of repeated estimates. *)
Lemma repeated_cell_run (unit_draws : nat -> R) (g : nat) :
  exists Imc g',
    repeated_cell unit_draws g = inr (Imc, g') /\
    length Imc = Z.to_nat 1000 /\
    forall k, k < Z.to_nat 1000 ->
      exists gk X,
        random_uniform unit_draws a b 10000 gk
        = inr (X, gk + Z.to_nat 10000) /\
        length X = Z.to_nat 10000 /\
        Imc !! k
        = Some (true_divide_R (IZR (b - a) * sum_R (map f X)) 10000).
Proof.
  destruct (monte_carlo_loop unit_draws (fun _ => 10000%Z)
              (repeated_body unit_draws 10000)
              (fun _ _ _ => eq_refl) (Z.to_nat 1000) 0
              (replicate (Z.to_nat 1000) (Fin 0%R)) g)
    as (Imc & g' & Hrun & Hlen & Hset & _).
  { rewrite length_replicate. lia. }
  { intros k _. lia. }
  rewrite length_replicate in Hlen.
  exists Imc, g'. split; [|split; [exact Hlen|]].
  - unfold repeated_cell. cbv zeta.
    bind_step ltac:(apply lift_ok, zeros_ok; lia).
    rewrite arange_from_zero. exact Hrun.
  - intros k Hk. apply Hset. lia.
Qed.

(** C2. With a = 2 and b = 3, for every N from 1 to the end of the loop the
    estimate Imc[N] is (b - a) times the average of the N values f(X_1), ...,
    f(X_N) at that iteration's draws; in the cell of repeated estimates every
    Imc[i] is (b - a) times the average of 10000 such values; the exact
    value is intf(3) - intf(2); and intf is an antiderivative of f. *)
Theorem monte_carlo_estimates (unit_draws : nat -> R) (g : nat) :
  a = 2%Z /\ b = 3%Z /\
  exactval = (intf 3 - intf 2)%R /\
  (forall x : R, derivable_pt_lim intf x (f x)) /\
  (exists Imc plot g',
     scaling_cell unit_draws g = inr ((Imc, plot), g') /\
     forall N : Z, (1 <= N <= 999)%Z ->
       exists gN X,
         random_uniform unit_draws a b N gN = inr (X, gN + Z.to_nat N) /\
         length X = Z.to_nat N /\
         getitem Imc N
         = inr (Fin ((IZR b - IZR a) * Textbook.average (map f X))%R)) /\
  (exists Imc g',
     repeated_cell unit_draws g = inr (Imc, g') /\
     forall i : Z, (0 <= i <= 999)%Z ->
       exists gi X,
         random_uniform unit_draws a b 10000 gi
         = inr (X, gi + Z.to_nat 10000) /\
         length X = Z.to_nat 10000 /\
         getitem Imc i
         = inr (Fin ((IZR b - IZR a) * Textbook.average (map f X))%R)).
Proof.
  split; [reflexivity|]. split; [reflexivity|]. split; [reflexivity|].
  split; [exact intf_derivative|]. split.
  - destruct (scaling_cell_run unit_draws g)
      as (Imc & Na & g' & Hrun & _ & _ & Hlen & Hent).
    exists Imc, (error_plot Na Imc exactval), g'. split; [exact Hrun|].
    intros N HN.
    destruct (Hent (Z.to_nat N) ltac:(lia)) as (gN & X & HX & HXlen & HN').
    rewrite Z2Nat.id in HX, HN' by lia.
    exists gN, X. split; [exact HX|]. split; [exact HXlen|].
    apply getitem_in_range; [lia|].
    rewrite HN'. f_equal. apply estimate_value_average; [lia|exact HXlen].
  - destruct (repeated_cell_run unit_draws g)
      as (Imc & g' & Hrun & Hlen & Hent).
    exists Imc, g'. split; [exact Hrun|].
    intros i Hi.
    destruct (Hent (Z.to_nat i) ltac:(lia)) as (gi & X & HX & HXlen & Hi').
    exists gi, X. split; [exact HX|]. split; [exact HXlen|].
    apply getitem_in_range; [lia|].
    rewrite Hi'. f_equal. apply estimate_value_average; [lia|exact HXlen].
Qed.

Lemma monte_carlo_estimates_witness :
  exists (Imc : list (float64 R)) (X : list R),
    length X = 2 /\
    getitem Imc 2
    = inr (Fin ((IZR b - IZR a) * Textbook.average (map f X))%R).
Proof.
  destruct (monte_carlo_estimates (fun _ => (1 / 2)%R) 0)
    as (_ & _ & _ & _ & (Imc & plot & g' & _ & HN) & _).
  destruct (HN 2%Z ltac:(lia)) as (gN & X & _ & HXlen & Hget).
  exists Imc, X. split; [exact HXlen|exact Hget].
Defined.

(** C8. The iteration N = 0 of the error-scaling loop divides the sum of an
    empty sample by 0, so Imc[0] is NaN; for every later N the count is not
    zero and Imc[N] is a finite number; and the plot, which is drawn from
    Imc[10:] and Na[10:], does not depend on Imc[0] and holds finite values
    only. *)
Theorem scaling_first_entry_is_nan (unit_draws : nat -> R) (g : nat) :
  exists Imc Na g',
    scaling_cell unit_draws g
    = inr ((Imc, error_plot Na Imc exactval), g') /\
    random_uniform unit_draws a b 0 g = inr ([], g + 0) /\
    estimate unit_draws 0 g
    = inr (true_divide_R (IZR (b - a) * sum_R (map f [])) 0, g + 0) /\
    true_divide_R (IZR (b - a) * sum_R (map f [])) 0 = NaN /\
    getitem Imc 0 = inr NaN /\
    (forall N : Z, (1 <= N <= 999)%Z ->
       N <> 0%Z /\ exists v, getitem Imc N = inr (Fin v)) /\
    (forall v, error_plot Na (<[0 := v]> Imc) exactval
               = error_plot Na Imc exactval) /\
    Forall (fun x => is_finite x = true)
      (snd (fst (error_plot Na Imc exactval))) /\
    Forall (fun x => is_finite x = true) (snd (error_plot Na Imc exactval)).
Proof.
  destruct (scaling_cell_run unit_draws g)
    as (Imc & Na & g' & Hrun & _ & HNa & Hlen & Hent).
  assert (Hnan : true_divide_R (IZR (b - a) * sum_R (map f [])) 0 = NaN).
  { simpl map. unfold sum_R. simpl foldl. rewrite Rmult_0_r.
    apply true_divide_R_zero_by_zero. }
  exists Imc, Na, g'. split; [exact Hrun|].
  split; [reflexivity|].
  split; [reflexivity|].
  split; [exact Hnan|].
  split.
  { destruct (Hent 0 ltac:(lia)) as (g0 & X & _ & HXlen & H0).
    apply nil_length_inv in HXlen. subst X.
    apply getitem_in_range; [lia|].
    change (Imc !! 0 = Some NaN). rewrite H0. f_equal. exact Hnan. }
  split.
  { intros N HN. split; [lia|].
    destruct (Hent (Z.to_nat N) ltac:(lia)) as (gN & X & _ & _ & HN').
    rewrite Z2Nat.id in HN' by lia.
    rewrite true_divide_R_nonzero in HN' by lia.
    eexists. apply getitem_in_range; [lia|exact HN']. }
  split.
  { intros v. unfold error_plot. do 2 f_equal.
    rewrite !slice_from_drop by lia.
    rewrite drop_insert_lt; [reflexivity|lia]. }
  split.
  - unfold error_plot. simpl fst. simpl snd.
    rewrite slice_from_drop by lia.
    apply Forall_fmap, Forall_lookup. intros j x Hj.
    rewrite lookup_drop in Hj.
    assert (Hlt : Z.to_nat 10 + j < Z.to_nat 1000)
      by (apply lookup_lt_Some in Hj; lia).
    destruct (Hent _ Hlt) as (gN & X & _ & _ & Hj').
    rewrite Hj' in Hj. apply (inj Some) in Hj. subst x. unfold compose.
    rewrite true_divide_R_nonzero by lia. reflexivity.
  - unfold error_plot. simpl snd.
    rewrite slice_from_drop by lia.
    rewrite HNa.
    apply Forall_fmap, Forall_lookup. intros j x Hj.
    rewrite lookup_drop, list_lookup_fmap in Hj.
    destruct (seq 0 (Z.to_nat 1000) !! (Z.to_nat 10 + j)) as [k|] eqn:Hk;
      [|discriminate].
    apply lookup_seq in Hk as [-> _]. apply (inj Some) in Hj. subst x.
    assert (Hpos : (0 < 0 + INR (0 + (Z.to_nat 10 + j))
                             * ((1000 - 0) / IZR (1000 - 1)))%R).
    { assert (0 < INR (0 + (Z.to_nat 10 + j)))%R by (apply lt_0_INR; lia).
      assert (0 < (1000 - 0) / IZR (1000 - 1))%R.
      { apply Rdiv_lt_0_compat; [lra|]. apply IZR_lt. lia. }
      rewrite Rplus_0_l. by apply Rmult_lt_0_compat. }
    unfold compose, inv_sqrt.
    destruct (Req_dec_T _ 0) as [E|_]; [lra|].
    destruct (Rlt_dec _ 0) as [E|_]; [lra|reflexivity].
Qed.

Lemma scaling_first_entry_is_nan_witness :
  exists (Imc : list (float64 R)) (v : R),
    getitem Imc 0 = inr NaN /\ getitem Imc 5 = inr (Fin v).
Proof.
  destruct (scaling_first_entry_is_nan (fun _ => (1 / 2)%R) 0)
    as (Imc & Na & g' & _ & _ & _ & _ & H0 & HN & _).
  destruct (HN 5%Z ltac:(lia)) as (_ & v & Hv).
  exists Imc, v. split; [exact H0|exact Hv].
Defined.

End GaussiansFacts.

Module NumpyArraysFacts.
Import Numpy Kernel NumpyArrays Source.

Lemma forallb_elem_of {A} (p : A -> bool) (l : list A) (x : A) :
  forallb p l = true -> x ∈ l -> p x = true.
Proof.
  intros H Hx. apply list_elem_of_In in Hx.
  exact (proj1 (forallb_forall p l) H x Hx).
Qed.

(** No code cell of either notebook has a line with [try], [except] or
    [finally] in it. *)
Lemma no_handler_in_source (c : list string) (kw : string) :
  c ∈ numpy_arrays ++ distribute_gaussians -> kw ∈ handler_keywords ->
  mentions kw c = false.
Proof.
  intros Hc Hkw.
  assert (H : forallb (fun c => forallb (fun kw => negb (mentions kw c))
                                  handler_keywords)
                (numpy_arrays ++ distribute_gaussians) = true)
    by (vm_compute; reflexivity).
  pose proof (forallb_elem_of _ _ c H Hc) as H1.
  pose proof (forallb_elem_of _ _ kw H1 Hkw) as H2.
  by apply negb_true_iff in H2.
Qed.

(** The in-order run ends the cells in the errors the notebook recorded. *)
Lemma recorded_errors_reproduced (w : world) :
  Forall (fun ie : nat * exception =>
            exists k, run w !! ie.1 = Some (Output [] (inl ie.2), k))
    recorded_errors.
Proof.
  unfold recorded_errors.
  repeat (apply Forall_cons; split; [eexists; vm_compute; reflexivity|]).
  apply Forall_nil_2.
Qed.

(** The in-order run displays the values the notebook recorded. *)
Lemma recorded_values_reproduced (w : world) :
  Forall (fun iv : nat * pyobj =>
            exists out k, run w !! iv.1 = Some (Output out (inr iv.2), k))
    recorded_values.
Proof.
  unfold recorded_values.
  repeat (apply Forall_cons; split; [do 2 eexists; vm_compute; reflexivity|]).
  apply Forall_nil_2.
Qed.

(** The in-order run prints what the notebook recorded. *)
Lemma recorded_streams_reproduced (w : world) :
  Forall (fun io : nat * list pyobj =>
            exists r k, run w !! io.1 = Some (Output io.2 r, k))
    recorded_streams.
Proof.
  unfold recorded_streams.
  repeat (apply Forall_cons; split; [do 2 eexists; vm_compute; reflexivity|]).
  apply Forall_nil_2.
Qed.

(** No cell of the in-order run gets to an operation that is left
    unmodelled. *)
Lemma run_is_modelled (w : world) (ok : output * kernel) (what : string) :
  ok ∈ run w -> outcome ok.1 <> inl (NotModelled what).
Proof.
  intros Hok.
  assert (H : forallb (fun ok : output * kernel =>
                         match outcome ok.1 with
                         | inl (NotModelled _) => false
                         | _ => true
                         end) (run w) = true) by (vm_compute; reflexivity).
  pose proof (forallb_elem_of _ _ ok H Hok) as H1. simpl in H1.
  intros E. rewrite E in H1. discriminate.
Qed.

(** C1. Run in order, the cell with pd.read_csv(..., head= None) ends in the
    TypeError "read_csv() got an unexpected keyword argument 'head'"; the
    name test_data is bound after no cell; the cell with
    test_data.drop(0, axis=1) ends in the NameError "name 'test_data' is not
    defined"; each exception is the outcome of its cell, and no cell of
    either notebook has a handler. *)
Theorem read_csv_errors_propagate (w : world) :
  numpy_arrays !! 26
  = Some ["import pandas as pd";
          ("test_data = pd.read_csv(" ++ dq ++ mnist_test_csv ++ dq
           ++ ", head= None)")%string;
          "test_data.head()"] /\
  (exists k,
     run w !! 26
     = Some (Output []
               (inl (TypeError
                       "read_csv() got an unexpected keyword argument 'head'")),
             k)) /\
  (forall ok, ok ∈ run w -> globals ok.2 !! "test_data" = None) /\
  numpy_arrays !! 29
  = Some ["test_images_df = test_data.drop(0, axis=1) ";
          "test_images_df.shape"] /\
  (exists k,
     run w !! 29
     = Some (Output []
               (inl (NameError "name 'test_data' is not defined")), k)) /\
  (forall c kw,
     c ∈ numpy_arrays ++ distribute_gaussians -> kw ∈ handler_keywords ->
     mentions kw c = false).
Proof.
  split; [vm_compute; reflexivity|].
  split; [eexists; vm_compute; reflexivity|].
  split.
  { intros ok Hok.
    assert (H : forallb (fun ok : output * kernel =>
                           bool_decide (globals ok.2 !! "test_data" = None))
                  (run w) = true) by (vm_compute; reflexivity).
    pose proof (forallb_elem_of _ _ ok H Hok) as H1.
    by apply bool_decide_eq_true in H1. }
  split; [vm_compute; reflexivity|].
  split; [eexists; vm_compute; reflexivity|].
  exact no_handler_in_source.
Qed.

Lemma read_csv_errors_propagate_witness :
  mentions "except" ["test_images_df = test_data.drop(0, axis=1) ";
                     "test_images_df.shape"] = false.
Proof.
  destruct (read_csv_errors_propagate (World (fun _ => None) (fun _ => [])))
    as (_ & _ & _ & _ & _ & H).
  apply H; [|vm_compute; set_solver].
  apply list_elem_of_lookup. exists 29. vm_compute. reflexivity.
Defined.

Lemma cell_bind_ok {A B} (m : cell A) (f : A -> cell B) (w : world)
    (k k' : kernel) (x : A) :
  m w k = (inr x, k') -> (x ← m; f x) w k = f x w k'.
Proof. intros H. unfold mbind, cell_bind. by rewrite H. Qed.

Lemma cell_bind_raise {A B} (m : cell A) (f : A -> cell B) (w : world)
    (k k' : kernel) (e : exception) :
  m w k = (inl e, k') -> (x ← m; f x) w k = (inl e, k').
Proof. intros H. unfold mbind, cell_bind. by rewrite H. Qed.

Lemma name_bound (x : string) (v : pyobj) (w : world) (k : kernel) :
  globals k !! x = Some v -> name x w k = (inr v, k).
Proof. intros H. unfold name. by rewrite H. Qed.

(** [o.a] of a bound name is [getattr] of its value, in the same kernel. *)
Lemma attr_name_bound (x a : string) (v : pyobj) (w : world) (k : kernel) :
  globals k !! x = Some v -> attr (name x) a w k = (getattr v a, k).
Proof.
  intros H. unfold attr.
  rewrite (cell_bind_ok _ _ _ _ _ _ (name_bound x v w k H)). reflexivity.
Qed.









End NumpyArraysFacts.

Module CoinFacts.
Import Numpy Gaussians NumpyFacts GaussiansFacts.

(** The mean of a non-empty integer array, as a fraction. *)
Lemma mean_int_fraction (a : list Z) :
  a <> [] ->
  mean_int a = Fin (foldr Z.add 0%Z a # Pos.of_nat (length a)).
Proof.
  intros Ha. unfold mean_int. rewrite sum_int_foldr.
  destruct a as [|x a]; [done|].
  replace (Z.of_nat (length (x :: a)))
    with (Z.pos (Pos.of_nat (length (x :: a)))) by (simpl length; lia).
  reflexivity.
Qed.

Lemma sum_take_S (l : list Z) (k : nat) (x : Z) :
  l !! k = Some x ->
  foldr Z.add 0%Z (take (S k) l) = (foldr Z.add 0 (take k l) + x)%Z.
Proof. intros Hx. by rewrite (take_S_r l k x Hx), sum_snoc. Qed.

(** The running mean after one more flip: S_(i+1) (i+1) = S_i i + x_(i+1),
    hence the two means differ by at most 1/(i+1). *)
Lemma running_mean_step (l : list Z) (i : nat) (x : Z) :
  1 <= i -> i < length l -> l !! i = Some x -> (0 <= x <= 1)%Z ->
  Forall (fun x => x = 0%Z \/ x = 1%Z) l ->
  exists p q,
    mean_int (take i l) = Fin p /\ mean_int (take (S i) l) = Fin q /\
    (q * inject_Z (Z.of_nat (S i)) == p * inject_Z (Z.of_nat i) + inject_Z x)%Q /\
    (- (1 # Pos.of_nat (S i)) <= q - p)%Q /\
    (q - p <= 1 # Pos.of_nat (S i))%Q.
Proof.
  intros Hi Hlen Hx Hx01 Hbits.
  assert (Hs : (0 <= foldr Z.add 0 (take i l) <= Z.of_nat i)%Z).
  { pose proof (bits_sum_bounds (take i l) (Forall_take _ i _ Hbits)) as H.
    rewrite length_take in H. lia. }
  rewrite !mean_int_fraction.
  2,3: intros Heq; apply (f_equal length) in Heq;
       rewrite length_take in Heq;
       change (length (@nil Z)) with 0 in Heq; lia.
  rewrite !length_take, (sum_take_S l i x Hx).
  replace (S i `min` length l) with (S i) by lia.
  replace (i `min` length l) with i by lia.
  set (s := foldr Z.add 0%Z (take i l)) in *.
  eexists _, _. split; [reflexivity|]. split; [reflexivity|].
  assert (Hpi : Z.pos (Pos.of_nat i) = Z.of_nat i) by lia.
  assert (HpS : Z.pos (Pos.of_nat (S i)) = Z.of_nat (S i)) by lia.
  unfold Qeq, Qle, Qminus, Qplus, Qmult, Qopp, inject_Z; simpl.
  rewrite ?Pos2Z.inj_mul, ?Hpi, ?HpS.
  split_and!; nia.
Qed.

(** X1. Successive running means: for 1 <= i < 10000,
    running_means[i] * (i+1) = running_means[i-1] * i + random_flips[i],
    so one more flip moves the running mean by at most 1/(i+1). *)
Theorem running_means_recurrence (flips : nat -> bool) (g : nat) :
  exists random_flips running_means sequence_lengths,
    running_means_cell flips g
    = inr ((random_flips, running_means, sequence_lengths),
           g + Z.to_nat 10000) /\
    forall i : Z, (1 <= i < 10000)%Z ->
      exists p q x,
        getitem running_means (i - 1) = inr (Fin p) /\
        getitem running_means i = inr (Fin q) /\
        getitem random_flips i = inr x /\
        (q * inject_Z (i + 1) == p * inject_Z i + inject_Z x)%Q /\
        (- (1 # Z.to_pos (i + 1)) <= q - p)%Q /\
        (q - p <= 1 # Z.to_pos (i + 1))%Q.
Proof.
  destruct (running_means_general flips 10000 10001 g)
    as (rf & rm & Hrun & Hrf & Hlen & Hent & _); [lia|lia|].
  exists rf, rm, (map Z.of_nat (seq 1 (Z.to_nat 10000))).
  split; [exact Hrun|].
  intros i Hi.
  assert (Hrflen : length rf = Z.to_nat 10000)
    by (rewrite Hrf; by rewrite length_map, length_seq).
  assert (Hbits : Forall (fun x => x = 0%Z \/ x = 1%Z) rf)
    by (rewrite Hrf; apply flips_are_bits).
  destruct (lookup_lt_is_Some_2 rf (Z.to_nat i)) as (x & Hx); [lia|].
  assert (Hx01 : (0 <= x <= 1)%Z).
  { pose proof (proj1 (Forall_lookup _ _) Hbits _ _ Hx) as [->| ->]; lia. }
  destruct (running_mean_step rf (Z.to_nat i) x) as (p & q & Hp & Hq & Hrec & Hlo & Hhi);
    [lia|lia|exact Hx|exact Hx01|exact Hbits|].
  exists p, q, x.
  split.
  { apply getitem_in_range; [lia|]. rewrite Hent by lia.
    replace (S (Z.to_nat (i - 1))) with (Z.to_nat i) by lia. by rewrite Hp. }
  split.
  { apply getitem_in_range; [lia|]. rewrite Hent by lia. by rewrite Hq. }
  split; [apply getitem_in_range; [lia|exact Hx]|].
  replace (Z.of_nat (S (Z.to_nat i))) with (i + 1)%Z in Hrec by lia.
  replace (Z.of_nat (Z.to_nat i)) with i in Hrec by lia.
  replace (Pos.of_nat (S (Z.to_nat i))) with (Z.to_pos (i + 1)) in Hlo, Hhi by lia.
  split; [exact Hrec|]. split; [exact Hlo|exact Hhi].
Qed.

Lemma running_means_recurrence_witness :
  exists p q x : _,
    (q * inject_Z (7 + 1) == p * inject_Z 7 + inject_Z x)%Q /\
    (q - p <= 1 # Z.to_pos (7 + 1))%Q.
Proof.
  destruct (running_means_recurrence (fun k => Nat.even k) 0)
    as (rf & rm & sl & _ & H).
  destruct (H 7%Z ltac:(lia)) as (p & q & x & _ & _ & _ & Hrec & _ & Hhi).
  exists p, q, x. split; [exact Hrec|exact Hhi].
Defined.

(** The flips at the [n] stream positions from [g] on. *)
Local Abbreviation segment flips g n :=
  (map (fun j : nat => Z.b2z (flips j)) (seq g n)).

Lemma make_throws_negative (flips : nat -> bool) (M N : Z) (g : nat) :
  (M < 0)%Z \/ (N < 0)%Z -> make_throws flips M N g = inl ValueError.
Proof.
  intros Hneg. unfold make_throws, zeros2_int.
  destruct (Z.ltb_spec M 0) as [?|HM]; [reflexivity|].
  destruct (Z.ltb_spec N 0) as [?|HN]; [reflexivity|lia].
Qed.

(** X2. make_throws at the edges of its domain: a negative argument is a
    ValueError; no replication gives an empty array; an empty sample gives
    one NaN per replication; in none of these cases is a flip drawn. *)
Theorem make_throws_edge_cases (flips : nat -> bool) (M N : Z) (g : nat) :
  ((M < 0)%Z \/ (N < 0)%Z -> make_throws flips M N g = inl ValueError) /\
  ((0 <= N)%Z -> make_throws flips 0 N g = inr ([], g)) /\
  ((0 <= M)%Z ->
   make_throws flips M 0 g = inr (replicate (Z.to_nat M) NaN, g)).
Proof.
  split_and!.
  - apply make_throws_negative.
  - intros HN. rewrite make_throws_closed_form by lia.
    change (Z.to_nat 0) with 0. simpl. by rewrite Nat.add_0_r.
  - intros HM. rewrite make_throws_closed_form by lia.
    change (Z.to_nat 0) with 0. rewrite Nat.mul_0_r, Nat.add_0_r.
    do 2 f_equal.
    transitivity (replicate (length (seq 0 (Z.to_nat M))) (@NaN Q));
      [|by rewrite length_seq].
    induction (seq 0 (Z.to_nat M)) as [|k l IH]; [reflexivity|].
    simpl. by rewrite <- IH.
Qed.

Lemma make_throws_edge_cases_witness :
  make_throws (fun _ => true) (-1) 5 0 = inl ValueError /\
  make_throws (fun _ => true) 3 0 0 = inr ([NaN; NaN; NaN], 0).
Proof.
  destruct (make_throws_edge_cases (fun _ => true) (-1) 5 0) as (H1 & _ & _).
  destruct (make_throws_edge_cases (fun _ => true) 3 0 0) as (_ & _ & H3).
  split; [apply H1; left; lia|apply H3; lia].
Defined.

(** The sum of a run of flips is the number of heads in it. *)
Lemma sum_flips_heads (flips : nat -> bool) (positions : list nat) :
  foldr Z.add 0%Z (map (fun j : nat => Z.b2z (flips j)) positions)
  = Z.of_nat (length (List.filter flips positions)).
Proof.
  induction positions as [|j l IH]; [reflexivity|].
  simpl. rewrite IH. destruct (flips j); simpl length; simpl Z.b2z; lia.
Qed.

(** X3. Every sample mean is a count of heads over the sample size: entry m of
    make_throws(M, N) is heads_m / N, where heads_m, between 0 and N, is the
    number of heads among the N flips of replication m. *)
Theorem make_throws_counts_heads (flips : nat -> bool) (M N : Z) (g : nat) :
  (1 <= M)%Z -> (1 <= N)%Z ->
  exists means,
    make_throws flips M N g = inr (means, g + Z.to_nat M * Z.to_nat N) /\
    forall m : Z, (0 <= m < M)%Z ->
      let heads :=
        Z.of_nat (length (List.filter flips
                            (seq (g + Z.to_nat m * Z.to_nat N) (Z.to_nat N)))) in
      getitem means m = inr (Fin (heads # Z.to_pos N)) /\
      (0 <= heads <= N)%Z.
Proof.
  intros HM HN. eexists. split; [apply make_throws_closed_form; lia|].
  intros m Hm heads. split.
  - apply getitem_in_range; [lia|].
    rewrite list_lookup_fmap, lookup_seq_lt by lia. simpl.
    rewrite mean_int_fraction.
    + rewrite sum_flips_heads, length_map, length_seq.
      replace (Pos.of_nat (Z.to_nat N)) with (Z.to_pos N) by lia.
      reflexivity.
    + intros Heq. apply (f_equal length) in Heq.
      rewrite length_map, length_seq in Heq.
      change (length (@nil Z)) with 0 in Heq. lia.
  - unfold heads.
    pose proof (filter_length flips
                  (seq (g + Z.to_nat m * Z.to_nat N) (Z.to_nat N))) as H.
    rewrite length_seq in H. lia.
Qed.

Lemma make_throws_counts_heads_witness :
  exists means,
    make_throws (fun k => Nat.even k) 2 3 0 = inr (means, 0 + Z.to_nat 2 * Z.to_nat 3) /\
    getitem means 0 = inr (Fin (2 # 3)).
Proof.
  destruct (make_throws_counts_heads (fun k => Nat.even k) 2 3 0)
    as (means & Hrun & H); [lia|lia|].
  destruct (H 0%Z ltac:(lia)) as [Hget _].
  exists means. split; [exact Hrun|exact Hget].
Defined.

(** X4. Replications compose: M1 + M2 replications are M1 replications followed
    by M2 more, drawn from where the first ones stopped. *)
Theorem make_throws_app (flips : nat -> bool) (M1 M2 N : Z) (g : nat) :
  (0 <= M1)%Z -> (0 <= M2)%Z -> (0 <= N)%Z ->
  exists means1 means2 g1 g2,
    make_throws flips M1 N g = inr (means1, g1) /\
    make_throws flips M2 N g1 = inr (means2, g2) /\
    make_throws flips (M1 + M2) N g = inr (means1 ++ means2, g2).
Proof.
  intros H1 H2 HN.
  eexists _, _, _, _.
  split; [apply make_throws_closed_form; lia|].
  split; [apply make_throws_closed_form; lia|].
  rewrite make_throws_closed_form by lia.
  rewrite Z2Nat.inj_add by lia.
  f_equal. apply (f_equal2 pair); [|lia].
  rewrite seq_app, map_app. apply (f_equal2 app); [reflexivity|].
  replace (seq (0 + Z.to_nat M1) (Z.to_nat M2))
    with (map (Nat.add (Z.to_nat M1)) (seq 0 (Z.to_nat M2)))
    by (rewrite fmap_add_seq; f_equal; lia).
  rewrite map_map.
  apply map_ext. intros k.
  assert (E : g + (Z.to_nat M1 + k) * Z.to_nat N
              = g + Z.to_nat M1 * Z.to_nat N + k * Z.to_nat N) by lia.
  by rewrite E.
Qed.

Lemma make_throws_app_witness :
  exists means1 means2 g1 g2,
    make_throws (fun k => Nat.even k) 1 3 0 = inr (means1, g1) /\
    make_throws (fun k => Nat.even k) 2 3 g1 = inr (means2, g2) /\
    make_throws (fun k => Nat.even k) (1 + 2) 3 0 = inr (means1 ++ means2, g2).
Proof. apply make_throws_app; lia. Defined.

(** X5. make_throws reads the M N flips it draws and no other: two streams
    that agree on the positions g, ..., g + M N - 1 give the same result. *)
Theorem make_throws_local (flips flips' : nat -> bool) (M N : Z) (g : nat) :
  (forall j, g <= j < g + Z.to_nat M * Z.to_nat N -> flips j = flips' j) ->
  make_throws flips M N g = make_throws flips' M N g.
Proof.
  intros Hagree.
  destruct (Z.ltb_spec M 0) as [HM|HM].
  { by rewrite !make_throws_negative by (left; lia). }
  destruct (Z.ltb_spec N 0) as [HN|HN].
  { by rewrite !make_throws_negative by (right; lia). }
  rewrite !make_throws_closed_form by lia. do 2 f_equal.
  apply map_ext_in. intros k Hk. apply in_seq in Hk. f_equal.
  apply map_ext_in. intros j Hj. apply in_seq in Hj. f_equal.
  apply Hagree. nia.
Qed.

Lemma make_throws_local_witness :
  make_throws (fun k => Nat.even k) 2 3 0
  = make_throws (fun k => Nat.even k && (k <? 6)) 2 3 0.
Proof.
  apply make_throws_local. intros j Hj.
  assert (Hlt : j < 6) by (vm_compute in Hj; lia).
  apply Nat.ltb_lt in Hlt. rewrite Hlt. by rewrite andb_true_r.
Defined.

(** The sum of an array of fractions over one denominator. *)
Lemma sum_float_fractions (hs : list Z) (N : positive) (acc : Q) :
  exists s,
    foldl fadd (Fin acc) (map (fun h => Fin (h # N)) hs) = Fin s /\
    (s == acc + (foldr Z.add 0%Z hs # N))%Q.
Proof.
  revert acc. induction hs as [|h hs IH]; intros acc.
  - exists acc. split; [reflexivity|]. simpl.
    unfold Qeq, Qplus; simpl. lia.
  - destruct (IH (acc + (h # N))%Q) as (s & Hs & Heq).
    exists s. split; [exact Hs|].
    rewrite Heq. simpl foldr. rewrite <- Qinv_plus_distr. ring.
Qed.

(** The heads of M consecutive samples of n flips are the heads of the
    M n flips. *)
Lemma heads_of_segments (flips : nat -> bool) (n g M : nat) :
  foldr Z.add 0%Z
    (map (fun k => Z.of_nat (length (List.filter flips (seq (g + k * n) n))))
       (seq 0 M))
  = Z.of_nat (length (List.filter flips (seq g (M * n)))).
Proof.
  induction M as [|M IH]; [reflexivity|].
  rewrite seq_S, map_app. simpl (map _ [_]). rewrite sum_snoc, IH.
  replace (S M * n) with (M * n + n) by lia.
  rewrite seq_app, List.filter_app, length_app. simpl "+". lia.
Qed.

(** X6. The mean of the sample means is the pooled mean: np.mean of
    make_throws(M, N) is the fraction of heads among all the M N flips
    drawn. *)
Theorem mean_of_sample_means_is_pooled_mean (flips : nat -> bool) (M N : Z)
    (g : nat) :
  (1 <= M)%Z -> (1 <= N)%Z ->
  exists means q,
    make_throws flips M N g = inr (means, g + Z.to_nat M * Z.to_nat N) /\
    mean_float means = Fin q /\
    (q == Z.of_nat (length (List.filter flips
                              (seq g (Z.to_nat M * Z.to_nat N))))
          # Z.to_pos (M * N))%Q.
Proof.
  intros HM HN.
  pose (heads := fun k : nat =>
    Z.of_nat (length (List.filter flips (seq (g + k * Z.to_nat N) (Z.to_nat N))))).
  assert (Hmeans :
    map (fun k => mean_int (segment flips (g + k * Z.to_nat N) (Z.to_nat N)))
      (seq 0 (Z.to_nat M))
    = map (fun h => Fin (h # Z.to_pos N)) (map heads (seq 0 (Z.to_nat M)))).
  { rewrite map_map. apply map_ext. intros k. unfold heads.
    rewrite mean_int_fraction.
    - rewrite sum_flips_heads, length_map, length_seq.
      replace (Pos.of_nat (Z.to_nat N)) with (Z.to_pos N) by lia.
      reflexivity.
    - intros Heq. apply (f_equal length) in Heq.
      rewrite length_map, length_seq in Heq.
      change (length (@nil Z)) with 0 in Heq. lia. }
  destruct (sum_float_fractions (map heads (seq 0 (Z.to_nat M))) (Z.to_pos N) 0)
    as (s & Hs & Heq).
  unfold heads in Heq at 1. rewrite heads_of_segments in Heq.
  set (H := Z.of_nat (length (List.filter flips
                                (seq g (Z.to_nat M * Z.to_nat N))))) in *.
  exists (map (fun h => Fin (h # Z.to_pos N)) (map heads (seq 0 (Z.to_nat M)))),
         (s / inject_Z M)%Q.
  split; [rewrite <- Hmeans; apply make_throws_closed_form; lia|].
  split.
  - unfold mean_float, sum_float. rewrite Hs, !length_map, length_seq.
    rewrite Z2Nat.id by lia.
    destruct M as [|p|p]; [lia|reflexivity|lia].
  - rewrite Heq.
    destruct M as [|p|p]; [lia| |lia].
    destruct N as [|n|n]; [lia| |lia].
    unfold Qeq, Qdiv, Qmult, Qinv, Qplus, inject_Z; simpl.
    rewrite ?Pos2Z.inj_mul. nia.
Qed.

Lemma mean_of_sample_means_is_pooled_mean_witness :
  exists means q,
    make_throws (fun k => Nat.even k) 2 3 0
    = inr (means, 0 + Z.to_nat 2 * Z.to_nat 3) /\
    mean_float means = Fin q /\
    (q == Z.of_nat (length (List.filter (fun k => Nat.even k)
                              (seq 0 (Z.to_nat 2 * Z.to_nat 3))))
          # Z.to_pos (2 * 3))%Q.
Proof. apply mean_of_sample_means_is_pooled_mean; lia. Defined.

(** One make_throws per sample size: 100 arrays of M means each, from
    49600 M flips. *)
Lemma sample_means_shape (flips : nat -> bool) (M : Z) (g : nat) :
  (0 <= M)%Z ->
  exists sm,
    comprehension sample_sizes (fun i => make_throws flips M i) g
    = inr (sm, g + Z.to_nat M * Z.to_nat 49600) /\
    length sm = length sample_sizes /\
    Forall (fun means => length means = Z.to_nat M) sm.
Proof.
  intros HM.
  destruct (comprehension_ok (fun i => make_throws flips M i)
              (fun i => Z.to_nat M * Z.to_nat i) sample_sizes) with (g := g)
    as (sm & Hrun & Hlen & Hent).
  { intros i g0 Hi. apply sample_sizes_bounds in Hi as [Hi _].
    eexists. apply make_throws_closed_form; lia. }
  exists sm. split.
  { rewrite Hrun, sum_list_scaled, sample_sizes_total; [reflexivity|].
    apply Forall_forall. intros i Hi.
    apply sample_sizes_bounds in Hi. lia. }
  split; [exact Hlen|].
  apply Forall_lookup. intros j means Hj.
  destruct (lookup_lt_is_Some_2 sample_sizes j) as (i & Hi).
  { rewrite <- Hlen. by eapply lookup_lt_Some. }
  destruct (Hent j i Hi) as (x & Hx & Hcall).
  assert (Hi' : (1 <= i <= 991)%Z).
  { apply sample_sizes_bounds. by eapply list_elem_of_lookup_2. }
  rewrite make_throws_closed_form in Hcall by lia.
  rewrite Hj in Hx. apply (inj Some) in Hx. subst x.
  apply (inj inr) in Hcall. apply (f_equal fst) in Hcall. simpl in Hcall.
  rewrite <- Hcall. by rewrite length_map, length_seq.
Qed.

(** Every array of sample means is non-empty, for one replication at
    least, and holds numbers in [0, 1]. *)
Lemma sample_means_entries (flips : nat -> bool) (M : Z) (g : nat) :
  (1 <= M)%Z ->
  exists sm g',
    comprehension sample_sizes (fun i => make_throws flips M i) g
    = inr (sm, g') /\
    length sm = length sample_sizes /\
    Forall (fun means => means <> [] /\ Forall Textbook.in_unit_interval means)
      sm.
Proof.
  intros HM.
  destruct (sample_means_shape flips M g) as (sm & Hrun & Hlen & Hshape); [lia|].
  destruct (sample_means_general flips M g) as (sm' & g' & Hrun' & _ & Hent);
    [lia|].
  rewrite Hrun in Hrun'. apply (inj inr) in Hrun'.
  apply (f_equal fst) in Hrun'. simpl in Hrun'. subst sm'.
  eexists sm, _. split; [exact Hrun|]. split; [exact Hlen|].
  apply Forall_lookup. intros j means Hj. split.
  - pose proof (proj1 (Forall_lookup _ _) Hshape j means Hj) as Hl.
    simpl in Hl. intros ->. change (length (@nil (float64 Q))) with 0 in Hl. lia.
  - destruct (lookup_lt_is_Some_2 sample_sizes j) as (i & Hi).
    { rewrite <- Hlen. by eapply lookup_lt_Some. }
    destruct (Hent j i Hi) as (means' & gj & Hj' & Hcall).
    rewrite Hj in Hj'. apply (inj Some) in Hj'. subst means'.
    eapply make_throws_unit_interval; [|exact Hcall].
    apply sample_sizes_bounds. by eapply list_elem_of_lookup_2.
Qed.

(** X7. The two families of sample means: 100 arrays, one per sample size,
    of 200 (of 1000) means each, so that the scatter cells pair 200 (1000)
    abscissae with 200 (1000) means, and 100 means of sample means, as the
    cell with len(mean_of_sample_means) displays; the cells draw 200 * 49600
    and 1000 * 49600 flips. *)
Theorem sample_means_shapes (flips : nat -> bool) (g : nat) :
  (exists sm,
     sample_means flips g = inr (sm, g + Z.to_nat 200 * Z.to_nat 49600) /\
     length sm = 100 /\
     length (mean_of_sample_means sm) = 100 /\
     Forall (fun means => length means = Z.to_nat 200) sm) /\
  (exists sm,
     sample_means_1000_replicates flips g
     = inr (sm, g + Z.to_nat 1000 * Z.to_nat 49600) /\
     length sm = 100 /\
     length (mean_of_sample_means sm) = 100 /\
     Forall (fun means => length means = Z.to_nat 1000) sm).
Proof.
  assert (H100 : length sample_sizes = 100)
    by (rewrite sample_sizes_values; by rewrite length_map, length_seq).
  split.
  - destruct (sample_means_shape flips 200 g) as (sm & Hrun & Hlen & Hshape);
      [lia|].
    rewrite H100 in Hlen. exists sm. split; [exact Hrun|].
    split; [exact Hlen|]. split; [|exact Hshape].
    unfold mean_of_sample_means. by rewrite length_map.
  - destruct (sample_means_shape flips 1000 g) as (sm & Hrun & Hlen & Hshape);
      [lia|].
    rewrite H100 in Hlen. exists sm. split; [exact Hrun|].
    split; [exact Hlen|]. split; [|exact Hshape].
    unfold mean_of_sample_means. by rewrite length_map.
Qed.

End CoinFacts.

Module SpreadFacts.
Import Numpy Gaussians Spread NumpyFacts GaussiansFacts CoinFacts.

Local Open Scope R_scope.

(** The finite values of an array of numbers in [0, 1]. *)
Lemma finite_values_unit_interval (a : list (float64 Q)) :
  Forall Textbook.in_unit_interval a ->
  exists y,
    finite_values a = Some y /\ length y = length a /\
    Forall (fun v => 0 <= v <= 1) y.
Proof.
  induction 1 as [|x a Hx Ha IH].
  - exists []. by split_and!.
  - destruct IH as (y & Hy & Hlen & Hb).
    destruct x as [q| | |]; try contradiction.
    destruct Hx as [H0 H1].
    exists (Q2R q :: y). unfold finite_values in *. split_and!.
    + cbn. rewrite Hy. reflexivity.
    + simpl. by rewrite Hlen.
    + constructor; [|exact Hb].
      apply Qreals.Qle_Rle in H0, H1. rewrite RMicromega.Q2R_0 in H0.
      rewrite RMicromega.Q2R_1 in H1. lra.
Qed.

Lemma sum_sq_dev (y : list R) (c : R) :
  foldr Rplus 0 (map (fun v => (v - c) * (v - c)) y)
  = foldr Rplus 0 (map (fun v => v * v) y)
    - 2 * c * foldr Rplus 0 y + INR (length y) * c * c.
Proof.
  induction y as [|v y IH].
  - simpl. ring.
  - change (length (v :: y)) with (S (length y)). rewrite S_INR.
    simpl foldr. simpl map. simpl foldr. rewrite IH. ring.
Qed.

Lemma sum_sq_le_sum (y : list R) :
  Forall (fun v => 0 <= v <= 1) y ->
  0 <= foldr Rplus 0 (map (fun v => v * v) y) <= foldr Rplus 0 y
  /\ foldr Rplus 0 y <= INR (length y).
Proof.
  induction 1 as [|v y Hv Hy IH].
  - simpl. lra.
  - change (length (v :: y)) with (S (length y)). rewrite S_INR.
    simpl. nra.
Qed.

Lemma sum_sq_dev_nonneg (y : list R) (c : R) :
  0 <= foldr Rplus 0 (map (fun v => (v - c) * (v - c)) y).
Proof.
  induction y as [|v y IH]; simpl; [lra|].
  pose proof (Rle_0_sqr (v - c)) as Hsq. unfold Rsqr in Hsq. lra.
Qed.

(** The variance of numbers in [0, 1] is at most 1/4. *)
Lemma var_unit_interval (y : list R) :
  y <> [] -> Forall (fun v => 0 <= v <= 1) y ->
  exists v, var y = Fin v /\ 0 <= v <= 1 / 4.
Proof.
  intros Hne Hy. unfold var. destruct y as [|v0 y0]; [done|].
  set (y := v0 :: y0) in *.
  eexists. split; [reflexivity|].
  rewrite !sum_R_foldr. rewrite sum_sq_dev.
  destruct (sum_sq_le_sum y Hy) as [[Hq0 Hq] HS].
  assert (Hn : 0 < INR (length y)) by (apply lt_0_INR; simpl; lia).
  set (n := INR (length y)) in *.
  set (S := foldr Rplus 0 y) in *.
  set (Q2 := foldr Rplus 0 (map (fun v => v * v) y)) in *.
  assert (HS0 : 0 <= S) by lra.
  assert (Heq : (Q2 - 2 * (S / n) * S + n * (S / n) * (S / n)) / n
                = (Q2 - S * S / n) / n) by (field; lra).
  rewrite Heq.
  assert (Hdev : 0 <= Q2 - 2 * (S / n) * S + n * (S / n) * (S / n)).
  { unfold Q2, S, n. rewrite <- sum_sq_dev. apply sum_sq_dev_nonneg. }
  assert (Hdev' : 0 <= Q2 - S * S / n).
  { replace (Q2 - S * S / n)
      with (Q2 - 2 * (S / n) * S + n * (S / n) * (S / n)) by (field; lra).
    exact Hdev. }
  split.
  - apply Rmult_le_reg_r with n; [exact Hn|].
    unfold Rdiv at 1. rewrite Rmult_assoc, Rinv_l by lra. lra.
  - apply Rmult_le_reg_r with n; [exact Hn|].
    unfold Rdiv at 1. rewrite Rmult_assoc, Rinv_l by lra.
    apply Rmult_le_reg_r with n; [exact Hn|].
    replace ((Q2 - S * S / n) * 1 * n) with (Q2 * n - S * S) by (field; lra).
    clearbody Q2 S n.
    assert (H1 : Q2 * n <= S * n) by (apply Rmult_le_compat_r; lra).
    pose proof (Rle_0_sqr (n / 2 - S)) as H2. unfold Rsqr in H2.
    lra.
Qed.

(** np.std of numbers in [0, 1] lies in [0, 1/2]. *)
Lemma std_unit_interval (a : list (float64 Q)) :
  a <> [] -> Forall Textbook.in_unit_interval a ->
  exists s, std a = Fin s /\ 0 <= s <= 1 / 2.
Proof.
  intros Hne Ha.
  destruct (finite_values_unit_interval a Ha) as (y & Hy & Hlen & Hb).
  destruct (var_unit_interval y) as (v & Hv & Hv0 & Hv1); [|exact Hb|].
  { intros ->. destruct a; [done|discriminate]. }
  unfold std. rewrite Hy, Hv. unfold sqrt_float.
  destruct (Rlt_dec v 0) as [?|_]; [lra|].
  eexists. split; [reflexivity|]. split; [apply sqrt_pos|].
  replace (1 / 2) with (sqrt (1 / 4)).
  - apply sqrt_le_1; lra.
  - replace (1 / 4) with ((1 / 2) * (1 / 2)) by lra.
    apply sqrt_square. lra.
Qed.

Lemma Forall_Fin (P : R -> Prop) (l : list (float64 R)) :
  Forall (fun x => exists s, x = Fin s /\ P s) l ->
  exists ss, l = map Fin ss /\ Forall P ss.
Proof.
  induction 1 as [|x l (s & -> & Hs) _ (ss & -> & Hss)].
  - by exists [].
  - exists (s :: ss). split; [reflexivity|by constructor].
Qed.

(** The spreads of the sample means: one per sample size, each a number
    between 0 and 1/2. *)
Lemma std_of_sample_means_1000_bounds (flips : nat -> bool) (g : nat) :
  exists sm g',
    sample_means_1000_replicates flips g = inr (sm, g') /\
    length (std_of_sample_means_1000 sm) = length sample_sizes /\
    Forall (fun x => exists s, x = Fin s /\ 0 <= s <= 1 / 2)
      (std_of_sample_means_1000 sm).
Proof.
  destruct (sample_means_entries flips 1000 g) as (sm & g' & Hrun & Hlen & Hent);
    [lia|].
  exists sm, g'. split; [exact Hrun|].
  unfold std_of_sample_means_1000. split; [by rewrite length_map|].
  apply Forall_fmap. eapply Forall_impl; [exact Hent|].
  intros means [Hne Hin]. by apply std_unit_interval.
Qed.

(** X8. The spread of the 1000 sample means of every sample size is a number
    between 0 and 1/2; so its logarithm, the ordinate of the log-log plot,
    is minus infinity or a negative number, at most log10(1/2). *)
Theorem spread_of_sample_means_bounded (flips : nat -> bool) (g : nat) :
  exists sm g',
    sample_means_1000_replicates flips g = inr (sm, g') /\
    length (std_of_sample_means_1000 sm) = length sample_sizes /\
    Forall (fun x => exists s, x = Fin s /\ 0 <= s <= 1 / 2)
      (std_of_sample_means_1000 sm) /\
    Forall (fun x => log10 x = NInf \/
                     exists l, log10 x = Fin l /\ l <= ln (1 / 2) / ln 10 < 0)
      (std_of_sample_means_1000 sm).
Proof.
  destruct (std_of_sample_means_1000_bounds flips g)
    as (sm & g' & Hrun & Hlen & Hstd).
  exists sm, g'. split; [exact Hrun|]. split; [exact Hlen|].
  split; [exact Hstd|].
  eapply Forall_impl; [exact Hstd|].
  intros x (s & -> & Hs0 & Hs1). unfold log10.
  destruct (Req_dec_T s 0) as [?|Hne]; [by left|right].
  destruct (Rlt_dec s 0); [lra|].
  eexists. split; [reflexivity|].
  assert (Hln10 : 0 < ln 10) by (rewrite <- ln_1; apply ln_increasing; lra).
  assert (Hhalf : ln (1 / 2) < 0) by (rewrite <- ln_1; apply ln_increasing; lra).
  assert (Hle : ln s <= ln (1 / 2)).
  { destruct (Req_dec s (1 / 2)) as [->|?]; [lra|].
    apply Rlt_le, ln_increasing; lra. }
  split.
  - apply Rmult_le_compat_r; [|exact Hle].
    apply Rlt_le. by apply Rinv_0_lt_compat.
  - assert (Hinv : 0 < / ln 10) by (by apply Rinv_0_lt_compat).
    unfold Rdiv. nra.
Qed.

(** *** The slope cell *)

Lemma zip_with_subtract_Fin (t l : list R) :
  zip_with subtract (map Fin t) (map Fin l) = map Fin (zip_with Rminus t l).
Proof.
  revert l. induction t as [|x t IH]; intros [|y l]; simpl; try reflexivity.
  by rewrite IH.
Qed.

Lemma diff_Fin (l : list R) :
  diff (map Fin l) = map Fin (zip_with Rminus (tail l) l).
Proof.
  unfold diff. rewrite <- zip_with_subtract_Fin. f_equal.
  by destruct l.
Qed.

Lemma zip_with_divide_Fin (A B : list R) :
  Forall (fun v => v <> 0) B ->
  zip_with true_divide (map Fin A) (map Fin B) = map Fin (zip_with Rdiv A B).
Proof.
  intros HB. revert A. induction HB as [|y B Hy _ IH]; intros [|x A];
    simpl; try reflexivity.
  rewrite IH. destruct (Req_dec_T y 0); [contradiction|reflexivity].
Qed.

Lemma sum_Fin (C : list R) (acc : R) :
  foldl add (Fin acc) (map Fin C) = Fin (acc + foldr Rplus 0 C).
Proof.
  revert acc. induction C as [|x C IH]; intros acc; simpl.
  - f_equal. lra.
  - rewrite IH. f_equal. lra.
Qed.

Lemma mean_Fin (C : list R) :
  C <> [] -> mean (map Fin C) = Fin (foldr Rplus 0 C / INR (length C)).
Proof.
  intros Hne. unfold mean. rewrite sum_Fin, length_map. simpl.
  destruct (Req_dec_T (INR (length C)) 0) as [H0|_].
  - exfalso. apply (not_0_INR (length C)); [by destruct C|exact H0].
  - f_equal. lra.
Qed.

Lemma log10_positive (l : list R) :
  Forall (fun v => 0 < v) l ->
  map log10 (map Fin l) = map Fin (map (fun v => ln v / ln 10) l).
Proof.
  induction 1 as [|v l Hv _ IH]; [reflexivity|].
  simpl. rewrite IH.
  destruct (Req_dec_T v 0); [lra|]. destruct (Rlt_dec v 0); [lra|reflexivity].
Qed.

(** The logarithm of the k-th sample size. *)
Local Abbreviation log_size k := (ln (IZR (1 + 10 * Z.of_nat k)) / ln 10).

Lemma log_sizes_values :
  map (fun n : Z => log10 (Fin (IZR n))) sample_sizes
  = map Fin (map (fun k : nat => log_size k) (seq 0 100)).
Proof.
  rewrite sample_sizes_values, !map_map. apply map_ext. intros k. simpl.
  assert (0 < IZR (1 + 10 * Z.of_nat k)) by (apply IZR_lt; lia).
  destruct (Req_dec_T _ 0); [lra|]. destruct (Rlt_dec _ 0); [lra|reflexivity].
Qed.

Lemma zip_with_tail_seq (F : nat -> R) (a n : nat) :
  zip_with Rminus (tail (map F (seq a (S n)))) (map F (seq a (S n)))
  = map (fun k => F (S k) - F k) (seq a n).
Proof.
  revert a. induction n as [|n IH]; intros a; [reflexivity|].
  specialize (IH (S a)). simpl in IH |- *. by rewrite IH.
Qed.

Lemma log_size_increasing (k : nat) : 0 < log_size (S k) - log_size k.
Proof.
  assert (Hln10 : 0 < ln 10) by (rewrite <- ln_1; apply ln_increasing; lra).
  assert (Hlt : ln (IZR (1 + 10 * Z.of_nat k))
                < ln (IZR (1 + 10 * Z.of_nat (S k)))).
  { apply ln_increasing; [apply IZR_lt; lia|apply IZR_lt; lia]. }
  unfold Rdiv. rewrite <- Rmult_minus_distr_r.
  apply Rmult_lt_0_compat; [lra|by apply Rinv_0_lt_compat].
Qed.

(** The denominators of the slope cell: the differences of the logarithms
    of successive sample sizes, all positive. *)
Lemma diff_log_sizes :
  diff (map (fun n : Z => log10 (Fin (IZR n))) sample_sizes)
  = map Fin (map (fun k => log_size (S k) - log_size k) (seq 0 99)).
Proof.
  rewrite log_sizes_values, diff_Fin.
  by rewrite (zip_with_tail_seq (fun k : nat => log_size k) 0 99).
Qed.

Lemma diff_log_sizes_nonzero :
  Forall (fun v => v <> 0)
    (map (fun k : nat => log_size (S k) - log_size k) (seq 0 99)).
Proof.
  apply Forall_fmap, Forall_forall. intros k _. simpl.
  pose proof (log_size_increasing k). lra.
Qed.

Lemma length_diff (l : list (float64 R)) :
  length (diff l) = (length l - 1)%nat.
Proof. unfold diff. rewrite length_zip_with, length_tl. lia. Qed.

(** With one spread per sample size the slope cell does not raise. *)
Lemma slope_runs (stds : list (float64 R)) :
  length stds = 100%nat ->
  slope stds
  = inr (mean (zip_with true_divide (diff (map log10 stds))
                 (map Fin (map (fun k : nat => log_size (S k) - log_size k)
                             (seq 0 99))))).
Proof.
  intros Hlen. unfold slope. rewrite diff_log_sizes. unfold divide.
  rewrite decide_True; [reflexivity|].
  rewrite length_diff, !length_map, length_seq, Hlen. reflexivity.
Qed.

(** Its value when every spread is positive. *)
Lemma slope_positive (ss : list R) :
  length ss = 100%nat -> Forall (fun s => 0 < s) ss ->
  exists v, slope (map Fin ss) = inr (Fin v).
Proof.
  intros Hlen Hpos.
  rewrite slope_runs by (by rewrite length_map).
  rewrite log10_positive, diff_Fin by exact Hpos.
  rewrite zip_with_divide_Fin by apply diff_log_sizes_nonzero.
  rewrite mean_Fin; [by eexists|].
  intros Heq. apply (f_equal length) in Heq.
  rewrite length_zip_with, length_zip_with, length_tl, !length_map,
    length_seq, Hlen in Heq.
  discriminate.
Qed.

Lemma add_not_finite (x y : float64 R) :
  is_finite x = false \/ is_finite y = false -> is_finite (add x y) = false.
Proof. by destruct x, y; intros [?|?]. Qed.

Lemma sum_not_finite (l : list (float64 R)) (acc : float64 R) :
  is_finite acc = false \/ (exists x, x ∈ l /\ is_finite x = false) ->
  is_finite (foldl add acc l) = false.
Proof.
  revert acc. induction l as [|y l IH]; intros acc [Hacc|(x & Hx & Hnf)].
  - exact Hacc.
  - by apply elem_of_nil in Hx.
  - simpl. apply IH. left. apply add_not_finite. by left.
  - simpl. apply elem_of_cons in Hx as [->|Hx].
    + apply IH. left. apply add_not_finite. by right.
    + apply IH. right. eauto.
Qed.

Lemma true_divide_not_finite (x : float64 R) (v : R) :
  is_finite x = false -> is_finite (true_divide x (Fin v)) = false.
Proof.
  destruct x; try done; intros _; simpl; by destruct (Rlt_dec v 0).
Qed.

Lemma subtract_minus_infinity (x y : float64 R) :
  x = NInf \/ y = NInf -> is_finite (subtract x y) = false.
Proof. by destruct x, y; intros [?|?]. Qed.

(** Its value when one of the spreads is 0: the logarithm is minus
    infinity, and neither the two differences it enters nor the mean of the
    ratios are finite. *)
Lemma slope_zero_spread (stds : list (float64 R)) :
  length stds = 100%nat -> Fin 0 ∈ stds ->
  exists v, slope stds = inr v /\ is_finite v = false.
Proof.
  intros Hlen Hz. rewrite slope_runs by exact Hlen.
  eexists. split; [reflexivity|].
  apply list_elem_of_lookup in Hz as (k & Hk).
  assert (Hklt : (k < 100)%nat) by (rewrite <- Hlen; by eapply lookup_lt_Some).
  assert (Hlog : map log10 stds !! k = Some NInf).
  { rewrite list_lookup_fmap, Hk. simpl.
    destruct (Req_dec_T 0 0); [reflexivity|lra]. }
  set (LS := map log10 stds) in *.
  assert (HLS : length LS = 100%nat) by (unfold LS; by rewrite length_map).
  set (j := if decide (k < 99)%nat then k else 98%nat).
  assert (Hj : (j < 99)%nat) by (unfold j; destruct (decide (k < 99)%nat); lia).
  destruct (lookup_lt_is_Some_2 LS j) as (y & Hy); [lia|].
  destruct (lookup_lt_is_Some_2 LS (S j)) as (x & Hx); [lia|].
  assert (Hinf : x = NInf \/ y = NInf).
  { unfold j in Hx, Hy. destruct (decide (k < 99)%nat) as [Hlt|Hge].
    - right. rewrite Hlog in Hy. by apply (inj Some) in Hy.
    - left. replace k with 99%nat in Hlog by lia.
      rewrite Hlog in Hx. by apply (inj Some) in Hx. }
  unfold mean. apply true_divide_not_finite, sum_not_finite. right.
  exists (true_divide (subtract x y) (Fin (log_size (S j) - log_size j))).
  split; [|apply true_divide_not_finite, subtract_minus_infinity, Hinf].
  apply (elem_of_lookup_zip_with_2 _ _ _ _ _ NaN j).
  - unfold diff. rewrite lookup_zip_with, lookup_tail, Hx, Hy. reflexivity.
  - rewrite !list_lookup_fmap, lookup_seq_lt by lia. reflexivity.
Qed.

Lemma slope_finite_iff (ss : list R) :
  length ss = 100%nat -> Forall (fun s => 0 <= s) ss ->
  exists v,
    slope (map Fin ss) = inr v /\
    (is_finite v = true <-> Fin 0 ∉ map Fin ss).
Proof.
  intros Hl Hb.
  destruct (List.Forall_Exists_dec (fun s => 0 < s) (fun s => Rlt_dec 0 s) ss)
    as [Hpos|Hex].
  - destruct (slope_positive ss Hl Hpos) as (v & Hv).
    exists (Fin v). split; [exact Hv|].
    split; [|reflexivity]. intros _ Hin.
    apply list_elem_of_fmap in Hin as (s & Hs & Hin).
    injection Hs as <-.
    pose proof (proj1 (Forall_forall _ _) Hpos 0 Hin) as H0.
    cbv beta in H0. lra.
  - assert (Hz : Fin 0 ∈ map Fin ss).
    { apply List.Exists_exists in Hex as (s & Hin & Hs).
      apply list_elem_of_In in Hin.
      pose proof (proj1 (Forall_forall _ _) Hb s Hin) as Hs'.
      cbv beta in Hs'.
      assert (Hs0 : s = 0) by lra. rewrite <- Hs0.
      by apply list_elem_of_fmap_2. }
    destruct (slope_zero_spread (map Fin ss)) as (v & Hv & Hnf);
      [by rewrite length_map|exact Hz|].
    exists v. split; [exact Hv|].
    split.
    + intros Hfin. rewrite Hfin in Hnf. discriminate.
    + intros Hnot. by destruct Hnot.
Qed.

(** X9. The slope cell after the cell of the spreads: it does not raise, and its
    value is a finite number exactly when no sample size has the spread 0,
    that is, when for no sample size all 1000 sample means are equal. *)
Theorem slope_finite_iff_spread_positive (flips : nat -> bool) (g : nat) :
  exists sm g' v,
    sample_means_1000_replicates flips g = inr (sm, g') /\
    slope (std_of_sample_means_1000 sm) = inr v /\
    (is_finite v = true <-> Fin 0 ∉ std_of_sample_means_1000 sm).
Proof.
  destruct (std_of_sample_means_1000_bounds flips g)
    as (sm & g' & Hrun & Hlen & Hstd).
  destruct (Forall_Fin _ _ Hstd) as (ss & Hss & Hb).
  destruct (slope_finite_iff ss) as (v & Hv & Hiff).
  { rewrite Hss, length_map in Hlen. rewrite Hlen.
    rewrite sample_sizes_values. by rewrite length_map, length_seq. }
  { eapply Forall_impl; [exact Hb|]. intros s Hs. cbv beta in Hs. lra. }
  exists sm, g', v. rewrite Hss.
  split; [exact Hrun|]. split; [exact Hv|exact Hiff].
Qed.

Lemma sum_const (p : R) (l : list nat) :
  foldr Rplus 0 (map (fun _ => p) l) = INR (length l) * p.
Proof.
  induction l as [|k l IH]; [simpl; lra|].
  change (length (k :: l)) with (S (length l)). rewrite S_INR.
  simpl. rewrite IH. lra.
Qed.

(** X10. The slope cell recovers the exponent of a power law: if the spread at
    every sample size n is c n^p, for a constant c > 0, its value is p (in
    exact arithmetic). *)
Theorem slope_of_power_law (c p : R) :
  0 < c ->
  slope (map (fun n : Z => Fin (c * Rpower (IZR n) p)) sample_sizes)
  = inr (Fin p).
Proof.
  intros Hc.
  set (F := fun k : nat => ln c / ln 10 + p * log_size k).
  assert (Hln10 : 0 < ln 10) by (rewrite <- ln_1; apply ln_increasing; lra).
  assert (Hstds :
    map (fun n : Z => Fin (c * Rpower (IZR n) p)) sample_sizes
    = map Fin (map (fun k : nat => c * Rpower (IZR (1 + 10 * Z.of_nat k)) p)
                 (seq 0 100))).
  { rewrite sample_sizes_values, !map_map. reflexivity. }
  rewrite Hstds.
  rewrite slope_runs by (by rewrite !length_map, length_seq).
  rewrite log10_positive.
  2: { apply Forall_fmap, Forall_forall. intros k _. simpl.
       apply Rmult_lt_0_compat; [exact Hc|apply exp_pos]. }
  assert (Hlogs :
    map (fun v => ln v / ln 10)
      (map (fun k : nat => c * Rpower (IZR (1 + 10 * Z.of_nat k)) p)
         (seq 0 100))
    = map F (seq 0 100)).
  { rewrite map_map. apply map_ext. intros k. unfold F.
    rewrite ln_mult by (try exact Hc; apply exp_pos).
    unfold Rpower. rewrite ln_exp. field. lra. }
  rewrite Hlogs, diff_Fin.
  rewrite (zip_with_tail_seq F 0 99).
  rewrite zip_with_divide_Fin by apply diff_log_sizes_nonzero.
  rewrite zip_with_fmap_l, zip_with_fmap_r, zip_with_diag.
  assert (Hratios :
    map (fun k : nat => (F (S k) - F k) / (log_size (S k) - log_size k))
      (seq 0 99)
    = map (fun _ => p) (seq 0 99)).
  { apply map_ext. intros k.
    pose proof (log_size_increasing k) as Hd.
    set (d := log_size (S k) - log_size k) in *.
    replace (F (S k) - F k) with (p * d) by (unfold F, d, Rdiv; ring).
    unfold Rdiv. rewrite Rmult_assoc, Rinv_r by lra. lra. }
  change ((fun x : nat => (F (S x) - F x) / (log_size (S x) - log_size x))
            <$> seq 0 99)
    with (map (fun k : nat => (F (S k) - F k) / (log_size (S k) - log_size k))
            (seq 0 99)).
  rewrite Hratios.
  rewrite mean_Fin by (intros Heq; apply (f_equal length) in Heq;
                       rewrite length_map, length_seq in Heq; discriminate).
  rewrite sum_const, length_map, length_seq.
  do 2 f_equal. field. apply not_0_INR. discriminate.
Qed.

Lemma slope_of_power_law_witness :
  slope (map (fun n : Z => Fin (1 / 2 * Rpower (IZR n) (- (1 / 2))))
           sample_sizes)
  = inr (Fin (- (1 / 2))).
Proof. apply slope_of_power_law. lra. Defined.

End SpreadFacts.

Module MonteCarloFacts.
Import Numpy Gaussians NumpyFacts GaussiansFacts.

Local Open Scope R_scope.

Lemma PI_gt_3 : 3 < PI.
Proof. pose proof PI2_3_2. lra. Qed.

(** On the interval of integration the integrand lies between 4 and 21. *)
Lemma f_bounds (x : R) : 2 <= x <= 3 -> 4 < f x <= 21.
Proof.
  intros Hx. unfold f.
  assert (Hs : 0 < sin x) by (apply sin_gt_0; pose proof PI_gt_3; lra).
  assert (Hs1 : sin x <= 1) by apply SIN_bound.
  split; nra.
Qed.

Lemma f_continuity : continuity f.
Proof. unfold f. reg. Qed.

Lemma f_integrable : Riemann_integrable f (IZR a) (IZR b).
Proof.
  apply continuity_implies_RiemannInt.
  - unfold a, b. lra.
  - intros x _. apply f_continuity.
Qed.

Lemma intf_derivable : derivable intf.
Proof. intros x. exists (f x). apply intf_derivative. Qed.

Lemma intf_derive (x : R) : derive intf intf_derivable x = f x.
Proof. unfold derive. apply derive_pt_eq_0, intf_derivative. Qed.

Lemma intf_derive_continuity : continuity (derive intf intf_derivable).
Proof.
  intros x. pose proof (f_continuity x) as Hc.
  unfold continuity_pt, continue_in, limit1_in, limit_in in *.
  intros eps Heps. destruct (Hc eps Heps) as (d & Hd & H).
  exists d. split; [exact Hd|].
  intros y Hy. rewrite !intf_derive. apply H, Hy.
Qed.

(** X11. exactval is the integral of f from a to b. *)
Theorem exactval_is_the_integral :
  inhabited (Riemann_integrable f (IZR a) (IZR b)) /\
  forall pr : Riemann_integrable f (IZR a) (IZR b), RiemannInt pr = exactval.
Proof.
  split; [exact (inhabits f_integrable)|]. intros pr.
  pose (F := mkC1 intf_derive_continuity).
  assert (pr' : Riemann_integrable (derive F (diff0 F)) (IZR a) (IZR b)).
  { apply continuity_implies_RiemannInt.
    - unfold a, b. lra.
    - intros x _. apply (cont1 F). }
  transitivity (RiemannInt pr').
  - apply RiemannInt_P18.
    + unfold a, b. lra.
    + intros x _. symmetry. apply intf_derive.
  - rewrite (FTC_Riemann F). reflexivity.
Qed.

(** The exact value lies between the bounds of the integrand. *)
Lemma exactval_bounds : 4 < exactval <= 21.
Proof.
  destruct (MVT_cor2 intf f 2 3) as (c & Hc & Hin); [lra| |].
  { intros x _. apply intf_derivative. }
  unfold exactval, a, b. rewrite Hc.
  pose proof (f_bounds c). lra.
Qed.

(** np.random.uniform stays in [low, high) when the generator's draws are
    in [0, 1). *)
Lemma random_uniform_range (unit_draws : nat -> R) (N : Z) (g g' : nat)
    (X : list R) :
  (forall k, 0 <= unit_draws k < 1) ->
  random_uniform unit_draws a b N g = inr (X, g') ->
  Forall (fun x => IZR a <= x < IZR b) X.
Proof.
  intros Hu Hrun. unfold random_uniform, draw in Hrun.
  destruct (N <? 0)%Z; [discriminate|].
  apply (inj inr) in Hrun. apply (f_equal fst) in Hrun. simpl in Hrun.
  subst X. apply Forall_forall. intros x Hx.
  apply list_elem_of_fmap in Hx as (k & -> & _).
  pose proof (Hu k). unfold a, b. lra.
Qed.

Lemma sum_bounds (ys : list R) (lo hi : R) :
  Forall (fun y => lo < y <= hi) ys ->
  ys <> [] ->
  INR (length ys) * lo < foldr Rplus 0 ys <= INR (length ys) * hi.
Proof.
  induction 1 as [|y ys Hy Hys IH]; [done|]. intros _.
  change (length (y :: ys)) with (S (length ys)). rewrite S_INR.
  simpl foldr.
  destruct ys as [|y' ys'].
  - simpl. lra.
  - specialize (IH ltac:(done)). lra.
Qed.

(** An estimate from N >= 1 draws in [a, b) lies between the bounds of the
    integrand, and within 17 of the exact value. *)
Lemma estimate_value_bounds (X : list R) (N : Z) :
  (1 <= N)%Z -> length X = Z.to_nat N ->
  Forall (fun x => IZR a <= x < IZR b) X ->
  exists v,
    true_divide_R (IZR (b - a) * sum_R (map f X)) N = Fin v /\
    4 < v <= 21 /\
    abs_error exactval (Fin v) = Fin (Rabs (v - exactval)) /\
    Rabs (v - exactval) < 17.
Proof.
  intros HN HX Hin.
  rewrite estimate_value_average by assumption.
  eexists. split; [reflexivity|].
  assert (Hv : 4 < (IZR b - IZR a) * Textbook.average (map f X) <= 21).
  { unfold Textbook.average.
    assert (Hne : map f X <> []).
    { intros Heq. apply (f_equal length) in Heq.
      rewrite length_map, HX in Heq.
      change (length (@nil R)) with 0%nat in Heq. lia. }
    assert (Hys : Forall (fun y => 4 < y <= 21) (map f X)).
    { apply Forall_fmap. eapply Forall_impl; [exact Hin|].
      intros x Hx. apply f_bounds. unfold a, b in Hx. lra. }
    pose proof (sum_bounds _ _ _ Hys Hne) as Hsum.
    assert (Hn : 0 < INR (length (map f X))).
    { apply lt_0_INR. rewrite length_map, HX. lia. }
    set (n := INR (length (map f X))) in *.
    set (s := foldr Rplus 0 (map f X)) in *.
    unfold a, b. replace ((3 - 2) * (s / n)) with (s / n) by lra.
    split.
    - apply Rmult_lt_reg_r with n; [exact Hn|].
      unfold Rdiv. rewrite Rmult_assoc, Rinv_l by lra. lra.
    - apply Rmult_le_reg_r with n; [exact Hn|].
      unfold Rdiv. rewrite Rmult_assoc, Rinv_l by lra. lra. }
  split; [exact Hv|].
  pose proof exactval_bounds as He.
  split.
  - unfold abs_error. f_equal.
    rewrite <- Rsqr_pow2. apply sqrt_Rsqr_abs.
  - apply Rabs_def1; lra.
Qed.

(** X12. With draws in [0, 1), every estimate of the two Monte Carlo cells lies
    between 4 and 21, the bounds of f on [2, 3], and its plotted error is
    below 17. *)
Theorem monte_carlo_estimates_bounded (unit_draws : nat -> R) (g : nat) :
  (forall k, 0 <= unit_draws k < 1) ->
  (exists Imc plot g',
     scaling_cell unit_draws g = inr ((Imc, plot), g') /\
     forall N : Z, (1 <= N <= 999)%Z ->
       exists v,
         getitem Imc N = inr (Fin v) /\ 4 < v <= 21 /\
         abs_error exactval (Fin v) = Fin (Rabs (v - exactval)) /\
         Rabs (v - exactval) < 17) /\
  (exists Imc g',
     repeated_cell unit_draws g = inr (Imc, g') /\
     forall i : Z, (0 <= i <= 999)%Z ->
       exists v,
         getitem Imc i = inr (Fin v) /\ 4 < v <= 21 /\
         Rabs (v - exactval) < 17).
Proof.
  intros Hu. split.
  - destruct (scaling_cell_run unit_draws g)
      as (Imc & Na & g' & Hrun & _ & _ & Hlen & Hent).
    exists Imc, (error_plot Na Imc exactval), g'. split; [exact Hrun|].
    intros N HN.
    destruct (Hent (Z.to_nat N) ltac:(lia)) as (gN & X & HX & HXlen & Hv).
    rewrite Z2Nat.id in HX, Hv by lia.
    destruct (estimate_value_bounds X N) as (v & Hval & Hb & Herr & Hlt);
      [lia|exact HXlen|exact (random_uniform_range _ _ _ _ _ Hu HX)|].
    exists v. split; [|split; [exact Hb|split; [exact Herr|exact Hlt]]].
    apply getitem_in_range; [lia|]. by rewrite Hv, Hval.
  - destruct (repeated_cell_run unit_draws g)
      as (Imc & g' & Hrun & Hlen & Hent).
    exists Imc, g'. split; [exact Hrun|].
    intros i Hi.
    destruct (Hent (Z.to_nat i) ltac:(lia)) as (gi & X & HX & HXlen & Hv).
    destruct (estimate_value_bounds X 10000) as (v & Hval & Hb & _ & Hlt);
      [lia|exact HXlen|exact (random_uniform_range _ _ _ _ _ Hu HX)|].
    exists v. split; [|split; [exact Hb|exact Hlt]].
    apply getitem_in_range; [lia|]. by rewrite Hv, Hval.
Qed.

Lemma monte_carlo_estimates_bounded_witness :
  exists (Imc : list (float64 R)) (v : R),
    getitem Imc 5 = inr (Fin v) /\ 4 < v <= 21.
Proof.
  destruct (monte_carlo_estimates_bounded (fun _ => 1 / 2) 0)
    as [(Imc & plot & g' & _ & H) _]; [intros _; lra|].
  destruct (H 5%Z ltac:(lia)) as (v & Hget & Hb & _).
  exists Imc, v. split; [exact Hget|exact Hb].
Defined.

Local Close Scope R_scope.

(** The loops of the two Monte Carlo cells, with the cursor of the
    generator: iteration k starts where the iterations before it stopped,
    and the loop advances the cursor by the sum of the sample sizes. *)
Lemma monte_carlo_loop_cursor (unit_draws : nat -> R) (size : Z -> Z)
    (body : list (float64 R) -> Z -> sampler (list (float64 R))) :
  (forall Imc i g,
     body Imc i g = (v ← estimate unit_draws (size i); lift (setitem Imc i v)) g) ->
  forall (m a0 : nat) (Imc : list (float64 R)) (g : nat),
  a0 + m <= length Imc ->
  (forall k, a0 <= k < a0 + m -> (0 <= size (Z.of_nat k))%Z) ->
  exists Imc',
    for_in (map Z.of_nat (seq a0 m)) body Imc g
    = inr (Imc', g + sum_list (map (fun j => Z.to_nat (size (Z.of_nat j)))
                                 (seq a0 m))) /\
    length Imc' = length Imc /\
    (forall k, a0 <= k < a0 + m ->
       exists v,
         estimate unit_draws (size (Z.of_nat k))
           (g + sum_list (map (fun j => Z.to_nat (size (Z.of_nat j)))
                            (seq a0 (k - a0))))
         = inr (v, g + sum_list (map (fun j => Z.to_nat (size (Z.of_nat j)))
                                   (seq a0 (k - a0)))
                     + Z.to_nat (size (Z.of_nat k))) /\
         Imc' !! k = Some v) /\
    (forall k, ~ (a0 <= k < a0 + m) -> Imc' !! k = Imc !! k).
Proof.
  intros Hbody. induction m as [|m IH]; intros a0 Imc g Hlen Hsize.
  - exists Imc. simpl. split_and!; [|done|intros; lia|done].
    unfold mret, sampler_ret. do 2 f_equal. lia.
  - destruct (estimate_ok unit_draws (size (Z.of_nat a0)) g)
      as (X & HX & HXlen & Hest); [apply Hsize; lia|].
    set (v := true_divide_R (IZR (b - a) * sum_R (map f X)) (size (Z.of_nat a0)))
      in *.
    set (Imc1 := <[a0 := v]> Imc).
    set (n0 := Z.to_nat (size (Z.of_nat a0))) in *.
    assert (Hstep : body Imc (Z.of_nat a0) g = inr (Imc1, g + n0)).
    { rewrite Hbody. bind_step ltac:(exact Hest).
      apply lift_ok. rewrite setitem_in_range by lia.
      unfold Imc1. by rewrite Nat2Z.id. }
    destruct (IH (S a0) Imc1 (g + n0)) as (Imc' & Hrun & Hl & Hset & Hrest).
    { unfold Imc1. rewrite length_insert. lia. }
    { intros k Hk. apply Hsize. lia. }
    exists Imc'. split_and!.
    + simpl seq. simpl map. simpl for_in.
      bind_step ltac:(exact Hstep). rewrite Hrun.
      do 2 f_equal. simpl sum_list. fold n0. lia.
    + rewrite Hl. unfold Imc1. by rewrite length_insert.
    + intros k Hk. destruct (decide (k = a0)) as [->|Hne].
      * exists v. rewrite Nat.sub_diag. simpl seq. simpl map. simpl sum_list.
        rewrite Nat.add_0_r. split; [exact Hest|].
        rewrite Hrest by lia. unfold Imc1.
        apply list_lookup_insert_eq. lia.
      * destruct (Hset k ltac:(lia)) as (w & Hw & Hk').
        exists w. split; [|exact Hk'].
        replace (k - a0) with (S (k - S a0)) by lia.
        simpl seq. simpl map. simpl sum_list. fold n0.
        rewrite !Nat.add_assoc. exact Hw.
    + intros k Hk. rewrite Hrest by lia. unfold Imc1.
      rewrite list_lookup_insert_ne by lia. done.
Qed.

Lemma sum_list_const (c m a0 : nat) :
  sum_list (map (fun _ => c) (seq a0 m)) = m * c.
Proof. revert a0. induction m as [|m IH]; intros a0; simpl; [done|]. by rewrite IH. Qed.

Lemma sum_list_snoc (l : list nat) (x : nat) :
  sum_list (l ++ [x]) = sum_list l + x.
Proof. induction l as [|y l IH]; simpl; lia. Qed.

Lemma sum_list_triangle (m : nat) :
  2 * sum_list (map (fun j => Z.to_nat (Z.of_nat j)) (seq 0 m)) = m * (m - 1).
Proof.
  induction m as [|m IH]; [reflexivity|].
  rewrite seq_S, map_app. simpl (map _ [_]).
  rewrite sum_list_snoc, Nat2Z.id. nia.
Qed.

(** The run of the cell of repeated estimates, with the cursor. *)
Lemma repeated_cell_cursor (unit_draws : nat -> R) (g : nat) :
  exists Imc,
    repeated_cell unit_draws g
    = inr (Imc, g + Z.to_nat 1000 * Z.to_nat 10000) /\
    length Imc = Z.to_nat 1000 /\
    forall k, k < Z.to_nat 1000 ->
      exists v,
        estimate unit_draws 10000 (g + k * Z.to_nat 10000)
        = inr (v, g + k * Z.to_nat 10000 + Z.to_nat 10000) /\
        Imc !! k = Some v.
Proof.
  destruct (monte_carlo_loop_cursor unit_draws (fun _ => 10000%Z)
              (repeated_body unit_draws 10000)
              (fun _ _ _ => eq_refl) (Z.to_nat 1000) 0
              (replicate (Z.to_nat 1000) (Fin 0%R)) g)
    as (Imc & Hrun & Hlen & Hset & _).
  { rewrite length_replicate. lia. }
  { intros k _. lia. }
  rewrite length_replicate in Hlen.
  rewrite sum_list_const in Hrun.
  exists Imc. split; [|split; [exact Hlen|]].
  - unfold repeated_cell. cbv zeta.
    bind_step ltac:(apply lift_ok, zeros_ok; lia).
    rewrite arange_from_zero. exact Hrun.
  - intros k Hk.
    destruct (Hset k ltac:(lia)) as (v & Hv & Hk').
    rewrite sum_list_const, Nat.sub_0_r in Hv.
    exists v. split; [exact Hv|exact Hk'].
Qed.

(** X13. The draws of the cell of repeated estimates: estimate i is computed
    from the 10000 draws that start at position g + 10000 i, so no two
    estimates share a draw, and the cell consumes 1000 * 10000 draws. *)
Theorem repeated_cell_draws (unit_draws : nat -> R) (g : nat) :
  exists Imc,
    repeated_cell unit_draws g
    = inr (Imc, g + Z.to_nat 1000 * Z.to_nat 10000) /\
    length Imc = Z.to_nat 1000 /\
    forall i : Z, (0 <= i <= 999)%Z ->
      exists v,
        estimate unit_draws 10000 (g + Z.to_nat i * Z.to_nat 10000)
        = inr (v, g + Z.to_nat i * Z.to_nat 10000 + Z.to_nat 10000) /\
        getitem Imc i = inr v.
Proof.
  destruct (repeated_cell_cursor unit_draws g) as (Imc & Hrun & Hlen & Hent).
  exists Imc. split; [exact Hrun|]. split; [exact Hlen|].
  intros i Hi.
  destruct (Hent (Z.to_nat i) ltac:(lia)) as (v & Hv & Hk).
  exists v. split; [exact Hv|].
  apply getitem_in_range; [lia|exact Hk].
Qed.

(** X14. The draws of the error-scaling cell: the estimate of N draws is computed
    from the draws at positions g + N (N - 1) / 2 on, after the
    0 + 1 + ... + (N - 1) draws of the iterations before it; the cell
    consumes 499500 draws. *)
Theorem scaling_cell_draws (unit_draws : nat -> R) (g : nat) :
  exists Imc plot,
    scaling_cell unit_draws g = inr ((Imc, plot), g + Z.to_nat 499500) /\
    length Imc = Z.to_nat 1000 /\
    forall N : Z, (0 <= N <= 999)%Z ->
      exists v,
        estimate unit_draws N (g + Z.to_nat (N * (N - 1) / 2))
        = inr (v, g + Z.to_nat (N * (N - 1) / 2) + Z.to_nat N) /\
        getitem Imc N = inr v.
Proof.
  destruct (monte_carlo_loop_cursor unit_draws (fun i => i)
              (scaling_body unit_draws)
              (fun _ _ _ => eq_refl) (Z.to_nat 1000) 0
              (replicate (Z.to_nat 1000) (Fin 0%R)) g)
    as (Imc & Hrun & Hlen & Hset & _).
  { rewrite length_replicate. lia. }
  { intros k _. lia. }
  rewrite length_replicate in Hlen.
  assert (Htri : forall m : nat,
    sum_list (map (fun j => Z.to_nat (Z.of_nat j)) (seq 0 m))
    = Z.to_nat (Z.of_nat m * (Z.of_nat m - 1) / 2)).
  { intros m. pose proof (sum_list_triangle m) as H.
    apply Nat2Z.inj. rewrite Z2Nat.id by (apply Z.div_pos; nia).
    apply Z.div_unique_exact; [lia|]. nia. }
  rewrite Htri in Hrun.
  replace (Z.of_nat (Z.to_nat 1000) * (Z.of_nat (Z.to_nat 1000) - 1) / 2)%Z
    with 499500%Z in Hrun by (rewrite Z2Nat.id by lia; reflexivity).
  eexists Imc, _. split; [|split; [exact Hlen|]].
  - unfold scaling_cell.
    bind_step ltac:(apply lift_ok, zeros_ok; lia).
    bind_step ltac:(apply lift_ok, linspace_ok; lia).
    rewrite arange_from_zero.
    bind_step ltac:(exact Hrun).
    reflexivity.
  - intros N HN.
    destruct (Hset (Z.to_nat N) ltac:(lia)) as (v & Hv & Hk).
    rewrite Nat.sub_0_r, Htri, Z2Nat.id in Hv by lia.
    exists v. split; [exact Hv|].
    apply getitem_in_range; [lia|exact Hk].
Qed.

Lemma repeated_cell_draws_witness :
  exists (Imc : list (float64 R)) (v : float64 R), getitem Imc 3 = inr v.
Proof.
  destruct (repeated_cell_draws (fun _ => (1 / 2)%R) 0) as (Imc & _ & _ & H).
  destruct (H 3%Z ltac:(lia)) as (v & _ & Hget).
  exists Imc, v. exact Hget.
Defined.

Lemma scaling_cell_draws_witness :
  exists (Imc : list (float64 R)) (v : float64 R), getitem Imc 3 = inr v.
Proof.
  destruct (scaling_cell_draws (fun _ => (1 / 2)%R) 0) as (Imc & plot & _ & _ & H).
  destruct (H 3%Z ltac:(lia)) as (v & _ & Hget).
  exists Imc, v. exact Hget.
Defined.

(** An estimate reads the draws of its own sample and no other. *)
Lemma estimate_local (u u' : nat -> R) (N : Z) (g : nat) :
  (forall k, g <= k < g + Z.to_nat N -> u k = u' k) ->
  estimate u N g = estimate u' N g.
Proof.
  intros Hagree. unfold estimate, random_uniform, draw.
  unfold mbind, sampler_bind.
  destruct (N <? 0)%Z; [reflexivity|].
  assert (HX : map (fun k => (IZR a + (IZR b - IZR a) * u k)%R)
                 (seq g (Z.to_nat N))
               = map (fun k => (IZR a + (IZR b - IZR a) * u' k)%R)
                   (seq g (Z.to_nat N))).
  { apply map_ext_in. intros k Hk. apply in_seq in Hk.
    by rewrite Hagree by lia. }
  by rewrite HX.
Qed.

(** X15. The cell of repeated estimates depends on the 1000 * 10000 draws it
    consumes and on nothing else of the generator's stream. *)
Theorem repeated_cell_local (u u' : nat -> R) (g : nat) :
  (forall k, g <= k < g + Z.to_nat 1000 * Z.to_nat 10000 -> u k = u' k) ->
  repeated_cell u g = repeated_cell u' g.
Proof.
  intros Hagree.
  destruct (repeated_cell_cursor u g) as (Imc & Hrun & Hlen & Hent).
  destruct (repeated_cell_cursor u' g) as (Imc' & Hrun' & Hlen' & Hent').
  rewrite Hrun, Hrun'. do 2 f_equal.
  apply list_eq. intros k.
  destruct (decide (k < Z.to_nat 1000)) as [Hk|Hk].
  - destruct (Hent k Hk) as (v & Hv & Hget).
    destruct (Hent' k Hk) as (v' & Hv' & Hget').
    rewrite (estimate_local u u') in Hv.
    + rewrite Hv in Hv'. apply (inj inr) in Hv'.
      apply (f_equal fst) in Hv'. simpl in Hv'. subst v'.
      by rewrite Hget, Hget'.
    + intros j Hj. apply Hagree. nia.
  - rewrite !lookup_ge_None_2 by lia. reflexivity.
Qed.

Lemma repeated_cell_local_witness :
  repeated_cell (fun _ => 0%R) 5
  = repeated_cell (fun k => if k <? 5 then 1%R else 0%R) 5.
Proof.
  apply repeated_cell_local. intros k [Hk _].
  destruct (Nat.ltb_spec k 5); [lia|reflexivity].
Defined.

(** X16. The abscissae of the error plot: Na = np.linspace(0, 1000, 1000) has
    the step 1000/999, so Na[N] = 1000 N / 999, which is N only for N = 0:
    the error of the estimate from N draws is plotted at an abscissa larger
    than N. *)
Theorem error_plot_abscissae (unit_draws : nat -> R) (g : nat) :
  exists Imc Na g',
    scaling_cell unit_draws g
    = inr ((Imc, error_plot Na Imc exactval), g') /\
    linspace 0 1000 1000 = inr Na /\
    length Na = length Imc /\
    forall N : Z, (0 <= N <= 999)%Z ->
      getitem Na N = inr (IZR N * 1000 / 999)%R /\
      ((1 <= N)%Z -> (IZR N < IZR N * 1000 / 999)%R).
Proof.
  destruct (scaling_cell_run unit_draws g)
    as (Imc & Na & g' & Hrun & Hlin & HNa & Hlen & _).
  exists Imc, Na, g'. split; [exact Hrun|]. split; [exact Hlin|].
  split; [rewrite HNa, Hlen; by rewrite length_map, length_seq|].
  intros N HN. split.
  - apply getitem_in_range; [lia|].
    rewrite HNa, list_lookup_fmap, lookup_seq_lt by lia.
    simpl. f_equal. rewrite INR_IZR_INZ, Z2Nat.id by lia.
    change (IZR (1000 - 1)) with 999%R. lra.
  - intros H1. apply IZR_le in H1. lra.
Qed.

Lemma error_plot_abscissae_witness :
  exists Na : list R, getitem Na 999 = inr (IZR 999 * 1000 / 999)%R.
Proof.
  destruct (error_plot_abscissae (fun _ => (1 / 2)%R) 0)
    as (Imc & Na & g' & _ & _ & _ & H).
  destruct (H 999%Z ltac:(lia)) as [Hget _].
  exists Na. exact Hget.
Defined.

End MonteCarloFacts.

Module IndexingFacts.
Import Numpy NumpyFacts.

(** X17. np.arange(start, stop, step) holds the integers of the half-open
    interval from start to stop that are a multiple of the step away from
    start, and no other; it is empty when stop is not above start. *)
Theorem arange_half_open (start stop : Z) (step : positive) (x : Z) :
  x ∈ arange start stop step
  <-> (start <= x < stop)%Z /\ ((x - start) mod Z.pos step = 0)%Z.
Proof.
  unfold arange. rewrite list_elem_of_fmap. split.
  - intros (k & -> & Hk). apply elem_of_seq in Hk.
    assert (Hk' : (Z.of_nat k
                   < (stop - start + Z.pos step - 1) / Z.pos step)%Z) by lia.
    assert (Hmul : (Z.of_nat k * Z.pos step + Z.pos step
                    <= stop - start + Z.pos step - 1)%Z).
    { pose proof (Z.mul_div_le (stop - start + Z.pos step - 1) (Z.pos step)
                    ltac:(lia)). nia. }
    split; [nia|].
    replace (start + Z.of_nat k * Z.pos step - start)%Z
      with (Z.of_nat k * Z.pos step)%Z by lia.
    apply Z.mod_mul. lia.
  - intros [[Hlo Hhi] Hmod].
    apply Z.mod_divide in Hmod as (q & Hq); [|lia].
    assert (Hq0 : (0 <= q)%Z) by nia.
    exists (Z.to_nat q). split; [lia|].
    apply elem_of_seq. split; [lia|].
    assert (q + 1 <= (stop - start + Z.pos step - 1) / Z.pos step)%Z; [|lia].
    apply Z.div_le_lower_bound; [lia|]. nia.
Qed.

(** X18. Index assignment and indexing: a[i] = x succeeds exactly for
    -len(a) <= i < len(a); after it a[i] is x, the length is the same, and
    the entries at the other positions are as before. *)
Theorem setitem_getitem {A} (a : list A) (i : Z) (x : A) :
  ((- Z.of_nat (length a) <= i < Z.of_nat (length a))%Z ->
   exists a',
     setitem a i x = inr a' /\
     length a' = length a /\
     getitem a' i = inr x /\
     forall j, (- Z.of_nat (length a) <= j < Z.of_nat (length a))%Z ->
       ((j - i) mod Z.of_nat (length a))%Z <> 0%Z ->
       getitem a' j = getitem a j) /\
  (~ (- Z.of_nat (length a) <= i < Z.of_nat (length a))%Z ->
   setitem a i x = inl IndexError /\ getitem a i = inl IndexError).
Proof.
  assert (Hnorm : forall len j,
    (- Z.of_nat len <= j < Z.of_nat len)%Z ->
    norm_index len j = inr (Z.to_nat (j mod Z.of_nat len))).
  { intros len j Hj. unfold norm_index.
    destruct (Z.leb_spec 0 j); destruct (Z.ltb_spec j (Z.of_nat len));
      simpl; try lia.
    - by rewrite Z.mod_small by lia.
    - destruct (Z.leb_spec (- Z.of_nat len) j); simpl; [|lia].
      destruct (Z.ltb_spec j 0); [|lia]. do 2 f_equal.
      apply Z.mod_unique with (-1)%Z; lia. }
  split.
  - intros Hi. set (n := length a) in *.
    assert (Hk : Z.to_nat (i mod Z.of_nat n) < n).
    { pose proof (Z.mod_pos_bound i (Z.of_nat n) ltac:(lia)). lia. }
    exists (<[Z.to_nat (i mod Z.of_nat n) := x]> a).
    split; [unfold setitem; fold n; by rewrite Hnorm|].
    split; [by rewrite length_insert|].
    split.
    + unfold getitem. rewrite length_insert. fold n. rewrite Hnorm by exact Hi.
      simpl. rewrite list_lookup_insert_eq by exact Hk. reflexivity.
    + intros j Hj Hne. unfold getitem. rewrite length_insert. fold n.
      rewrite Hnorm by exact Hj. simpl.
      rewrite list_lookup_insert_ne; [reflexivity|].
      intros Heq.
      pose proof (Z.mod_pos_bound i (Z.of_nat n) ltac:(lia)).
      pose proof (Z.mod_pos_bound j (Z.of_nat n) ltac:(lia)).
      apply Hne. rewrite Zminus_mod.
      replace (j mod Z.of_nat n)%Z with (i mod Z.of_nat n)%Z by lia.
      rewrite Z.sub_diag. apply Z.mod_0_l. lia.
  - intros Hi.
    assert (Herr : norm_index (length a) i = inl IndexError).
    { unfold norm_index.
      repeat (match goal with
              | |- context [Z.leb ?u ?v] => destruct (Z.leb_spec u v)
              | |- context [Z.ltb ?u ?v] => destruct (Z.ltb_spec u v)
              end; simpl);
        try reflexivity; lia. }
    unfold setitem, getitem. by rewrite Herr.
Qed.

Lemma setitem_getitem_witness :
  exists a',
    setitem [10; 20; 30]%Z (-1) 7%Z = inr a' /\
    getitem a' (-1) = inr 7%Z /\
    getitem a' 0 = getitem [10; 20; 30]%Z 0.
Proof.
  destruct (proj1 (setitem_getitem [10; 20; 30]%Z (-1) 7%Z))
    as (a' & Hset & _ & Hget & Hrest); [simpl; lia|].
  exists a'. split; [exact Hset|]. split; [exact Hget|].
  apply Hrest; [simpl; lia|]. vm_compute. discriminate.
Defined.

End IndexingFacts.

Module KernelFacts.
Import Numpy Kernel NumpyArrays NumpyFacts NumpyArraysFacts.

Local Open Scope string_scope.

(** An unbound name that neither Python nor IPython resolves is a
    NameError, and the kernel is left as it was. *)
Lemma name_unbound (x : string) (w : world) (k : kernel) :
  globals k !! x = None ->
  bool_decide (x ∈ builtins) = false ->
  bool_decide (x ∈ other_builtins) || underscored x = false ->
  name x w k = (inl (NameError ("name '" ++ x ++ "' is not defined")), k).
Proof. intros H Hb Ho. unfold name. by rewrite H, Hb, Ho. Qed.

Ltac cell_step H := rewrite (cell_bind_ok _ _ _ _ _ _ H).
Ltac cell_raise H := rewrite (cell_bind_raise _ _ _ _ _ _ H).
Ltac unbound := apply name_unbound; [assumption | vm_compute; reflexivity ..].

(** A cell that ends in an exception without having printed. *)
Lemma run_cell_raises (c : cell pyobj) (w : world) (k : kernel)
    (e : exception) (G : gmap string pyobj) :
  c w (KernelState (globals k) []) = (inl e, KernelState G []) ->
  run_cell w c k = (Output [] (inl e), KernelState G []).
Proof. intros H. unfold run_cell. rewrite H. reflexivity. Qed.

(** A call whose callee cannot be evaluated ends as the callee does. *)
Lemma call_callee_raises (f : cell pyobj) (args : list (cell pyobj))
    (kwargs : list (string * cell pyobj)) (w : world) (k k' : kernel)
    (e : exception) :
  f w k = (inl e, k') -> call f args kwargs w k = (inl e, k').
Proof. intros H. unfold call. by cell_raise H. Qed.

(** The cell plt.imshow(first_image) where plt has no attribute imshow. *)
Lemma imshow_no_attribute (w : world) (k : kernel) (v : pyobj)
    (e : exception) :
  globals k !! "plt" = Some v -> getattr v "imshow" = inl e ->
  run_cell w cell37 k = (Output [] (inl e), KernelState (globals k) []).
Proof.
  intros Hplt Hget. apply run_cell_raises. unfold cell37.
  apply call_callee_raises.
  rewrite (attr_name_bound "plt" "imshow" v w (KernelState (globals k) []) Hplt).
  rewrite Hget. reflexivity.
Qed.

(** X19. The last cell, plt.imshow(first_image): the callee is evaluated
    before the operand.  Where plt is not bound the cell ends in a NameError
    about plt (what the notebook recorded, the cell having been run before
    the import); where plt is the module matplotlib.pyplot and first_image
    is not bound, in a NameError about first_image; where plt is an integer
    or None, in an AttributeError, whether first_image is bound or not.  No
    cell binds first_image and the cell before binds plt to the module, so
    the run in order ends the cell in the NameError about first_image, in
    every world. *)
Theorem imshow_cell_name_errors (w : world) :
  (forall k, globals k !! "plt" = None ->
     run_cell w cell37 k
     = (Output [] (inl (NameError "name 'plt' is not defined")),
        KernelState (globals k) [])) /\
  (forall k, globals k !! "plt" = Some (PyModule "matplotlib.pyplot") ->
     globals k !! "first_image" = None ->
     run_cell w cell37 k
     = (Output [] (inl (NameError "name 'first_image' is not defined")),
        KernelState (globals k) [])) /\
  (forall k n, globals k !! "plt" = Some (PyInt n) ->
     run_cell w cell37 k
     = (Output []
          (inl (AttributeError "'int' object has no attribute 'imshow'")),
        KernelState (globals k) [])) /\
  (forall k, globals k !! "plt" = Some PyNone ->
     run_cell w cell37 k
     = (Output []
          (inl (AttributeError "'NoneType' object has no attribute 'imshow'")),
        KernelState (globals k) [])) /\
  (forall ok, ok ∈ run w -> globals ok.2 !! "first_image" = None) /\
  (exists k k',
     run w !! 35 = Some (Output [] (inr PyNone), k) /\
     globals k !! "plt" = Some (PyModule "matplotlib.pyplot") /\
     run w !! 36
     = Some (Output [] (inl (NameError "name 'first_image' is not defined")),
             k')).
Proof.
  split_and!.
  - intros k Hplt. apply run_cell_raises. unfold cell37.
    apply call_callee_raises. unfold attr.
    apply cell_bind_raise. simpl globals. unbound.
  - intros k Hplt Hfirst. apply run_cell_raises. unfold cell37, call.
    set (K0 := KernelState (globals k) []).
    assert (Hattr : attr (name "plt") "imshow" w K0
                    = (inr (PyFunction "matplotlib.pyplot.imshow"), K0))
      by (rewrite (attr_name_bound "plt" "imshow" _ w K0 Hplt);
          vm_compute; reflexivity).
    assert (Hargs : eval_args [name "first_image"] w K0
                    = (inl (NameError "name 'first_image' is not defined"), K0)).
    { simpl eval_args. apply cell_bind_raise. unfold K0. simpl globals.
      unbound. }
    cell_step Hattr. by cell_raise Hargs.
  - intros k n Hplt. by apply (imshow_no_attribute w k (PyInt n)).
  - intros k Hplt. by apply (imshow_no_attribute w k PyNone).
  - intros ok Hok.
    assert (H : forallb (fun ok : output * kernel =>
                           bool_decide (globals ok.2 !! "first_image" = None))
                  (run w) = true) by (vm_compute; reflexivity).
    pose proof (forallb_elem_of _ _ ok H Hok) as H1.
    by apply bool_decide_eq_true in H1.
  - do 2 eexists. split_and!; vm_compute; reflexivity.
Qed.

(** The shape that reshape(-1, 28, 28) infers for 784 n entries. *)
Lemma inferred_shape_images (n : nat) :
  inferred_shape (n * 784) [-1; 28; 28]%Z = inr [n; 28; 28].
Proof.
  unfold inferred_shape. cbv zeta.
  change (List.filter (fun d => negb (d =? -1)%Z) [-1; 28; 28]%Z)
    with [28; 28]%Z.
  change (size_of (map Z.to_nat [28; 28]%Z)) with 784.
  change (forallb (fun d => (0 <=? d)%Z) [28; 28]%Z) with true.
  change (length [-1; 28; 28]%Z - length [28; 28]%Z) with 1.
  cbv iota. change (negb true) with false. cbv iota.
  rewrite Nat.Div0.mod_mul.
  change (784 =? 0)%nat with false. change (0 =? 0)%nat with true.
  change (false || negb true) with false. cbv iota.
  rewrite Nat.div_mul by discriminate.
  reflexivity.
Qed.

(** reshape(-1, 28, 28) of a number of entries that 784 does not divide. *)
Lemma inferred_shape_ragged (size : nat) :
  size mod 784 <> 0 -> inferred_shape size [-1; 28; 28]%Z = inl ValueError.
Proof.
  intros H. unfold inferred_shape. cbv zeta.
  change (List.filter (fun d => negb (d =? -1)%Z) [-1; 28; 28]%Z)
    with [28; 28]%Z.
  change (size_of (map Z.to_nat [28; 28]%Z)) with 784.
  change (forallb (fun d => (0 <=? d)%Z) [28; 28]%Z) with true.
  change (length [-1; 28; 28]%Z - length [28; 28]%Z) with 1.
  cbv iota. change (negb true) with false. cbv iota.
  apply Nat.eqb_neq in H. rewrite H.
  reflexivity.
Qed.

(** The call test_images.reshape(-1, 28, 28) on an array of integers. *)
Lemma reshape_call (w : world) (k : kernel) (shape : list nat) (a : list Z) :
  globals k !! "test_images" = Some (PyIntNd shape a) ->
  call (attr (name "test_images") "reshape") [int (-1); int 28; int 28] [] w k
  = (shape' ← inferred_shape (length a) [-1; 28; 28]%Z;
     match shape' with
     | [_] => inr (PyIntArray a)
     | _ => inr (PyIntNd shape' a)
     end, k).
Proof.
  intros Hv.
  assert (Hattr : attr (name "test_images") "reshape" w k
                  = (inr (PyBoundMethod (PyIntNd shape a) "reshape"), k))
    by (rewrite (attr_name_bound _ _ _ _ _ Hv); reflexivity).
  unfold call. cell_step Hattr. reflexivity.
Qed.

(** X20. The reshape cell, test_images_tensor = test_images.reshape(-1, 28, 28)
    followed by test_iamges_tensor.shape.  Where test_images is not bound
    the cell ends in the NameError the notebook recorded.  Where it is an
    array of n rows of 784 integers and the misspelt name is not bound, the
    first line binds test_images_tensor to the same entries under the shape
    (n, 28, 28), and the second line ends the cell in a NameError about
    test_iamges_tensor.  Where it is an array whose number of entries is no
    multiple of 784, the first line ends the cell in a ValueError, and where
    it is an integer in an AttributeError; then nothing is bound. *)
Theorem reshape_cell_misspelt_name (w : world) (k : kernel) :
  (globals k !! "test_images" = None ->
   run_cell w cell33 k
   = (Output [] (inl (NameError "name 'test_images' is not defined")),
      KernelState (globals k) [])) /\
  (forall (n : nat) (a : list Z),
     globals k !! "test_images" = Some (PyIntNd [n; 784] a) ->
     length a = n * 784 ->
     globals k !! "test_iamges_tensor" = None ->
     run_cell w cell33 k
     = (Output []
          (inl (NameError "name 'test_iamges_tensor' is not defined")),
        KernelState
          (<["test_images_tensor" := PyIntNd [n; 28; 28] a]> (globals k))
          [])) /\
  (forall (shape : list nat) (a : list Z),
     globals k !! "test_images" = Some (PyIntNd shape a) ->
     length a mod 784 <> 0 ->
     run_cell w cell33 k
     = (Output [] (inl ValueError), KernelState (globals k) [])) /\
  (forall n : Z,
     globals k !! "test_images" = Some (PyInt n) ->
     run_cell w cell33 k
     = (Output []
          (inl (AttributeError "'int' object has no attribute 'reshape'")),
        KernelState (globals k) [])).
Proof.
  set (K0 := KernelState (globals k) []).
  split_and!.
  - intros Hnone. apply run_cell_raises. unfold cell33, assign.
    apply cell_bind_raise. apply cell_bind_raise.
    apply call_callee_raises. unfold attr. apply cell_bind_raise.
    simpl globals. unbound.
  - intros n a Hv Hlen Htypo.
    set (K1 := KernelState
                 (<["test_images_tensor" := PyIntNd [n; 28; 28] a]> (globals k))
                 []).
    assert (Hcall :
      call (attr (name "test_images") "reshape")
        [int (-1); int 28; int 28] [] w K0
      = (inr (PyIntNd [n; 28; 28] a), K0)).
    { rewrite (reshape_call w K0 [n; 784] a Hv), Hlen, inferred_shape_images.
      reflexivity. }
    assert (Hassign :
      assign "test_images_tensor"
        (call (attr (name "test_images") "reshape")
           [int (-1); int 28; int 28] []) w K0 = (inr (), K1))
      by (unfold assign; cell_step Hcall; reflexivity).
    assert (Hshape :
      attr (name "test_iamges_tensor") "shape" w K1
      = (inl (NameError "name 'test_iamges_tensor' is not defined"), K1)).
    { unfold attr. apply cell_bind_raise. apply name_unbound.
      - unfold K1. simpl globals. by rewrite lookup_insert_ne.
      - vm_compute; reflexivity.
      - vm_compute; reflexivity. }
    apply run_cell_raises. unfold cell33. fold K0.
    cell_step Hassign. exact Hshape.
  - intros shape a Hv Hmod. apply run_cell_raises. unfold cell33, assign.
    apply cell_bind_raise. apply cell_bind_raise. fold K0.
    rewrite (reshape_call w K0 shape a Hv), inferred_shape_ragged by exact Hmod.
    reflexivity.
  - intros n Hv. apply run_cell_raises. unfold cell33, assign.
    apply cell_bind_raise. apply cell_bind_raise.
    apply call_callee_raises. fold K0.
    rewrite (attr_name_bound "test_images" "reshape" (PyInt n) w K0 Hv).
    reflexivity.
Qed.

Lemma reshape_cell_misspelt_name_witness :
  exists k',
    run_cell (World (fun _ => None) (fun _ => [])) cell33
      (KernelState
         (<["test_images" := PyIntNd [1; 784] (replicate 784 0%Z)]> ∅) [])
    = (Output [] (inl (NameError "name 'test_iamges_tensor' is not defined")),
       k') /\
    globals k' !! "test_images_tensor"
    = Some (PyIntNd [1; 28; 28] (replicate 784 0%Z)).
Proof.
  eexists. split.
  - apply (proj1 (proj2 (reshape_cell_misspelt_name
                           (World (fun _ => None) (fun _ => []))
                           (KernelState
                              (<["test_images" :=
                                   PyIntNd [1; 784] (replicate 784 0%Z)]> ∅)
                              []))) 1 (replicate 784 0%Z)).
    + vm_compute. reflexivity.
    + vm_compute. reflexivity.
    + vm_compute. reflexivity.
  - vm_compute. reflexivity.
Defined.

(** A builtin that no global shadows. *)
Lemma name_builtin (x : string) (w : world) (k : kernel) :
  globals k !! x = None -> bool_decide (x ∈ builtins) = true ->
  name x w k = (inr (PyFunction x), k).
Proof. intros H Hb. unfold name. by rewrite H, Hb. Qed.

(** print(e) appends the value of e to the output stream. *)
Lemma print_ok (e : cell pyobj) (v : pyobj) (w : world) (k k' : kernel) :
  globals k !! "print" = None ->
  e w k = (inr v, k') ->
  call (name "print") [e] [] w k
  = (inr PyNone, KernelState (globals k') (stdout k' ++ [v])).
Proof.
  intros Hp He. unfold call.
  cell_step (name_builtin "print" w k Hp eq_refl).
  assert (Hargs : eval_args [e] w k = (inr [v], k'))
    by (unfold eval_args; cell_step He; reflexivity).
  cell_step Hargs. reflexivity.
Qed.

Lemma expr_ok (e : cell pyobj) (v : pyobj) (w : world) (k k' : kernel) :
  e w k = (inr v, k') -> expr e w k = (inr (), k').
Proof. intros He. unfold expr. by cell_step He. Qed.

(** The loop for ele in my_array: print(ele). *)
Lemma print_loop (w : world) (a : list Z) (G : gmap string pyobj)
    (out : list pyobj) :
  G !! "print" = None ->
  for_in (map PyInt a)
    (fun (_ : unit) v =>
       store_name "ele" v;; expr (call (name "print") [name "ele"] []))
    () w (KernelState G out)
  = (inr (),
     KernelState (match last a with
                  | Some x => <["ele" := PyInt x]> G
                  | None => G
                  end)
       (out ++ map PyInt a)).
Proof.
  revert G out. induction a as [|x a IH]; intros G out Hp.
  - simpl. by rewrite app_nil_r.
  - set (G1 := <["ele" := PyInt x]> G).
    assert (Hp1 : G1 !! "print" = None)
      by (unfold G1; by rewrite lookup_insert_ne).
    assert (Hbody :
      (store_name "ele" (PyInt x);;
       expr (call (name "print") [name "ele"] [])) w (KernelState G out)
      = (inr (), KernelState G1 (out ++ [PyInt x]))).
    { assert (Hstore : store_name "ele" (PyInt x) w (KernelState G out)
                       = (inr (), KernelState G1 out)) by reflexivity.
      cell_step Hstore.
      assert (Hele : name "ele" w (KernelState G1 out)
                     = (inr (PyInt x), KernelState G1 out)).
      { apply name_bound. unfold G1. simpl globals. apply lookup_insert_eq. }
      apply (expr_ok _ PyNone).
      apply (print_ok (name "ele") (PyInt x) w (KernelState G1 out)
               (KernelState G1 out) Hp1 Hele). }
    simpl map. simpl for_in. cell_step Hbody.
    rewrite IH by exact Hp1.
    rewrite <- app_assoc. simpl app. do 2 f_equal.
    rewrite last_cons. unfold G1.
    destruct (last a); [apply insert_insert_eq|reflexivity].
Qed.

(** X21. The cell print(len(my_array)); print(my_array[2:4]);
    for ele in my_array: print(ele), for any integer array my_array: it
    prints the length, the entries at the positions 2 and 3 that exist, and
    then every entry in order, 2 + len(my_array) values in all; it leaves
    ele bound to the last entry, or unbound as it was if the array is
    empty. *)
Theorem print_cell_output (w : world) (k : kernel) (a : list Z) :
  globals k !! "my_array" = Some (PyIntArray a) ->
  globals k !! "print" = None ->
  globals k !! "len" = None ->
  let printed :=
    ([PyInt (Z.of_nat (length a)); PyIntArray (drop 2 (take 4 a))]
     ++ map PyInt a)%list in
  run_cell w cell03 k
  = (Output printed (inr PyNone),
     KernelState (match last a with
                  | Some x => <["ele" := PyInt x]> (globals k)
                  | None => globals k
                  end)
       printed).
Proof.
  intros Ha Hp Hl printed.
  set (K0 := KernelState (globals k) []).
  assert (Harr : forall out,
    name "my_array" w (KernelState (globals k) out)
    = (inr (PyIntArray a), KernelState (globals k) out)).
  { intros out. by apply name_bound. }
  assert (Hlen : call (name "len") [name "my_array"] [] w K0
                 = (inr (PyInt (Z.of_nat (length a))), K0)).
  { unfold call. cell_step (name_builtin "len" w K0 Hl eq_refl).
    assert (Hargs : eval_args [name "my_array"] w K0 = (inr [PyIntArray a], K0))
      by (unfold eval_args; cell_step (Harr []); reflexivity).
    cell_step Hargs. reflexivity. }
  set (K1 := KernelState (globals k) [PyInt (Z.of_nat (length a))]).
  assert (Hslice : slice (name "my_array") 2 4 w K1
                   = (inr (PyIntArray (drop 2 (take 4 a))), K1)).
  { unfold slice. cell_step (Harr [PyInt (Z.of_nat (length a))]).
    unfold lift_result, getslice.
    rewrite slice_to_take, slice_from_drop by lia.
    reflexivity. }
  unfold run_cell, cell03. fold K0.
  cell_step (expr_ok _ _ w _ _ (print_ok _ _ w K0 K0 Hp Hlen)).
  cell_step (expr_ok _ _ w _ _ (print_ok _ _ w K1 K1 Hp Hslice)).
  assert (Hloop :
    for_loop "ele" (name "my_array")
      (expr (call (name "print") [name "ele"] [])) w
      (KernelState (globals K1)
         (stdout K1 ++ [PyIntArray (drop 2 (take 4 a))])%list)
    = (inr (),
       KernelState (match last a with
                    | Some x => <["ele" := PyInt x]> (globals k)
                    | None => globals k
                    end) printed)).
  { unfold for_loop.
    cell_step (Harr ([PyInt (Z.of_nat (length a))]
                     ++ [PyIntArray (drop 2 (take 4 a))])%list).
    rewrite print_loop by exact Hp. reflexivity. }
  cell_step Hloop. reflexivity.
Qed.
Lemma print_cell_output_witness :
  exists k',
    run_cell (World (fun _ => None) (fun _ => [])) cell03
      (KernelState (<["my_array" := PyIntArray [1; 2; 3; 4]%Z]> ∅) [])
    = (Output ([PyInt (Z.of_nat (length [1; 2; 3; 4]%Z));
                PyIntArray (drop 2 (take 4 [1; 2; 3; 4]%Z))]
               ++ map PyInt [1; 2; 3; 4]%Z)%list (inr PyNone), k').
Proof.
  eexists.
  apply (print_cell_output (World (fun _ => None) (fun _ => []))
           (KernelState (<["my_array" := PyIntArray [1; 2; 3; 4]%Z]> ∅) [])
           [1; 2; 3; 4]%Z); vm_compute; reflexivity.
Defined.

End KernelFacts.
